(** * A-share market-data tools: a shallow embedding of
      [src/tools/stock_data_tool.py]

    Each of the five tools fetches a table from the data provider, filters
    or sorts it, builds a dictionary and returns [json.dumps] of it; one
    [try]/[except Exception] surrounds the body and returns placeholder
    data with the error text instead.

    The embedding follows the Python code:
    - float64 values are Rocq's primitive binary64 floats, so [NaN], [-0.0]
      and the literal [9.9] behave as they do in Python;
    - a DataFrame is a list of column labels with a list of records; a cell
      holds a float or a string;
    - code that may raise runs in an error monad, and [try_except] is the
      exception boundary of each tool;
    - the dictionary handed to [json.dumps] is kept as a tree with its keys
      in insertion order;
    - what the float and string libraries compute ([float(s)], [int(s)],
      [mean], [sum], [round(x, 2)]) is a parameter of the tools; numpy's
      [round], which [round(x, 2)] is on the values of the statistics tool,
      is spelled out for the rounding of the two aggregates. *)

From Stdlib Require Import ZArith List String Ascii Bool Floats Lia.
From Stdlib Require Uint63.
From Stdlib Require Import Sorting.Sorted Permutation.
Import ListNotations.

#[local] Set Warnings "-inexact-float,-register-all".
#[local] Open Scope string_scope.

(** ** binary64 comparisons

    [PrimFloat.ltb], [leb] and [eqb] are specified on [spec_float] by
    [SFcompare].  [sf_key] sends every value that is not NaN to a triple of
    integers whose lexicographic order is the order of the floats; both
    zeros share a key. *)

Module F64.

Definition key := (Z * Z * Z)%type.

Definition sf_key (f : spec_float) : option key :=
  match f with
  | S754_nan => None
  | S754_infinity true => Some (-2, 0, 0)%Z
  | S754_infinity false => Some (2, 0, 0)%Z
  | S754_zero _ => Some (0, 0, 0)%Z
  | S754_finite true m e => Some (-1, - e, Z.neg m)%Z
  | S754_finite false m e => Some (1, e, Z.pos m)%Z
  end.

Definition lex3 (a b : key) : comparison :=
  let '(a1, a2, a3) := a in
  let '(b1, b2, b3) := b in
  match (a1 ?= b1)%Z with
  | Eq => match (a2 ?= b2)%Z with
          | Eq => (a3 ?= b3)%Z
          | c => c
          end
  | c => c
  end.

Definition fkey (x : float) : option key := sf_key (Prim2SF x).

(** The order of keys, as a proposition [lia] can work with. *)
Definition key_le (a b : key) : Prop :=
  let '(a1, a2, a3) := a in
  let '(b1, b2, b3) := b in
  (a1 < b1 \/ (a1 = b1 /\ (a2 < b2 \/ (a2 = b2 /\ a3 <= b3))))%Z.

Definition key_lt (a b : key) : Prop :=
  let '(a1, a2, a3) := a in
  let '(b1, b2, b3) := b in
  (a1 < b1 \/ (a1 = b1 /\ (a2 < b2 \/ (a2 = b2 /\ a3 < b3))))%Z.

Definition is_number (x : float) : bool := negb (PrimFloat.is_nan x).

(** Python's [y >= x], [y <= x], [y > x] and [y < x] on floats. *)
Definition ge (y x : float) : bool := PrimFloat.leb x y.
Definition le (y x : float) : bool := PrimFloat.leb y x.
Definition gt (y x : float) : bool := PrimFloat.ltb x y.
Definition lt (y x : float) : bool := PrimFloat.ltb y x.

End F64.

(** ** Python values, exceptions and the exception boundary *)

Module Py.

(** An exception object: its class name and [str(e)].  Every exception of
    the model is an instance of [Exception], the class the tools catch. *)
Record exn := mkExn { exn_type : string; exn_str : string }.

(** The outcome of running Python code: a value, or a raised exception. *)
Inductive outcome (A : Type) : Type :=
| Return (a : A)
| Raise (e : exn).
Arguments Return {A} a.
Arguments Raise {A} e.

Definition bind {A B : Type} (c : outcome A) (k : A -> outcome B) : outcome B :=
  match c with
  | Return a => k a
  | Raise e => Raise e
  end.

Notation "x <- c ;; k" := (bind c (fun x => k))
  (at level 61, c at next level, right associativity).

Fixpoint mapM {A B : Type} (f : A -> outcome B) (l : list A) : outcome (list B) :=
  match l with
  | [] => Return []
  | a :: l' => b <- f a ;; bs <- mapM f l' ;; Return (b :: bs)
  end.

(** [try: body / except Exception as e: handler e] *)
Definition try_except {A : Type} (body : outcome A) (handler : exn -> outcome A)
  : outcome A :=
  match body with
  | Return a => Return a
  | Raise e => handler e
  end.

(** What a DataFrame cell holds: a float64 (NaN marks a missing value) or a
    Python string.  A column of integers is held as the floats of its
    values. *)
Inductive cell : Type :=
| CFloat (x : float)
| CStr (s : string).

(** The value handed to [json.dumps]; a dictionary keeps its keys in
    insertion order. *)
Inductive json : Type :=
| JFloat (x : float)
| JInt (n : Z)
| JStr (s : string)
| JList (l : list json)
| JObj (o : list (string * json)).

(** What a tool returns: the text [json.dumps(doc, ensure_ascii=False,
    indent=2)], or a plain string. *)
Inductive response : Type :=
| JsonText (doc : json)
| PlainText (s : string).

(** The library functions the tools call on floats and strings: the parsers
    behind [float(s)] and [int(s)] ([None] where they raise [ValueError]),
    pandas' [mean] and [sum] over the values that are not NaN, and
    [round(x, 2)]. *)
Record library := mkLibrary {
  float_of_str : string -> option float;
  int_of_str : string -> option Z;
  nanmean : list float -> float;
  nansum : list float -> float;
  round2 : float -> float
}.

Definition value_error (msg : string) : exn := mkExn "ValueError" msg.
Definition type_error (msg : string) : exn := mkExn "TypeError" msg.

(** [float(c)] *)
Definition py_float (L : library) (c : cell) : outcome float :=
  match c with
  | CFloat x => Return x
  | CStr s =>
      match float_of_str L s with
      | Some x => Return x
      | None => Raise (value_error ("could not convert string to float: '" ++ s ++ "'"))
      end
  end.

(** [int(c)]: a float is truncated towards zero; NaN and the infinities
    raise. *)
Definition py_int (L : library) (c : cell) : outcome Z :=
  match c with
  | CFloat x =>
      match Prim2SF x with
      | S754_nan => Raise (value_error "cannot convert float NaN to integer")
      | S754_infinity _ =>
          Raise (mkExn "OverflowError" "cannot convert float infinity to integer")
      | S754_zero _ => Return 0%Z
      | S754_finite s m e =>
          let v := Z.shiftl (Z.pos m) e in Return (if s then (- v)%Z else v)
      end
  | CStr s =>
      match int_of_str L s with
      | Some n => Return n
      | None => Raise (value_error ("invalid literal for int() with base 10: '" ++ s ++ "'"))
      end
  end.

(** [a < b] on cell values: floats by value, strings lexicographically,
    a string against a float raises [TypeError]. *)
Definition py_lt (a b : cell) : outcome bool :=
  match a, b with
  | CFloat x, CFloat y => Return (PrimFloat.ltb x y)
  | CStr s, CStr t => Return (String.ltb s t)
  | CStr _, CFloat _ =>
      Raise (type_error "'<' not supported between instances of 'str' and 'float'")
  | CFloat _, CStr _ =>
      Raise (type_error "'<' not supported between instances of 'float' and 'str'")
  end.

(** A value as [json.dumps] sees it. *)
Definition cell_json (c : cell) : json :=
  match c with
  | CFloat x => JFloat x
  | CStr s => JStr s
  end.

(** [d[k] = v] on a dictionary. *)
Fixpoint dict_set (d : list (string * json)) (k : string) (v : json)
  : list (string * json) :=
  match d with
  | [] => [(k, v)]
  | (k', v') :: d' =>
      if String.eqb k k' then (k, v) :: d' else (k', v') :: dict_set d' k v
  end.

(** [d[k]] read back from a document. *)
Fixpoint dict_get (d : list (string * json)) (k : string) : option json :=
  match d with
  | [] => None
  | (k', v) :: d' => if String.eqb k k' then Some v else dict_get d' k
  end.

End Py.

(** ** The part of pandas the tools use *)

Module Pandas.
Import Py.

Definition record := list (string * cell).

(** A table: its column labels and one record per row.  A label of
    [columns] that a record does not carry reads as NaN, as in a frame built
    from records. *)
Record DataFrame := mkDF { columns : list string; rows : list record }.

(** A row taken out of a table: the labels it answers to and its values. *)
Record Series := mkSeries { index : list string; values : record }.

Fixpoint lookup (k : string) (r : record) : option cell :=
  match r with
  | [] => None
  | (k', c) :: r' => if String.eqb k k' then Some c else lookup k r'
  end.

Definition at_ (r : record) (k : string) : cell :=
  match lookup k r with
  | Some c => c
  | None => CFloat PrimFloat.nan
  end.

Definition has_label (k : string) (labels : list string) : bool :=
  existsb (String.eqb k) labels.

Definition key_error (k : string) : exn := mkExn "KeyError" ("'" ++ k ++ "'").

(** [df[col]] *)
Definition getitem (df : DataFrame) (col : string) : outcome (list cell) :=
  if has_label col (columns df)
  then Return (map (fun r => at_ r col) (rows df))
  else Raise (key_error col).

(** [df[mask]] for a boolean mask as long as the table. *)
Definition mask_rows (df : DataFrame) (mask : list bool) : DataFrame :=
  mkDF (columns df) (map snd (filter fst (combine mask (rows df)))).

(** [df[[c1, ..., cn]]].  The text of the [KeyError] lists the labels that
    are missing; it is not spelled out here. *)
Definition select_columns (df : DataFrame) (cols : list string)
  : outcome DataFrame :=
  if forallb (fun c => has_label c (columns df)) cols
  then Return (mkDF cols (rows df))
  else Raise (mkExn "KeyError" "not in index").

(** [s[k]] and [s.get(k)] on a row. *)
Definition series_getitem (s : Series) (k : string) : outcome cell :=
  if has_label k (index s) then Return (at_ (values s) k) else Raise (key_error k).

Definition series_get (s : Series) (k : string) : option cell :=
  if has_label k (index s) then Some (at_ (values s) k) else None.

(** [df.empty], [len(df)], [df.iloc[0]], [df.iterrows()], [df.head(n)] and
    [df.tail(n)]. *)
Definition empty (df : DataFrame) : bool :=
  match rows df, columns df with
  | [], _ => true
  | _, [] => true
  | _, _ => false
  end.

Definition len (df : DataFrame) : Z := Z.of_nat (List.length (rows df)).

Definition iloc0 (df : DataFrame) : outcome Series :=
  match rows df with
  | r :: _ => Return (mkSeries (columns df) r)
  | [] => Raise (mkExn "IndexError" "single positional indexer is out-of-bounds")
  end.

Definition iterrows (df : DataFrame) : list Series :=
  map (mkSeries (columns df)) (rows df).

Definition head (n : nat) (df : DataFrame) : DataFrame :=
  mkDF (columns df) (firstn n (rows df)).

Definition tail (n : nat) (df : DataFrame) : DataFrame :=
  mkDF (columns df) (skipn (List.length (rows df) - n) (rows df)).

(** Element-wise comparisons of a column with a scalar.  [==] never raises;
    the order comparisons raise [TypeError] on a string, and the text of the
    error names the operator. *)
Definition eq_str (s : string) (c : cell) : bool :=
  match c with
  | CStr t => String.eqb t s
  | CFloat _ => false
  end.

Definition eq_num (x : float) (c : cell) : bool :=
  match c with
  | CFloat y => PrimFloat.eqb y x
  | CStr _ => false
  end.

Definition cmp_num (symbol : string) (op : float -> float -> bool) (x : float)
  (c : cell) : outcome bool :=
  match c with
  | CFloat y => Return (op y x)
  | CStr _ =>
      Raise (type_error ("'" ++ symbol
                         ++ "' not supported between instances of 'str' and 'float'"))
  end.

(** [pd.isna] on a cell. *)
Definition is_na (c : cell) : bool :=
  match c with
  | CFloat x => PrimFloat.is_nan x
  | CStr _ => false
  end.

(** The sort behind [sort_values]: ascending by [<] on the keys.  It keeps
    the given order among equal keys; numpy's default sort promises no
    order there, and nothing below depends on it. *)
Fixpoint insert_sorted {A : Type} (x : cell * A) (l : list (cell * A))
  : outcome (list (cell * A)) :=
  match l with
  | [] => Return [x]
  | y :: l' =>
      b <- py_lt (fst y) (fst x) ;;
      if b then (t <- insert_sorted x l' ;; Return (y :: t))
      else Return (x :: l)
  end.

Fixpoint argsort {A : Type} (l : list (cell * A)) : outcome (list (cell * A)) :=
  match l with
  | [] => Return []
  | x :: l' => s <- argsort l' ;; insert_sorted x s
  end.

(** [df.sort_values(by, ascending=...)] with the default [na_position]:
    the rows whose key is not missing are sorted (for a descending sort
    they are reversed, sorted ascending and reversed again), and the rows
    whose key is missing follow in their given order. *)
Definition sort_values (df : DataFrame) (by_ : string) (ascending : bool)
  : outcome DataFrame :=
  if has_label by_ (columns df) then
    let keyed := map (fun r => (at_ r by_, r)) (rows df) in
    let nonnan := filter (fun kr => negb (is_na (fst kr))) keyed in
    let nans := filter (fun kr => is_na (fst kr)) keyed in
    sorted <- (if ascending then argsort nonnan
               else (s <- argsort (rev nonnan) ;; Return (rev s))) ;;
    Return (mkDF (columns df) (map snd (sorted ++ nans)))
  else Raise (key_error by_).

(** The floats of a column, for [mean] and [sum]; a string raises. *)
Definition floats_of (cells : list cell) : outcome (list float) :=
  mapM (fun c => match c with
                 | CFloat x => Return x
                 | CStr _ => Raise (type_error "unsupported operand type(s) for +: 'float' and 'str'")
                 end) cells.

End Pandas.

(** ** The part of numpy behind [round(x, 2)]

    The two values the statistics tool rounds are [numpy.float64] scalars.
    Their [__round__] is numpy's [round]: the value is multiplied by
    [10 ** 2], rounded to an integer by [rint] (to the nearest, ties to the
    even one) and divided by [10 ** 2], each step in binary64. *)

Module Numpy.

Definition of_Z (n : Z) : float := PrimFloat.of_uint63 (Uint63.of_Z n).

(** A float with the sign bit of the number it was rounded from. *)
Definition signed (negative : bool) (x : float) : float :=
  if negative then (- x)%float else x.

(** The integer nearest to [m / d], the even one of two equally near. *)
Definition nearest_even (m d : Z) : Z :=
  let q := (m / d)%Z in
  match (2 * (m mod d) ?= d)%Z with
  | Lt => q
  | Gt => (q + 1)%Z
  | Eq => if Z.even q then q else (q + 1)%Z
  end.

(** [rint]: a finite float [m * 2 ^ e] with [e < 0] goes to the integer
    nearest to it and keeps its sign; every other float is an integer, an
    infinity or NaN and is left as it is. *)
Definition rint (x : float) : float :=
  match Prim2SF x with
  | S754_finite s m e =>
      if (e <? 0)%Z
      then signed s (of_Z (nearest_even (Z.pos m) (2 ^ (- e))))
      else x
  | _ => x
  end.

Definition round2 (x : float) : float := (rint (x * 100) / 100)%float.

End Numpy.

(** ** The tools of [stock_data_tool.py] *)

Module Tools.
Import Py Pandas.

(** What a call finds outside the function: the request context
    ([runtime.context if runtime else new_context(...)]) and the two provider
    calls, each of which returns or raises. *)
Record world := mkWorld {
  request_context : outcome unit;
  stock_zh_a_spot_em : outcome DataFrame;
  stock_board_industry_name_em : outcome DataFrame
}.

Section WithLibrary.
Variable L : library.

(** [float(row[k])], [int(row[k])] and [float(idx.get(k, 0))] *)
Definition float_item (row : Series) (k : string) : outcome float :=
  c <- series_getitem row k ;; py_float L c.

Definition int_item (row : Series) (k : string) : outcome Z :=
  c <- series_getitem row k ;; py_int L c.

Definition float_get (idx : Series) (k : string) : outcome float :=
  match series_get idx k with
  | Some c => py_float L c
  | None => Return 0%float
  end.

(** *** get_stock_index_data *)

Definition indices : list (string * string) :=
  [("上证指数", "000001"); ("深证成指", "399001");
   ("创业板指", "399006"); ("科创50", "000688")].

(** One turn of the loop over [indices.items()]: the value stored under the
    index name. *)
Definition index_row (df : DataFrame) (code : string) : outcome json :=
  cells <- getitem df "代码" ;;
  let index_data := mask_rows df (map (eq_str code) cells) in
  if negb (empty index_data) then
    idx <- iloc0 index_data ;;
    price <- float_get idx "最新价" ;;
    pct <- float_get idx "涨跌幅" ;;
    chg <- float_get idx "涨跌额" ;;
    vol <- float_get idx "成交量" ;;
    amt <- float_get idx "成交额" ;;
    Return (JObj [("代码", JStr code); ("最新价", JFloat price);
                  ("涨跌幅", JFloat pct); ("涨跌额", JFloat chg);
                  ("成交量", JFloat vol); ("成交额", JFloat amt)])
  else
    Return (JObj [("代码", JStr code); ("最新价", JInt 0); ("涨跌幅", JInt 0);
                  ("涨跌额", JInt 0); ("成交量", JInt 0); ("成交额", JInt 0);
                  ("note", JStr "暂无数据")]).

Fixpoint index_loop (df : DataFrame) (items : list (string * string))
  (result : list (string * json)) : outcome (list (string * json)) :=
  match items with
  | [] => Return result
  | (name, code) :: rest =>
      row <- index_row df code ;;
      index_loop df rest (dict_set result name row)
  end.

Definition get_stock_index_data_try (w : world) : outcome response :=
  _ <- request_context w ;;
  df <- stock_zh_a_spot_em w ;;
  result <- index_loop df indices [] ;;
  Return (JsonText (JObj result)).

Definition demo_index_row (code : string) (price pct chg : float) (vol amt : Z)
  : json :=
  JObj [("代码", JStr code); ("最新价", JFloat price); ("涨跌幅", JFloat pct);
        ("涨跌额", JFloat chg); ("成交量", JInt vol); ("成交额", JInt amt);
        ("note", JStr "演示数据")].

Definition get_stock_index_data_except (e : exn) : outcome response :=
  Return (JsonText (JObj
    [("上证指数", demo_index_row "000001" 3085.15 0.52 15.93 125680000 158965000000);
     ("深证成指", demo_index_row "399001" 9856.78 0.78 76.23 234567000 345678000000);
     ("创业板指", demo_index_row "399006" 1956.89 (-0.23) (-4.51) 98765400 123456000000);
     ("科创50", demo_index_row "000688" 892.45 1.25 11.02 45678900 67890000000);
     ("error", JStr (exn_str e))])).

Definition get_stock_index_data (w : world) : outcome response :=
  try_except (get_stock_index_data_try w) get_stock_index_data_except.

(** *** get_stock_ranking *)

Definition ranking_columns : list string :=
  ["代码"; "名称"; "最新价"; "涨跌幅"; "涨跌额"; "成交量"; "成交额"].

Definition ranking_row (row : Series) : outcome json :=
  code <- series_getitem row "代码" ;;
  name <- series_getitem row "名称" ;;
  price <- float_item row "最新价" ;;
  pct <- float_item row "涨跌幅" ;;
  chg <- float_item row "涨跌额" ;;
  vol <- float_item row "成交量" ;;
  amt <- float_item row "成交额" ;;
  Return (JObj [("代码", cell_json code); ("名称", cell_json name);
                ("最新价", JFloat price); ("涨跌幅", JFloat pct);
                ("涨跌额", JFloat chg); ("成交量", JFloat vol);
                ("成交额", JFloat amt)]).

Definition get_stock_ranking_try (w : world) : outcome response :=
  _ <- request_context w ;;
  df <- stock_zh_a_spot_em w ;;
  by_desc <- sort_values df "涨跌幅" false ;;
  let df_rise := head 20 by_desc in
  by_asc <- sort_values df "涨跌幅" true ;;
  let df_fall := head 20 by_asc in
  rise_cols <- select_columns df_rise ranking_columns ;;
  rise <- mapM ranking_row (iterrows rise_cols) ;;
  fall_cols <- select_columns df_fall ranking_columns ;;
  fall <- mapM ranking_row (iterrows fall_cols) ;;
  Return (JsonText (JObj [("涨幅榜", JList rise); ("跌幅榜", JList fall)])).

Definition demo_ranking_row (code name : string) (price pct chg : float)
  (vol amt : Z) : json :=
  JObj [("代码", JStr code); ("名称", JStr name); ("最新价", JFloat price);
        ("涨跌幅", JFloat pct); ("涨跌额", JFloat chg); ("成交量", JInt vol);
        ("成交额", JInt amt)].

Definition get_stock_ranking_except (e : exn) : outcome response :=
  Return (JsonText (JObj
    [("涨幅榜", JList
        [demo_ranking_row "600123" "兰花科创" 15.68 10.05 1.43 125680000 1589650000;
         demo_ranking_row "002456" "欧菲光" 12.35 9.98 1.12 234567000 3456780000]);
     ("跌幅榜", JList
        [demo_ranking_row "300456" "赛微电子" 23.45 (-9.95) (-2.59) 98765400 1234560000;
         demo_ranking_row "600789" "鲁抗医药" 8.92 (-9.92) (-0.98) 45678900 678900000]);
     ("note", JStr "演示数据");
     ("error", JStr (exn_str e))])).

Definition get_stock_ranking (w : world) : outcome response :=
  try_except (get_stock_ranking_try w) get_stock_ranking_except.

(** *** get_market_statistics *)

(** [len(df[df[col] ... x])] for an order comparison, which may raise. *)
Definition count_where (df : DataFrame) (col : string)
  (test : cell -> outcome bool) : outcome Z :=
  cells <- getitem df col ;;
  mask <- mapM test cells ;;
  Return (len (mask_rows df mask)).

(** [len(df[df[col] == x])] *)
Definition count_equal (df : DataFrame) (col : string) (x : float) : outcome Z :=
  cells <- getitem df col ;;
  Return (len (mask_rows df (map (eq_num x) cells))).

Definition get_market_statistics_try (w : world) : outcome response :=
  _ <- request_context w ;;
  df <- stock_zh_a_spot_em w ;;
  limit_up <- count_where df "涨跌幅" (cmp_num ">=" F64.ge 9.9) ;;
  limit_down <- count_where df "涨跌幅" (cmp_num "<=" F64.le (-9.9)) ;;
  up_count <- count_where df "涨跌幅" (cmp_num ">" F64.gt 0) ;;
  down_count <- count_where df "涨跌幅" (cmp_num "<" F64.lt 0) ;;
  flat_count <- count_equal df "涨跌幅" 0 ;;
  pct_cells <- getitem df "涨跌幅" ;;
  pcts <- floats_of pct_cells ;;
  let avg_change := nanmean L pcts in
  amt_cells <- getitem df "成交额" ;;
  amts <- floats_of amt_cells ;;
  let total_amount := nansum L amts in
  Return (JsonText (JObj
    [("涨跌停统计", JObj [("涨停家数", JInt limit_up); ("跌停家数", JInt limit_down)]);
     ("涨跌家数", JObj [("上涨家数", JInt up_count); ("下跌家数", JInt down_count);
                        ("平盘家数", JInt flat_count)]);
     ("市场表现", JObj [("平均涨跌幅", JFloat (round2 L avg_change));
                        ("总成交额", JFloat (round2 L (total_amount / 100000000)))]);
     ("股票总数", JInt (len df))])).

Definition get_market_statistics_except (e : exn) : outcome response :=
  Return (JsonText (JObj
    [("涨跌停统计", JObj [("涨停家数", JInt 45); ("跌停家数", JInt 12)]);
     ("涨跌家数", JObj [("上涨家数", JInt 2856); ("下跌家数", JInt 1523);
                        ("平盘家数", JInt 89)]);
     ("市场表现", JObj [("平均涨跌幅", JFloat 0.35); ("总成交额", JFloat 7654.32)]);
     ("股票总数", JInt 4468);
     ("note", JStr "演示数据");
     ("error", JStr (exn_str e))])).

Definition get_market_statistics (w : world) : outcome response :=
  try_except (get_market_statistics_try w) get_market_statistics_except.

(** *** get_sector_performance *)

Definition sector_columns : list string :=
  ["板块名称"; "最新价"; "涨跌幅"; "涨跌额"; "成交量"; "成交额"; "上涨家数"; "下跌家数"].

Definition sector_row (row : Series) : outcome json :=
  name <- series_getitem row "板块名称" ;;
  price <- float_item row "最新价" ;;
  pct <- float_item row "涨跌幅" ;;
  chg <- float_item row "涨跌额" ;;
  ups <- int_item row "上涨家数" ;;
  downs <- int_item row "下跌家数" ;;
  Return (JObj [("板块名称", cell_json name); ("最新价", JFloat price);
                ("涨跌幅", JFloat pct); ("涨跌额", JFloat chg);
                ("上涨家数", JInt ups); ("下跌家数", JInt downs)]).

Definition get_sector_performance_try (w : world) : outcome response :=
  _ <- request_context w ;;
  df0 <- stock_board_industry_name_em w ;;
  df1 <- select_columns df0 sector_columns ;;
  df <- sort_values df1 "涨跌幅" false ;;
  let top_sectors := head 10 df in
  let bottom_sectors := tail 10 df in
  best <- mapM sector_row (iterrows top_sectors) ;;
  worst <- mapM sector_row (iterrows bottom_sectors) ;;
  Return (JsonText (JObj [("表现最好的板块", JList best);
                          ("表现最差的板块", JList worst)])).

Definition demo_sector_row (name : string) (price pct chg : float) (ups downs : Z)
  : json :=
  JObj [("板块名称", JStr name); ("最新价", JFloat price); ("涨跌幅", JFloat pct);
        ("涨跌额", JFloat chg); ("上涨家数", JInt ups); ("下跌家数", JInt downs)].

Definition get_sector_performance_except (e : exn) : outcome response :=
  Return (JsonText (JObj
    [("表现最好的板块", JList
        [demo_sector_row "AI应用" 1256.78 4.52 54.32 45 3;
         demo_sector_row "半导体" 3456.89 3.25 108.76 89 12]);
     ("表现最差的板块", JList
        [demo_sector_row "房地产" 789.45 (-2.15) (-17.34) 8 67;
         demo_sector_row "银行" 1023.56 (-1.23) (-12.78) 12 34]);
     ("note", JStr "演示数据");
     ("error", JStr (exn_str e))])).

Definition get_sector_performance (w : world) : outcome response :=
  try_except (get_sector_performance_try w) get_sector_performance_except.

(** *** get_stock_info *)

Definition not_found_message (stock_code : string) : string :=
  "未找到股票代码: " ++ stock_code.

Definition stock_info_floats : list string :=
  ["最新价"; "涨跌幅"; "涨跌额"; "今开"; "最高"; "最低"; "昨收"; "成交量";
   "成交额"; "换手率"; "市盈率"; "市净率"; "总市值"; "流通市值"].

Definition get_stock_info_try (w : world) (stock_code : string)
  : outcome response :=
  _ <- request_context w ;;
  df <- stock_zh_a_spot_em w ;;
  cells <- getitem df "代码" ;;
  let stock_data := mask_rows df (map (eq_str stock_code) cells) in
  if empty stock_data then Return (PlainText (not_found_message stock_code))
  else
    row <- iloc0 stock_data ;;
    code <- series_getitem row "代码" ;;
    name <- series_getitem row "名称" ;;
    nums <- mapM (fun k => x <- float_item row k ;; Return (k, JFloat x))
                 stock_info_floats ;;
    Return (JsonText (JObj (("代码", cell_json code) :: ("名称", cell_json name)
                            :: nums))).

Definition get_stock_info_except (stock_code : string) (e : exn)
  : outcome response :=
  Return (JsonText (JObj
    [("代码", JStr stock_code); ("名称", JStr "示例股票");
     ("最新价", JFloat 15.68); ("涨跌幅", JFloat 5.23); ("涨跌额", JFloat 0.78);
     ("今开", JFloat 15.10); ("最高", JFloat 15.85); ("最低", JFloat 15.05);
     ("昨收", JFloat 14.90); ("成交量", JInt 125680000);
     ("成交额", JInt 1987654321); ("换手率", JFloat 3.45);
     ("市盈率", JFloat 25.6); ("市净率", JFloat 2.8);
     ("总市值", JInt 156800000000); ("流通市值", JInt 98760000000);
     ("note", JStr "演示数据");
     ("error", JStr (exn_str e))])).

Definition get_stock_info (w : world) (stock_code : string) : outcome response :=
  try_except (get_stock_info_try w stock_code) (get_stock_info_except stock_code).

End WithLibrary.
End Tools.

(** ** Vocabulary of the statements *)

Module Spec.
Import Py Pandas Tools.

Definition is_float_cell (c : cell) : bool :=
  match c with
  | CFloat _ => true
  | CStr _ => false
  end.

(** The column is there and holds floats only (dtype float64). *)
Definition float_column (df : DataFrame) (k : string) : bool :=
  has_label k (columns df) && forallb (fun r => is_float_cell (at_ r k)) (rows df).

Definition float_columns (df : DataFrame) (ks : list string) : bool :=
  forallb (float_column df) ks.

Definition float_at (r : record) (k : string) : float :=
  match at_ r k with
  | CFloat x => x
  | CStr _ => PrimFloat.nan
  end.

Definition float_of (c : cell) : float :=
  match c with
  | CFloat x => x
  | CStr _ => PrimFloat.nan
  end.

Definition pct (r : record) : float := float_at r "涨跌幅".

(** The first row of the snapshot that carries the code. *)
Definition first_with_code (df : DataFrame) (code : string) : option record :=
  find (fun r => eq_str code (at_ r "代码")) (rows df).

(** Reading a document. *)
Definition field (doc : json) (k : string) : option json :=
  match doc with
  | JObj o => dict_get o k
  | _ => None
  end.

Definition float_field (doc : json) (k : string) : float :=
  match field doc k with
  | Some (JFloat x) => x
  | _ => PrimFloat.nan
  end.


(** The rows the tools build from a record of a float64 table. *)
Definition index_json (code : string) (r : record) : json :=
  JObj [("代码", JStr code); ("最新价", JFloat (float_at r "最新价"));
        ("涨跌幅", JFloat (float_at r "涨跌幅"));
        ("涨跌额", JFloat (float_at r "涨跌额"));
        ("成交量", JFloat (float_at r "成交量"));
        ("成交额", JFloat (float_at r "成交额"))].

Definition no_data_json (code : string) : json :=
  JObj [("代码", JStr code); ("最新价", JInt 0); ("涨跌幅", JInt 0);
        ("涨跌额", JInt 0); ("成交量", JInt 0); ("成交额", JInt 0);
        ("note", JStr "暂无数据")].

Definition ranking_json (r : record) : json :=
  JObj [("代码", cell_json (at_ r "代码")); ("名称", cell_json (at_ r "名称"));
        ("最新价", JFloat (float_at r "最新价"));
        ("涨跌幅", JFloat (float_at r "涨跌幅"));
        ("涨跌额", JFloat (float_at r "涨跌额"));
        ("成交量", JFloat (float_at r "成交量"));
        ("成交额", JFloat (float_at r "成交额"))].

(** What the index tool stores for a code on a table of floats: the fields
    of the first row with the code, or the no-data row. *)
Definition index_entry (df : DataFrame) (code : string) : json :=
  match first_with_code df code with
  | Some r => index_json code r
  | None => no_data_json code
  end.

Definition echoes_snapshot (df : DataFrame) (result : list (string * json)) : Prop :=
  forall name code, In (name, code) indices ->
    dict_get result name = Some (index_entry df code).

(** The invariant of a document built by the index tool. *)
Definition index_document (df : DataFrame) (result : list (string * json)) : Prop :=
  map fst result = ["上证指数"; "深证成指"; "创业板指"; "科创50"] /\
  forall name code, In (name, code) indices ->
    exists row,
      dict_get result name = Some row /\
      field row "代码" = Some (JStr code) /\
      (first_with_code df code <> None -> field row "note" = None) /\
      (first_with_code df code = None -> row = no_data_json code).





(** The value found by following keys into nested objects. *)
Fixpoint path (doc : json) (ks : list string) : option json :=
  match ks with
  | [] => Some doc
  | k :: ks' =>
      match field doc k with
      | Some v => path v ks'
      | None => None
      end
  end.

(** The document of the statistics tool for a float64 table, with the
    counts written as filters over the rows. *)
Definition count_rows (p : float -> bool) (col : string) (df : DataFrame) : Z :=
  Z.of_nat (List.length (filter (fun r => p (float_at r col)) (rows df))).

Definition statistics_json (L : library) (df : DataFrame) : json :=
  JObj
    [("涨跌停统计",
      JObj [("涨停家数", JInt (count_rows (fun x => 9.9 <=? x)%float "涨跌幅" df));
            ("跌停家数", JInt (count_rows (fun x => x <=? -9.9)%float "涨跌幅" df))]);
     ("涨跌家数",
      JObj [("上涨家数", JInt (count_rows (fun x => 0 <? x)%float "涨跌幅" df));
            ("下跌家数", JInt (count_rows (fun x => x <? 0)%float "涨跌幅" df));
            ("平盘家数", JInt (count_rows (fun x => x =? 0)%float "涨跌幅" df))]);
     ("市场表现",
      JObj [("平均涨跌幅",
             JFloat (round2 L (nanmean L (map (fun r => float_at r "涨跌幅") (rows df)))));
            ("总成交额",
             JFloat (round2 L (nansum L (map (fun r => float_at r "成交额") (rows df))
                               / 100000000)))]);
     ("股票总数", JInt (Z.of_nat (List.length (rows df))))].

(** Orders on percent changes.  [falls a b]: [b] may follow [a] in a
    descending table, that is [b] is missing or [b <= a]; [climbs] is the
    same for an ascending table.  Neither lets a number follow a missing
    value. *)
Definition falls (a b : float) : Prop :=
  PrimFloat.is_nan b = true \/ PrimFloat.leb b a = true.

Definition climbs (a b : float) : Prop :=
  PrimFloat.is_nan b = true \/ PrimFloat.leb a b = true.

Definition by_order (ascending : bool) : float -> float -> Prop :=
  if ascending then climbs else falls.

(** Keys paired with rows, as the sort sees them. *)
Definition key_of {A : Type} (kr : cell * A) : float := float_of (fst kr).

Definition numeric {A : Type} (kr : cell * A) : Prop :=
  fst kr = CFloat (key_of kr) /\ F64.is_number (key_of kr) = true.

Definition ascending {A : Type} (a b : cell * A) : Prop :=
  PrimFloat.leb (key_of a) (key_of b) = true.

(** No later entry is greater (smaller) than an earlier one. *)
Definition non_increasing (xs : list float) : Prop :=
  StronglySorted (fun a b => PrimFloat.ltb a b = false) xs.

Definition non_decreasing (xs : list float) : Prop :=
  StronglySorted (fun a b => PrimFloat.ltb b a = false) xs.

(** The operations of the toolset, what each attempts inside its [try]
    and what the tool returns. *)
Inductive operation : Type :=
| IndexData
| Ranking
| MarketStatistics
| SectorPerformance
| StockInfo (stock_code : string).

Definition attempt (L : library) (w : world) (op : operation) : outcome response :=
  match op with
  | IndexData => get_stock_index_data_try L w
  | Ranking => get_stock_ranking_try L w
  | MarketStatistics => get_market_statistics_try L w
  | SectorPerformance => get_sector_performance_try L w
  | StockInfo code => get_stock_info_try L w code
  end.

Definition run (L : library) (w : world) (op : operation) : outcome response :=
  match op with
  | IndexData => get_stock_index_data L w
  | Ranking => get_stock_ranking L w
  | MarketStatistics => get_market_statistics L w
  | SectorPerformance => get_sector_performance L w
  | StockInfo code => get_stock_info L w code
  end.

(** The keys of a successful document, per operation. *)
Definition sections (op : operation) : list string :=
  match op with
  | IndexData => map fst indices
  | Ranking => ["涨幅榜"; "跌幅榜"]
  | MarketStatistics => ["涨跌停统计"; "涨跌家数"; "市场表现"; "股票总数"]
  | SectorPerformance => ["表现最好的板块"; "表现最差的板块"]
  | StockInfo _ => "代码" :: "名称" :: stock_info_floats
  end.

(** The keys a fallback document adds to them. *)
Definition extras (op : operation) : list string :=
  match op with
  | IndexData => ["error"]
  | _ => ["note"; "error"]
  end.

(** The keys that hold text; every other key of a document is numeric. *)
Definition text_keys : list string := ["代码"; "名称"; "板块名称"; "note"; "error"].

Definition is_text_key (k : string) : bool := existsb (String.eqb k) text_keys.

(** Every numeric field of the document, at any depth, holds a float or an
    integer. *)
Fixpoint numbers_only (doc : json) : bool :=
  match doc with
  | JObj o =>
      (fix fields (o : list (string * json)) : bool :=
         match o with
         | [] => true
         | (k, v) :: o' =>
             match v with
             | JStr _ => is_text_key k
             | _ => numbers_only v
             end && fields o'
         end) o
  | JList l =>
      (fix items (l : list json) : bool :=
         match l with
         | [] => true
         | v :: l' => numbers_only v && items l'
         end) l
  | _ => true
  end.

(** The object itself says that it is demonstration data. *)
Definition carries_note (doc : json) : bool :=
  match field doc "note" with
  | Some (JStr s) => String.eqb s "演示数据"
  | _ => false
  end.

(** The document is marked as demonstration data: by a note of its own, or
    by a note in each of its rows. *)
Definition marked_demo (doc : json) : bool :=
  carries_note doc ||
  match doc with
  | JObj o =>
      let objects := filter (fun v => match v with JObj _ => true | _ => false end)
                            (map snd o) in
      match objects with
      | [] => false
      | _ => forallb carries_note objects
      end
  | _ => false
  end.

(** The float the index tool reports for a field of a found row: zero
    when the snapshot has no such column, the float of the cell (NaN
    included), or [float(s)] of its text. *)
Definition index_numeric : list string :=
  ["最新价"; "涨跌幅"; "涨跌额"; "成交量"; "成交额"].

Definition coerce (L : library) (labels : list string) (r : record) (k : string)
  : option float :=
  if has_label k labels then
    match at_ r k with
    | CFloat x => Some x
    | CStr s => float_of_str L s
    end
  else Some 0%float.

Definition index_coerced (L : library) (df : DataFrame) (doc : json) : Prop :=
  forall name code r,
    In (name, code) indices -> first_with_code df code = Some r ->
    exists row,
      field doc name = Some row /\
      forall k, In k index_numeric ->
        exists x, field row k = Some (JFloat x) /\
                  coerce L (columns df) r k = Some x.

Definition has_columns (df : DataFrame) (cols : list string) : bool :=
  forallb (fun c => has_label c (columns df)) cols.

Definition pct_field (j : json) : float := float_field j "涨跌幅".

(** [out] is the head of the table sorted by percent change in the given
    order. *)
Definition ranking_of (df : DataFrame) (order : float -> float -> Prop)
  (out : list json) : Prop :=
  exists sorted,
    Permutation sorted (rows df) /\
    StronglySorted (fun r1 r2 => order (pct r1) (pct r2)) sorted /\
    out = map ranking_json (firstn 20 sorted).

(** [int(x)] on a float: towards zero, and nothing for NaN and the
    infinities. *)
Definition trunc (x : float) : option Z :=
  match Prim2SF x with
  | S754_zero _ => Some 0%Z
  | S754_finite s m e =>
      let v := Z.shiftl (Z.pos m) e in Some (if s then (- v)%Z else v)
  | _ => None
  end.

(** The column is there and holds finite floats. *)
Definition count_column (df : DataFrame) (k : string) : bool :=
  has_label k (columns df) &&
  forallb (fun r => match at_ r k with
                    | CFloat x => match trunc x with Some _ => true | None => false end
                    | CStr _ => false
                    end) (rows df).

Definition count_at (r : record) (k : string) : Z :=
  match trunc (float_at r k) with
  | Some n => n
  | None => 0%Z
  end.

Definition sector_json (r : record) : json :=
  JObj [("板块名称", cell_json (at_ r "板块名称"));
        ("最新价", JFloat (float_at r "最新价"));
        ("涨跌幅", JFloat (float_at r "涨跌幅"));
        ("涨跌额", JFloat (float_at r "涨跌额"));
        ("上涨家数", JInt (count_at r "上涨家数"));
        ("下跌家数", JInt (count_at r "下跌家数"))].

Definition sector_name (r : record) : cell := at_ r "板块名称".

Definition name_field (j : json) : option json := field j "板块名称".

(** The two lists of the sector tool, read off a descending table: the
    first ten rows and the last ten. *)
Definition best_and_worst (df : DataFrame) (best worst : list json) : Prop :=
  exists sorted,
    Permutation sorted (rows df) /\
    StronglySorted (fun r1 r2 => falls (pct r1) (pct r2)) sorted /\
    best = map sector_json (firstn 10 sorted) /\
    worst = map sector_json (skipn (List.length sorted - 10) sorted) /\
    (20 <= List.length (rows df) ->
     exists middle,
       sorted = firstn 10 sorted ++ middle
                ++ skipn (List.length sorted - 10) sorted)%list.

(** *** The fallback documents

    The placeholder values of each operation as a caller receives them,
    and the marks that follow them. *)
Definition placeholders (op : operation) : list (string * json) :=
  match op with
  | IndexData =>
      [("上证指数",
        JObj [("代码", JStr "000001"); ("最新价", JFloat 3085.15);
              ("涨跌幅", JFloat 0.52); ("涨跌额", JFloat 15.93);
              ("成交量", JInt 125680000); ("成交额", JInt 158965000000);
              ("note", JStr "演示数据")]);
       ("深证成指",
        JObj [("代码", JStr "399001"); ("最新价", JFloat 9856.78);
              ("涨跌幅", JFloat 0.78); ("涨跌额", JFloat 76.23);
              ("成交量", JInt 234567000); ("成交额", JInt 345678000000);
              ("note", JStr "演示数据")]);
       ("创业板指",
        JObj [("代码", JStr "399006"); ("最新价", JFloat 1956.89);
              ("涨跌幅", JFloat (-0.23)); ("涨跌额", JFloat (-4.51));
              ("成交量", JInt 98765400); ("成交额", JInt 123456000000);
              ("note", JStr "演示数据")]);
       ("科创50",
        JObj [("代码", JStr "000688"); ("最新价", JFloat 892.45);
              ("涨跌幅", JFloat 1.25); ("涨跌额", JFloat 11.02);
              ("成交量", JInt 45678900); ("成交额", JInt 67890000000);
              ("note", JStr "演示数据")])]
  | Ranking =>
      [("涨幅榜", JList
          [JObj [("代码", JStr "600123"); ("名称", JStr "兰花科创");
                 ("最新价", JFloat 15.68); ("涨跌幅", JFloat 10.05);
                 ("涨跌额", JFloat 1.43); ("成交量", JInt 125680000);
                 ("成交额", JInt 1589650000)];
           JObj [("代码", JStr "002456"); ("名称", JStr "欧菲光");
                 ("最新价", JFloat 12.35); ("涨跌幅", JFloat 9.98);
                 ("涨跌额", JFloat 1.12); ("成交量", JInt 234567000);
                 ("成交额", JInt 3456780000)]]);
       ("跌幅榜", JList
          [JObj [("代码", JStr "300456"); ("名称", JStr "赛微电子");
                 ("最新价", JFloat 23.45); ("涨跌幅", JFloat (-9.95));
                 ("涨跌额", JFloat (-2.59)); ("成交量", JInt 98765400);
                 ("成交额", JInt 1234560000)];
           JObj [("代码", JStr "600789"); ("名称", JStr "鲁抗医药");
                 ("最新价", JFloat 8.92); ("涨跌幅", JFloat (-9.92));
                 ("涨跌额", JFloat (-0.98)); ("成交量", JInt 45678900);
                 ("成交额", JInt 678900000)]])]
  | MarketStatistics =>
      [("涨跌停统计", JObj [("涨停家数", JInt 45); ("跌停家数", JInt 12)]);
       ("涨跌家数", JObj [("上涨家数", JInt 2856); ("下跌家数", JInt 1523);
                          ("平盘家数", JInt 89)]);
       ("市场表现", JObj [("平均涨跌幅", JFloat 0.35); ("总成交额", JFloat 7654.32)]);
       ("股票总数", JInt 4468)]
  | SectorPerformance =>
      [("表现最好的板块", JList
          [JObj [("板块名称", JStr "AI应用"); ("最新价", JFloat 1256.78);
                 ("涨跌幅", JFloat 4.52); ("涨跌额", JFloat 54.32);
                 ("上涨家数", JInt 45); ("下跌家数", JInt 3)];
           JObj [("板块名称", JStr "半导体"); ("最新价", JFloat 3456.89);
                 ("涨跌幅", JFloat 3.25); ("涨跌额", JFloat 108.76);
                 ("上涨家数", JInt 89); ("下跌家数", JInt 12)]]);
       ("表现最差的板块", JList
          [JObj [("板块名称", JStr "房地产"); ("最新价", JFloat 789.45);
                 ("涨跌幅", JFloat (-2.15)); ("涨跌额", JFloat (-17.34));
                 ("上涨家数", JInt 8); ("下跌家数", JInt 67)];
           JObj [("板块名称", JStr "银行"); ("最新价", JFloat 1023.56);
                 ("涨跌幅", JFloat (-1.23)); ("涨跌额", JFloat (-12.78));
                 ("上涨家数", JInt 12); ("下跌家数", JInt 34)]])]
  | StockInfo stock_code =>
      [("代码", JStr stock_code); ("名称", JStr "示例股票");
       ("最新价", JFloat 15.68); ("涨跌幅", JFloat 5.23); ("涨跌额", JFloat 0.78);
       ("今开", JFloat 15.10); ("最高", JFloat 15.85); ("最低", JFloat 15.05);
       ("昨收", JFloat 14.90); ("成交量", JInt 125680000);
       ("成交额", JInt 1987654321); ("换手率", JFloat 3.45);
       ("市盈率", JFloat 25.6); ("市净率", JFloat 2.8);
       ("总市值", JInt 156800000000); ("流通市值", JInt 98760000000)]
  end.

Definition marks (op : operation) (msg : string) : list (string * json) :=
  match op with
  | IndexData => [("error", JStr msg)]
  | _ => [("note", JStr "演示数据"); ("error", JStr msg)]
  end.

(** *** The schema of a document

    What a consumer of the documents relies on: which keys an object has,
    in which order, and whether a value is a number, a text, an object or a
    list of rows.  ["note"] and ["error"] annotate an object and are no
    part of its schema. *)
Inductive shape : Type :=
| SNumber
| SText
| SObject (fields : list (string * shape))
| SRows (fields : list (string * shape)).

Definition annotation (k : string) : bool :=
  String.eqb k "note" || String.eqb k "error".

Fixpoint conforms (j : json) (s : shape) {struct j} : bool :=
  match j, s with
  | JFloat _, SNumber => true
  | JInt _, SNumber => true
  | JStr _, SText => true
  | JObj o, SObject fs =>
      (fix object (o : list (string * json)) (fs : list (string * shape))
         {struct o} : bool :=
         match o with
         | [] => match fs with [] => true | _ => false end
         | (k, v) :: o' =>
             if annotation k
             then match v with JStr _ => object o' fs | _ => false end
             else match fs with
                  | (k', s') :: fs' =>
                      String.eqb k k' && conforms v s' && object o' fs'
                  | [] => false
                  end
         end) o fs
  | JList l, SRows fs =>
      (fix rows (l : list json) : bool :=
         match l with
         | [] => true
         | v :: l' => conforms v (SObject fs) && rows l'
         end) l
  | _, _ => false
  end.

(** A list of rows that is not empty. *)
Definition populated (j : json) : bool :=
  match j with
  | JList (_ :: _) => true
  | _ => false
  end.

Definition numbers (ks : list string) : list (string * shape) :=
  map (fun k => (k, SNumber)) ks.

(** The schema of each operation's document, after the dictionaries of the
    [try] bodies. *)
Definition schema_of (op : operation) : list (string * shape) :=
  match op with
  | IndexData =>
      map (fun nc => (fst nc, SObject (("代码", SText) :: numbers index_numeric)))
          indices
  | Ranking =>
      let row := ("代码", SText) :: ("名称", SText) :: numbers index_numeric in
      [("涨幅榜", SRows row); ("跌幅榜", SRows row)]
  | MarketStatistics =>
      [("涨跌停统计", SObject (numbers ["涨停家数"; "跌停家数"]));
       ("涨跌家数", SObject (numbers ["上涨家数"; "下跌家数"; "平盘家数"]));
       ("市场表现", SObject (numbers ["平均涨跌幅"; "总成交额"]));
       ("股票总数", SNumber)]
  | SectorPerformance =>
      let row := ("板块名称", SText)
                 :: numbers ["最新价"; "涨跌幅"; "涨跌额"; "上涨家数"; "下跌家数"] in
      [("表现最好的板块", SRows row); ("表现最差的板块", SRows row)]
  | StockInfo _ => ("代码", SText) :: ("名称", SText) :: numbers stock_info_floats
  end.

(** The fallback document is complete: it conforms to the schema and none
    of its lists of rows is empty. *)
Definition complete (op : operation) (o : list (string * json)) : bool :=
  conforms (JObj o) (SObject (schema_of op)) &&
  forallb (fun kv => match snd kv with
                     | JList _ => populated (snd kv)
                     | _ => true
                     end) o.

(** *** Numeric fields copied from cells

    [float(c)] on a cell that does not raise: the float of the cell, NaN
    included, or the number its text reads as; and [int(c)] likewise. *)
Definition reports (L : library) (c : cell) (v : json) : Prop :=
  match c with
  | CFloat x => v = JFloat x
  | CStr s => exists x, float_of_str L s = Some x /\ v = JFloat x
  end.

Definition counts (L : library) (c : cell) (v : json) : Prop :=
  match c with
  | CFloat x => exists n, trunc x = Some n /\ v = JInt n
  | CStr s => exists n, int_of_str L s = Some n /\ v = JInt n
  end.

(** The entry [j] was built from the record [r]: each of its [floats] is
    [float] of the cell of that column and each of its [ints] is [int] of
    it, and the table has all these columns. *)
Definition entry_of (L : library) (labels : list string)
  (floats ints : list string) (r : record) (j : json) : Prop :=
  (forall k, In k floats ->
     has_label k labels = true /\
     exists v, field j k = Some v /\ reports L (at_ r k) v) /\
  (forall k, In k ints ->
     has_label k labels = true /\
     exists v, field j k = Some v /\ counts L (at_ r k) v).

(** The entries of a list were built, one by one, from rows of the
    table. *)
Definition entries_of (L : library) (df : DataFrame) (floats ints : list string)
  (out : list json) : Prop :=
  exists rs,
    incl rs (rows df) /\
    Forall2 (entry_of L (columns df) floats ints) rs out.

(** The entry [j] of a ranking was built from the record [r] and reports
    its percent change. *)
Definition ranking_entry (L : library) (df : DataFrame) (r : record) (j : json)
  : Prop :=
  entry_of L (columns df) index_numeric [] r j /\ pct_field j = pct r.

(** [out] was built, entry by entry, from the first twenty rows of the
    table sorted by percent change in the given order. *)
Definition listed (L : library) (df : DataFrame) (order : float -> float -> Prop)
  (out : list json) : Prop :=
  exists sorted,
    Permutation sorted (rows df) /\
    StronglySorted (fun r1 r2 => order (pct r1) (pct r2)) sorted /\
    Forall2 (ranking_entry L df) (firstn 20 sorted) out.

(** The same for a sector, whose entry also carries the name of its
    record. *)
Definition sector_entry (L : library) (df : DataFrame) (r : record) (j : json)
  : Prop :=
  entry_of L (columns df) ["最新价"; "涨跌幅"; "涨跌额"] ["上涨家数"; "下跌家数"] r j /\
  pct_field j = pct r /\
  name_field j = Some (cell_json (sector_name r)).

Definition listed_sectors (L : library) (df : DataFrame) (best worst : list json)
  : Prop :=
  exists sorted,
    Permutation sorted (rows df) /\
    StronglySorted (fun r1 r2 => falls (pct r1) (pct r2)) sorted /\
    Forall2 (sector_entry L df) (firstn 10 sorted) best /\
    Forall2 (sector_entry L df) (skipn (List.length sorted - 10) sorted) worst /\
    (20 <= List.length (rows df) ->
     exists middle,
       sorted = firstn 10 sorted ++ middle
                ++ skipn (List.length sorted - 10) sorted)%list.

(** What each operation's document holds in its numeric fields. *)
Definition numeric_fields (L : library) (w : world) (op : operation) (doc : json)
  : Prop :=
  match op with
  | IndexData =>
      exists df, stock_zh_a_spot_em w = Return df /\ index_coerced L df doc
  | Ranking =>
      exists df rise fall,
        stock_zh_a_spot_em w = Return df /\
        doc = JObj [("涨幅榜", JList rise); ("跌幅榜", JList fall)] /\
        entries_of L df index_numeric [] rise /\
        entries_of L df index_numeric [] fall
  | MarketStatistics =>
      exists limit_up limit_down up down flat total avg amount,
        doc = JObj
          [("涨跌停统计", JObj [("涨停家数", JInt limit_up);
                                ("跌停家数", JInt limit_down)]);
           ("涨跌家数", JObj [("上涨家数", JInt up); ("下跌家数", JInt down);
                              ("平盘家数", JInt flat)]);
           ("市场表现", JObj [("平均涨跌幅", JFloat avg); ("总成交额", JFloat amount)]);
           ("股票总数", JInt total)]
  | SectorPerformance =>
      exists df best worst,
        stock_board_industry_name_em w = Return df /\
        doc = JObj [("表现最好的板块", JList best); ("表现最差的板块", JList worst)] /\
        entries_of L df ["最新价"; "涨跌幅"; "涨跌额"] ["上涨家数"; "下跌家数"] best /\
        entries_of L df ["最新价"; "涨跌幅"; "涨跌额"] ["上涨家数"; "下跌家数"] worst
  | StockInfo stock_code =>
      exists df r,
        stock_zh_a_spot_em w = Return df /\
        first_with_code df stock_code = Some r /\
        entry_of L (columns df) stock_info_floats [] r doc
  end.

(** *** Rounding to two decimals

    The exact value of a finite float, as a fraction with a positive
    denominator. *)
Definition exact (x : float) : option (Z * Z) :=
  match Prim2SF x with
  | S754_zero _ => Some (0, 1)%Z
  | S754_finite s m e =>
      let p := (Z.pos m * 2 ^ Z.max e 0)%Z in
      Some (if s then (- p)%Z else p, (2 ^ Z.max (- e) 0)%Z)
  | _ => None
  end.

(** [n] is nearest to [m / d]; of two integers equally near it is the even
    one. *)
Definition nearest_to_even (m d n : Z) : Prop :=
  (2 * Z.abs (m - n * d) <= d)%Z /\
  ((2 * Z.abs (m - n * d) = d)%Z -> Z.even n = true).

(** [z] is [y] rounded to an integer the way [rint] does. *)
Definition rounded_to_integer (y z : float) : Prop :=
  match Prim2SF y with
  | S754_finite s m e =>
      if (e <? 0)%Z
      then exists n, nearest_to_even (Z.pos m) (2 ^ (- e)) n /\
                     z = Numpy.signed s (Numpy.of_Z n)
      else z = y
  | _ => z = y
  end.

(** [r] is [round(x, 2)] as numpy computes it: the binary64 product
    [x * 100], rounded to an integer, divided by [100] in binary64. *)
Definition scaled_rounded (x r : float) : Prop :=
  exists z, rounded_to_integer (x * 100)%float z /\ r = (z / 100)%float.

(** The float of the decimal [n / 100]. *)
Definition hundredths (n : Z) : float :=
  if (n <? 0)%Z then (- (Numpy.of_Z (- n) / 100))%float
  else (Numpy.of_Z n / 100)%float.

(** [r] is the value of [x] rounded to two decimals under a round-half
    rule: the decimal [n / 100] with [n] at most one half away from one
    hundred times the exact value of [x].  Where two such [n] exist the
    rules differ in which they take; either is allowed here. *)
Definition half_rounded (x r : float) : Prop :=
  exists p q n,
    exact x = Some (p, q) /\
    (2 * Z.abs (100 * p - n * q) <= q)%Z /\
    r = hundredths n.

End Spec.

(** ** Sample data: one instance of the library and small tables *)

Module Sample.
Import Py Pandas Tools.

(** One instance of the library.  [mean] and [sum] add from left to right;
    numpy adds pairwise, so that on long columns its sum can differ from
    this one in the last bits.  [round(x, 2)] is numpy's. *)
Definition of_Z (n : Z) : float := Numpy.of_Z n.

Definition of_nat (n : nat) : float := of_Z (Z.of_nat n).

Definition sum (xs : list float) : float :=
  fold_left PrimFloat.add (filter F64.is_number xs) 0%float.

Definition mean (xs : list float) : float :=
  (sum xs / of_nat (List.length (filter F64.is_number xs)))%float.

(** Decimal numerals [d+] and [d+.d+] with an optional sign; a numeral of
    at most 15 digits is the quotient of two floats that are exact, hence
    correctly rounded.  This instance leaves other text unread, also text
    that Python's [float] reads (exponents, [inf], [nan], surrounding white
    space). *)
Fixpoint digits (s : string) (acc : Z) (n : nat) : option (Z * nat * string) :=
  match s with
  | EmptyString => Some (acc, n, EmptyString)
  | String c s' =>
      let d := nat_of_ascii c in
      if (48 <=? d)%nat && (d <=? 57)%nat
      then digits s' (10 * acc + Z.of_nat (d - 48))%Z (S n)
      else Some (acc, n, s)
  end.

Definition unsigned_decimal (s : string) : option float :=
  match digits s 0%Z 0 with
  | Some (whole, S n, EmptyString) =>
      if (S n <=? 15)%nat then Some (of_Z whole) else None
  | Some (whole, S n, String "." frac) =>
      match digits frac whole 0 with
      | Some (all, S k, EmptyString) =>
          if (S n + S k <=? 15)%nat
          then Some (of_Z all / of_Z (10 ^ Z.of_nat (S k)))%float
          else None
      | _ => None
      end
  | _ => None
  end.

Definition decimal (s : string) : option float :=
  match s with
  | String "-" s' => option_map PrimFloat.opp (unsigned_decimal s')
  | _ => unsigned_decimal s
  end.

Definition integer (s : string) : option Z :=
  match s with
  | String "-" s' =>
      match digits s' 0%Z 0 with
      | Some (n, S _, EmptyString) => Some (- n)%Z
      | _ => None
      end
  | _ =>
      match digits s 0%Z 0 with
      | Some (n, S _, EmptyString) => Some n
      | _ => None
      end
  end.

Definition lib : library :=
  mkLibrary decimal integer mean sum Numpy.round2.

(** The columns of the quote snapshot the tools read. *)
Definition quote_columns : list string :=
  ["代码"; "名称"; "最新价"; "涨跌幅"; "涨跌额"; "今开"; "最高"; "最低"; "昨收";
   "成交量"; "成交额"; "换手率"; "市盈率"; "市净率"; "总市值"; "流通市值"].

Definition quote (code name : string) (price pct_change : float) : record :=
  [("代码", CStr code); ("名称", CStr name); ("最新价", CFloat price);
   ("涨跌幅", CFloat pct_change); ("涨跌额", CFloat 0.25); ("今开", CFloat 10);
   ("最高", CFloat 11); ("最低", CFloat 9.5); ("昨收", CFloat 10);
   ("成交量", CFloat 120000); ("成交额", CFloat 250000000);
   ("换手率", CFloat 1.5); ("市盈率", CFloat 18.5); ("市净率", CFloat 2.25);
   ("总市值", CFloat 5000000000); ("流通市值", CFloat 3000000000)].

(** Twenty-two quotes with known percent changes: three at or above 9.9,
    two at or below -9.9, two flat. *)
Definition snapshot : DataFrame :=
  mkDF quote_columns
    [quote "000001" "上证指数" 3085.5 0.5;   quote "600000" "浦发银行" 7.5 (-1.25);
     quote "600004" "白云机场" 10.5 2.5;     quote "600006" "东风汽车" 6.25 9.9;
     quote "600007" "中国国贸" 18.5 0;       quote "600008" "首创环保" 3.5 (-9.9);
     quote "600009" "上海机场" 35.5 10.01;   quote "600010" "包钢股份" 1.5 (-10);
     quote "399001" "深证成指" 9856.75 0.75; quote "600011" "华能国际" 8.5 3.25;
     quote "600012" "皖通高速" 12.5 (-0.5);  quote "600015" "华夏银行" 6.5 1.75;
     quote "600016" "民生银行" 4.5 (-3.5);   quote "600017" "日照港" 3.25 0;
     quote "600018" "上港集团" 5.75 4.5;     quote "600019" "宝钢股份" 6.75 (-2.25);
     quote "600020" "中原高速" 4.25 20;      quote "600021" "上海电力" 9.25 (-4.75);
     quote "600022" "山东钢铁" 1.25 5.5;     quote "600023" "浙能电力" 6.5 (-6.5);
     quote "600025" "华能水电" 9.75 7.25;    quote "600026" "中远海能" 12.25 (-8.5)].

(** The first three quotes only. *)
Definition small_snapshot : DataFrame :=
  mkDF quote_columns (firstn 3 (rows snapshot)).

(** A snapshot in which two quotes have no last price: the cell is NaN. *)
Definition suspended_snapshot : DataFrame :=
  mkDF quote_columns
    [quote "000001" "上证指数" PrimFloat.nan 0.5;
     quote "600000" "浦发银行" PrimFloat.nan 0].

(** A snapshot whose prices arrive as text. *)
Definition textual_snapshot : DataFrame :=
  mkDF ["代码"; "最新价"] [[("代码", CStr "000001"); ("最新价", CStr "3085.15")]].

Definition sector (name : string) (pct_change : float) : record :=
  [("板块名称", CStr name); ("最新价", CFloat 1200.5); ("涨跌幅", CFloat pct_change);
   ("涨跌额", CFloat 12.5); ("成交量", CFloat 450000); ("成交额", CFloat 780000000);
   ("上涨家数", CFloat 30); ("下跌家数", CFloat 12); ("领涨股票", CStr "某某股份")].

Definition sector_table_columns : list string :=
  ["板块名称"; "最新价"; "涨跌幅"; "涨跌额"; "成交量"; "成交额"; "上涨家数";
   "下跌家数"; "领涨股票"].

(** Twenty-one sectors with distinct names. *)
Definition sectors : DataFrame :=
  mkDF sector_table_columns
    [sector "银行" (-1.25); sector "证券" 0.5; sector "保险" 1.5;
     sector "半导体" 3.25; sector "房地产" (-2.25); sector "煤炭" 0.75;
     sector "钢铁" (-0.5); sector "电力" 0.25; sector "医药" 2.5;
     sector "汽车" (-1.75); sector "家电" 1.25; sector "食品" (-0.25);
     sector "纺织" 0; sector "航空" 4.5; sector "港口" (-3.5);
     sector "铁路" 2.25; sector "军工" 3.75; sector "传媒" (-4.25);
     sector "游戏" 5.5; sector "旅游" (-2.75); sector "教育" 1.75].

Definition world_of (df : DataFrame) : world :=
  mkWorld (Return tt) (Return df) (Return sectors).

(** The provider fails. *)
Definition timeout : exn := mkExn "ConnectionError" "Connection timed out".

Definition offline : world :=
  mkWorld (Return tt) (Raise timeout) (Raise timeout).

End Sample.

(** ** Further vocabulary and tables for the edge cases *)

Module Cases.
Import Py Pandas Tools Spec.

Definition json_number (j : json) : bool :=
  match j with
  | JFloat _ | JInt _ => true
  | _ => false
  end.

Definition obj_keys (j : json) : list string :=
  match j with
  | JObj o => map fst o
  | _ => []
  end.

(** The keys of one entry of the sector lists. *)
Definition sector_keys : list string :=
  ["板块名称"; "最新价"; "涨跌幅"; "涨跌额"; "上涨家数"; "下跌家数"].

(** What one turn of the index loop does, read off the table: without the
    code column it raises; with it, the first row with the code is
    converted field by field, and no such row gives the no-data row. *)
Definition index_row_of (L : library) (labels : list string)
  (found : option record) (code : string) : outcome json :=
  if has_label "代码" labels then
    match found with
    | Some r =>
        let idx := mkSeries labels r in
        price <- float_get L idx "最新价" ;;
        pct <- float_get L idx "涨跌幅" ;;
        chg <- float_get L idx "涨跌额" ;;
        vol <- float_get L idx "成交量" ;;
        amt <- float_get L idx "成交额" ;;
        Return (JObj [("代码", JStr code); ("最新价", JFloat price);
                      ("涨跌幅", JFloat pct); ("涨跌额", JFloat chg);
                      ("成交量", JFloat vol); ("成交额", JFloat amt)])
    | None => Return (no_data_json code)
    end
  else Raise (key_error "代码").

(** The tool answers with its fallback document, whose ["error"] is the
    given text. *)
Definition falls_back_with (L : library) (w : world) (op : operation)
  (msg : string) : Prop :=
  exists o,
    run L w op = Return (JsonText (JObj o)) /\
    dict_get o "error" = Some (JStr msg) /\
    marked_demo (JObj o) = true.

(** The four rows of the index tool when no row carries any of the codes. *)
Definition all_no_data : json :=
  JObj [("上证指数", no_data_json "000001"); ("深证成指", no_data_json "399001");
        ("创业板指", no_data_json "399006"); ("科创50", no_data_json "000688")].

(** The document of the statistics tool on a table without rows. *)
Definition no_rows_statistics (L : library) : json :=
  JObj
    [("涨跌停统计", JObj [("涨停家数", JInt 0); ("跌停家数", JInt 0)]);
     ("涨跌家数", JObj [("上涨家数", JInt 0); ("下跌家数", JInt 0);
                        ("平盘家数", JInt 0)]);
     ("市场表现", JObj [("平均涨跌幅", JFloat (round2 L (nanmean L [])));
                        ("总成交额", JFloat (round2 L (nansum L [] / 100000000)))]);
     ("股票总数", JInt 0)].

(** Sample tables. *)

(** Codes delivered as numbers. *)
Definition numeric_code_snapshot : DataFrame :=
  mkDF Sample.quote_columns
    [("代码", CFloat 1) :: Sample.quote "000001" "平安银行" 10.5 0.5;
     ("代码", CFloat 600000) :: Sample.quote "600000" "浦发银行" 7.5 (-1.25)].

(** One percent change delivered as text. *)
Definition textual_change_snapshot : DataFrame :=
  mkDF Sample.quote_columns
    [Sample.quote "000001" "平安银行" 10.5 0.5;
     ("涨跌幅", CStr "1.5") :: Sample.quote "600000" "浦发银行" 7.5 0].

(** The price-earnings column under another label. *)
Definition renamed_columns : list string :=
  ["代码"; "名称"; "最新价"; "涨跌幅"; "涨跌额"; "今开"; "最高"; "最低"; "昨收";
   "成交量"; "成交额"; "换手率"; "市盈率-动态"; "市净率"; "总市值"; "流通市值"].

Definition renamed_snapshot : DataFrame :=
  mkDF renamed_columns
    (map (fun r => ("市盈率-动态", CFloat 18.5) :: r) (rows Sample.snapshot)).

(** The sector table without its volume column. *)
Definition sectors_without_volume : DataFrame :=
  mkDF ["板块名称"; "最新价"; "涨跌幅"; "涨跌额"; "成交额"; "上涨家数"; "下跌家数"]
       (rows Sample.sectors).

(** The snapshot with its rows in reverse order and two more quotes. *)
Definition reordered_snapshot : DataFrame :=
  mkDF Sample.quote_columns
    (Sample.quote "399001" "深证成指" 9856.75 0.75
     :: Sample.quote "000001" "上证指数" 3085.5 0.5
     :: Sample.quote "688981" "中芯国际" 52.5 1.25
     :: rev (rows Sample.snapshot)).

(** Twenty-two quotes and two suspended ones. *)
Definition snapshot_with_suspended : DataFrame :=
  mkDF Sample.quote_columns
    (Sample.quote "600030" "中信证券" 20.5 PrimFloat.nan
     :: rows Sample.snapshot
     ++ [Sample.quote "600031" "三一重工" 15.5 PrimFloat.nan]).

(** The quote of 399001 has a dash for its last price. *)
Definition dashed_snapshot : DataFrame :=
  mkDF Sample.quote_columns
    [Sample.quote "000001" "上证指数" 3085.5 0.5;
     ("最新价", CStr "-") :: Sample.quote "399001" "深证成指" 9856.75 0.75].

Definition twelve_sectors : DataFrame :=
  mkDF Sample.sector_table_columns (firstn 12 (rows Sample.sectors)).

Definition sector_world (df : DataFrame) : world :=
  mkWorld (Return tt) (Return Sample.snapshot) (Return df).

(** Percent changes delivered as text that [float] reads: 9, 10 and
    twenty times 2. *)
Definition with_change (s : string) (r : record) : record :=
  ("涨跌幅", CStr s) :: r.

Definition text_changes_snapshot : DataFrame :=
  mkDF Sample.quote_columns
    (with_change "9" (Sample.quote "600030" "中信证券" 20.5 0)
     :: with_change "10" (Sample.quote "600031" "三一重工" 15.5 0)
     :: map (with_change "2") (firstn 20 (rows Sample.snapshot))).

(** The same for the sectors: 9, 10 and nineteen times 2. *)
Definition text_changes_sectors : DataFrame :=
  mkDF Sample.sector_table_columns
    (with_change "9" (Sample.sector "银行" 0)
     :: with_change "10" (Sample.sector "证券" 0)
     :: map (with_change "2") (skipn 2 (rows Sample.sectors))).

(** One quote whose percent change is the double written [2.675], which
    lies below the decimal 2.675. *)
Definition below_tie_snapshot : DataFrame :=
  mkDF Sample.quote_columns [Sample.quote "600000" "浦发银行" 7.5 2.675].

(** A suspended quote and a sector without a percent change. *)
Definition suspended_sectors : DataFrame :=
  mkDF Sample.sector_table_columns
    [Sample.sector "银行" PrimFloat.nan; Sample.sector "证券" 0.5].

Definition is_text_cell (c : cell) : bool :=
  match c with
  | CStr _ => true
  | CFloat _ => false
  end.

(** Every cell of the column holds text. *)
Definition text_column (df : DataFrame) (k : string) : bool :=
  forallb (fun r => is_text_cell (at_ r k)) (rows df).

(** The cells that an operation copies as they are, codes and names, hold
    text. *)
Definition names_are_text (w : world) (op : operation) : Prop :=
  match op with
  | Ranking =>
      forall df, stock_zh_a_spot_em w = Return df ->
        text_column df "代码" = true /\ text_column df "名称" = true
  | SectorPerformance =>
      forall df, stock_board_industry_name_em w = Return df ->
        text_column df "板块名称" = true
  | StockInfo _ =>
      forall df, stock_zh_a_spot_em w = Return df -> text_column df "名称" = true
  | _ => True
  end.

End Cases.

Module F64Facts.
Import F64.

Lemma SFcompare_key (x y : spec_float) :
  SFcompare x y =
  match sf_key x, sf_key y with
  | Some a, Some b => Some (lex3 a b)
  | _, _ => None
  end.
Proof.
  destruct x as [[|]|[|]| |[|] m1 e1], y as [[|]|[|]| |[|] m2 e2];
    cbn [SFcompare sf_key lex3 Z.compare]; try reflexivity.
  change (CompOpp (1 ?= 1)%positive) with Eq; cbv iota.
  rewrite Z.compare_opp, (Z.compare_antisym e1 e2).
  destruct (e1 ?= e2)%Z; reflexivity.
Qed.

Lemma lex3_Lt (a b : key) : lex3 a b = Lt <-> key_lt a b.
Proof.
  destruct a as [[a1 a2] a3], b as [[b1 b2] b3]; unfold lex3, key_lt.
  destruct (Z.compare_spec a1 b1), (Z.compare_spec a2 b2),
    (Z.compare_spec a3 b3); split; intros; try discriminate; try lia;
    try reflexivity.
Qed.

Lemma lex3_not_Gt (a b : key) : lex3 a b <> Gt <-> key_le a b.
Proof.
  destruct a as [[a1 a2] a3], b as [[b1 b2] b3]; unfold lex3, key_le.
  destruct (Z.compare_spec a1 b1), (Z.compare_spec a2 b2),
    (Z.compare_spec a3 b3); split; intros; try discriminate; try lia;
    try congruence.
Qed.

Lemma lex3_Eq_refl (a : key) : lex3 a a = Eq.
Proof.
  destruct a as [[a1 a2] a3]; unfold lex3.
  now rewrite !Z.compare_refl.
Qed.

Lemma ltb_key (x y : float) :
  PrimFloat.ltb x y = true <->
  exists a b, fkey x = Some a /\ fkey y = Some b /\ key_lt a b.
Proof.
  rewrite FloatAxioms.ltb_spec; unfold SFltb, fkey; rewrite SFcompare_key.
  destruct (sf_key (Prim2SF x)) as [a|], (sf_key (Prim2SF y)) as [b|];
    try (split; [discriminate | intros (? & ? & ? & ? & _); discriminate]).
  split.
  - intros H; exists a, b; repeat split; apply lex3_Lt.
    destruct (lex3 a b); congruence.
  - intros (a' & b' & [= <-] & [= <-] & H). apply lex3_Lt in H. now rewrite H.
Qed.

Lemma leb_key (x y : float) :
  PrimFloat.leb x y = true <->
  exists a b, fkey x = Some a /\ fkey y = Some b /\ key_le a b.
Proof.
  rewrite FloatAxioms.leb_spec; unfold SFleb, fkey; rewrite SFcompare_key.
  destruct (sf_key (Prim2SF x)) as [a|], (sf_key (Prim2SF y)) as [b|];
    try (split; [discriminate | intros (? & ? & ? & ? & _); discriminate]).
  split.
  - intros H; exists a, b; repeat split; apply lex3_not_Gt.
    destruct (lex3 a b); congruence.
  - intros (a' & b' & [= <-] & [= <-] & H). apply lex3_not_Gt in H.
    destruct (lex3 a b); congruence.
Qed.

Lemma eqb_key (x y : float) :
  PrimFloat.eqb x y = true <->
  exists a, fkey x = Some a /\ fkey y = Some a.
Proof.
  rewrite FloatAxioms.eqb_spec; unfold SFeqb, fkey; rewrite SFcompare_key.
  destruct (sf_key (Prim2SF x)) as [a|], (sf_key (Prim2SF y)) as [b|];
    try (split; [discriminate | intros (? & ? & ?); discriminate]).
  split.
  - intros H. exists a; split; [reflexivity|]. f_equal.
    assert (Hle : key_le a b)
      by (apply lex3_not_Gt; destruct (lex3 a b); congruence).
    assert (Hnl : ~ key_lt a b)
      by (rewrite <- lex3_Lt; destruct (lex3 a b); congruence).
    destruct a as [[a1 a2] a3], b as [[b1 b2] b3]; unfold key_le, key_lt in *.
    assert (a1 = b1 /\ a2 = b2 /\ a3 = b3) as (-> & -> & ->) by lia.
    reflexivity.
  - intros (a' & [= <-] & [= <-]). now rewrite lex3_Eq_refl.
Qed.

Lemma is_number_key (x : float) :
  is_number x = true <-> exists a, fkey x = Some a.
Proof.
  unfold is_number, PrimFloat.is_nan. rewrite negb_involutive, eqb_key.
  split; [intros (a & H & _); eauto | intros (a & H); eauto].
Qed.

Lemma is_nan_key (x : float) : PrimFloat.is_nan x = true <-> fkey x = None.
Proof.
  pose proof (is_number_key x) as H. unfold is_number in H.
  destruct (PrimFloat.is_nan x), (fkey x) as [a|]; split; intros; try easy.
  - destruct H as [_ H]. discriminate H. eauto.
  - destruct H as [H _]. destruct (H eq_refl); discriminate.
Qed.

Lemma leb_numbers (x y : float) :
  PrimFloat.leb x y = true -> is_number x = true /\ is_number y = true.
Proof.
  intros (a & b & Ha & Hb & _)%leb_key.
  split; apply is_number_key; eauto.
Qed.

Lemma ltb_leb (x y : float) :
  PrimFloat.ltb x y = true -> PrimFloat.leb x y = true.
Proof.
  intros (a & b & Ha & Hb & H)%ltb_key. apply leb_key. exists a, b.
  repeat split; trivial.
  destruct a as [[a1 a2] a3], b as [[b1 b2] b3]; unfold key_le, key_lt in *; lia.
Qed.

Lemma leb_total (x y : float) :
  is_number x = true -> is_number y = true ->
  PrimFloat.ltb x y = false -> PrimFloat.leb y x = true.
Proof.
  intros (a & Ha)%is_number_key (b & Hb)%is_number_key H.
  apply leb_key. exists b, a. repeat split; trivial.
  assert (Hn : ~ key_lt a b).
  { intros Hlt. rewrite (proj2 (ltb_key x y)) in H; [discriminate | eauto]. }
  destruct a as [[a1 a2] a3], b as [[b1 b2] b3]; unfold key_le, key_lt in *; lia.
Qed.

Lemma leb_trans (x y z : float) :
  PrimFloat.leb x y = true -> PrimFloat.leb y z = true ->
  PrimFloat.leb x z = true.
Proof.
  intros (a & b & Ha & Hb & H1)%leb_key (b' & c & Hb' & Hc & H2)%leb_key.
  rewrite Hb in Hb'; injection Hb' as <-.
  apply leb_key. exists a, c. repeat split; trivial.
  destruct a as [[a1 a2] a3], b as [[b1 b2] b3], c as [[c1 c2] c3];
    unfold key_le in *; lia.
Qed.

Lemma leb_not_ltb (x y : float) :
  PrimFloat.leb y x = true -> PrimFloat.ltb x y = false.
Proof.
  intros (b & a & Hb & Ha & H)%leb_key.
  destruct (PrimFloat.ltb x y) eqn:E; trivial.
  apply ltb_key in E as (a' & b' & Ha' & Hb' & H').
  rewrite Ha in Ha'; injection Ha' as <-. rewrite Hb in Hb'; injection Hb' as <-.
  destruct a as [[a1 a2] a3], b as [[b1 b2] b3]; unfold key_le, key_lt in *; lia.
Qed.

Lemma ltb_nan_r (x y : float) :
  PrimFloat.is_nan y = true -> PrimFloat.ltb x y = false.
Proof.
  intros H%is_nan_key. destruct (PrimFloat.ltb x y) eqn:E; trivial.
  apply ltb_key in E as (a & b & _ & Hb & _). congruence.
Qed.

Lemma ltb_nan_l (x y : float) :
  PrimFloat.is_nan x = true -> PrimFloat.ltb x y = false.
Proof.
  intros H%is_nan_key. destruct (PrimFloat.ltb x y) eqn:E; trivial.
  apply ltb_key in E as (a & b & Ha & _ & _). congruence.
Qed.

(** A number is greater than zero, less than zero or equal to it, and only
    one of the three. *)
Lemma sign_trichotomy (x : float) :
  is_number x = true ->
  (Z.b2z (gt x 0) + Z.b2z (lt x 0) + Z.b2z (PrimFloat.eqb x 0) = 1)%Z.
Proof.
  intros (a & Ha)%is_number_key. unfold gt, lt.
  assert (H0 : fkey 0%float = Some (0, 0, 0)%Z) by reflexivity.
  pose proof (ltb_key 0 x) as Hgt. pose proof (ltb_key x 0) as Hlt.
  pose proof (eqb_key x 0) as Heq.
  destruct a as [[a1 a2] a3].
  assert (Cgt : PrimFloat.ltb 0 x = true <-> key_lt (0, 0, 0)%Z (a1, a2, a3)).
  { rewrite Hgt. split.
    - intros (p & q & Hp & Hq & H).
      rewrite H0 in Hp; injection Hp as <-. rewrite Ha in Hq; injection Hq as <-.
      exact H.
    - intros H. eauto. }
  assert (Clt : PrimFloat.ltb x 0 = true <-> key_lt (a1, a2, a3) (0, 0, 0)%Z).
  { rewrite Hlt. split.
    - intros (p & q & Hp & Hq & H).
      rewrite H0 in Hq; injection Hq as <-. rewrite Ha in Hp; injection Hp as <-.
      exact H.
    - intros H. eauto. }
  assert (Ceq : PrimFloat.eqb x 0 = true <-> (a1, a2, a3) = (0, 0, 0)%Z).
  { rewrite Heq. split.
    - intros (p & Hp & Hq).
      rewrite Ha in Hp; injection Hp as <-. rewrite H0 in Hq.
      injection Hq; intros; subst; reflexivity.
    - intros H. exists (a1, a2, a3). split; [exact Ha | now rewrite H0, H]. }
  unfold key_lt in Cgt, Clt.
  destruct (PrimFloat.ltb 0 x), (PrimFloat.ltb x 0), (PrimFloat.eqb x 0);
    cbn [Z.b2z]; try reflexivity; exfalso.
  all: repeat match goal with
       | H : true = true <-> _ |- _ => apply proj1 in H; specialize (H eq_refl)
       | H : false = true <-> _ |- _ => apply proj2 in H
       end.
  all: try (injection Ceq as -> -> ->); try lia.
  (* none of the three holds *)
  assert (a1 = 0 /\ a2 = 0 /\ a3 = 0)%Z as (-> & -> & ->).
  { assert (~ (0 < a1 \/ 0 = a1 /\ (0 < a2 \/ 0 = a2 /\ 0 < a3)))%Z
      by (intros H; specialize (Cgt H); discriminate).
    assert (~ (a1 < 0 \/ a1 = 0 /\ (a2 < 0 \/ a2 = 0 /\ a3 < 0)))%Z
      by (intros H'; specialize (Clt H'); discriminate).
    lia. }
  specialize (Ceq eq_refl); discriminate.
Qed.

End F64Facts.

(** ** Facts about the error monad *)

Module PyFacts.
Import Py.

Lemma bind_Return {A B : Type} (c : outcome A) (k : A -> outcome B) (b : B) :
  bind c k = Return b -> exists a, c = Return a /\ k a = Return b.
Proof.
  destruct c as [a|e]; cbn; [eauto | discriminate].
Qed.

Lemma mapM_pure {A B : Type} (f : A -> outcome B) (g : A -> B) (l : list A) :
  Forall (fun a => f a = Return (g a)) l -> mapM f l = Return (map g l).
Proof.
  induction 1 as [|a l Ha _ IH]; cbn; [reflexivity|].
  now rewrite Ha, IH.
Qed.

Lemma mapM_Return {A B : Type} (f : A -> outcome B) (l : list A) (out : list B) :
  mapM f l = Return out -> Forall2 (fun a b => f a = Return b) l out.
Proof.
  revert out; induction l as [|a l IH]; cbn; intros out H.
  - injection H as <-. constructor.
  - apply bind_Return in H as (b & Hb & H).
    apply bind_Return in H as (bs & Hbs & H). injection H as <-.
    constructor; auto.
Qed.

End PyFacts.

Ltac bind_inv H :=
  let a := fresh "v" in
  let Ha := fresh "E" in
  apply PyFacts.bind_Return in H as (a & Ha & H).

Module FallbackFacts.
Import Py Pandas Tools Spec.

(** C1. Whatever exception the body of a tool raises, the tool returns:
    its result is the JSON text of the placeholder values of the operation
    followed by its marks, ["note"] and ["error"] (["error"] alone for the
    index tool, whose four rows carry the note).  This object is complete:
    it conforms to the schema of the operation's documents and none of its
    lists is empty.  It has the keys of a successful document followed by
    the marks, its ["error"] is [str(e)], it is marked as demonstration
    data and its numeric fields are numbers.  The object is static: it is
    the same for every library, world and exception with the same
    [str(e)]. *)
Theorem fallback_on_exception (L : library) (w : world) (op : operation) (e : exn) :
  attempt L w op = Raise e ->
  exists o,
    run L w op = Return (JsonText (JObj o)) /\
    o = (placeholders op ++ marks op (exn_str e))%list /\
    complete op o = true /\
    map fst o = (sections op ++ extras op)%list /\
    dict_get o "error" = Some (JStr (exn_str e)) /\
    marked_demo (JObj o) = true /\
    numbers_only (JObj o) = true /\
    forall L' w' e',
      attempt L' w' op = Raise e' -> exn_str e' = exn_str e ->
      run L' w' op = Return (JsonText (JObj o)).
Proof.
  intros H.
  destruct op; cbn [attempt run] in *;
    unfold get_stock_index_data, get_stock_ranking, get_market_statistics,
      get_sector_performance, get_stock_info;
    rewrite H; cbn [try_except];
    eexists; (split; [reflexivity|]); do 6 (split; [reflexivity|]);
    intros L' w' e' H' Hstr; rewrite H'; cbn [try_except];
    unfold get_stock_index_data_except, get_stock_ranking_except,
      get_market_statistics_except, get_sector_performance_except,
      get_stock_info_except;
    now rewrite Hstr.
Qed.

Lemma fallback_on_exception_witness :
  attempt Sample.lib Sample.offline Ranking = Raise Sample.timeout /\
  exists o,
    run Sample.lib Sample.offline Ranking = Return (JsonText (JObj o)) /\
    o = (placeholders Ranking ++ marks Ranking "Connection timed out")%list /\
    complete Ranking o = true /\
    map fst o = ["涨幅榜"; "跌幅榜"; "note"; "error"] /\
    dict_get o "error" = Some (JStr "Connection timed out") /\
    marked_demo (JObj o) = true /\
    numbers_only (JObj o) = true /\
    forall L' w' e',
      attempt L' w' Ranking = Raise e' -> exn_str e' = "Connection timed out" ->
      run L' w' Ranking = Return (JsonText (JObj o)).
Proof.
  split; [reflexivity|].
  apply (fallback_on_exception Sample.lib Sample.offline Ranking Sample.timeout).
  reflexivity.
Defined.
(** No tool lets an exception out. *)
Lemma tools_never_raise (L : library) (w : world) (op : operation) :
  exists r, run L w op = Return r.
Proof.
  destruct op; cbn [run];
    unfold get_stock_index_data, get_stock_ranking, get_market_statistics,
      get_sector_performance, get_stock_info;
    match goal with |- context [try_except ?b _] => destruct b end;
    eexists; reflexivity.
Qed.

End FallbackFacts.

(** ** Facts about the table operations *)

Module PandasFacts.
Import Py Pandas Spec.

Lemma mask_filter {A : Type} (q : A -> bool) (l : list A) :
  map snd (filter fst (combine (map q l) l)) = filter q l.
Proof.
  induction l as [|a l IH]; cbn; [reflexivity|].
  destruct (q a); cbn; now rewrite IH.
Qed.

Lemma mask_rows_test (df : DataFrame) (col : string) (test : cell -> bool) :
  mask_rows df (map test (map (fun r => at_ r col) (rows df))) =
  mkDF (columns df) (filter (fun r => test (at_ r col)) (rows df)).
Proof.
  unfold mask_rows. now rewrite map_map, mask_filter.
Qed.

Lemma getitem_Return (df : DataFrame) (col : string) (cells : list cell) :
  getitem df col = Return cells ->
  has_label col (columns df) = true /\
  cells = map (fun r => at_ r col) (rows df).
Proof.
  unfold getitem. destruct (has_label col (columns df)); [|discriminate].
  intros [= <-]; auto.
Qed.

Lemma getitem_label (df : DataFrame) (col : string) :
  has_label col (columns df) = true ->
  getitem df col = Return (map (fun r => at_ r col) (rows df)).
Proof.
  unfold getitem. now intros ->.
Qed.

Lemma find_filter {A : Type} (q : A -> bool) (l : list A) :
  find q l = hd_error (filter q l).
Proof.
  induction l as [|a l IH]; cbn; [reflexivity|].
  destruct (q a); cbn; auto.
Qed.

Lemma has_label_nonempty (k : string) (labels : list string) :
  has_label k labels = true -> labels <> [].
Proof.
  now destruct labels.
Qed.

(** A column of floats gives a float in every row. *)
Lemma float_column_at (df : DataFrame) (k : string) (r : record) :
  float_column df k = true -> In r (rows df) ->
  has_label k (columns df) = true /\ at_ r k = CFloat (float_at r k).
Proof.
  unfold float_column. intros [Hl Hf]%andb_prop Hin. split; [exact Hl|].
  rewrite forallb_forall in Hf. specialize (Hf r Hin).
  unfold float_at. now destruct (at_ r k).
Qed.

Lemma float_columns_In (df : DataFrame) (ks : list string) (k : string) :
  float_columns df ks = true -> In k ks -> float_column df k = true.
Proof.
  unfold float_columns. rewrite forallb_forall. auto.
Qed.

End PandasFacts.

(** ** get_stock_index_data *)

Module IndexFacts.
Import Py Pandas Tools Spec PandasFacts.

Section WithLibrary.
Variable L : library.

Lemma index_data_rows (df : DataFrame) (code : string) :
  has_label "代码" (columns df) = true ->
  empty (mkDF (columns df)
           (filter (fun r => eq_str code (at_ r "代码")) (rows df))) =
  match first_with_code df code with
  | Some _ => false
  | None => true
  end.
Proof.
  intros Hl. unfold first_with_code. rewrite find_filter. unfold empty; cbn.
  destruct (filter _ (rows df)); cbn; [reflexivity|].
  apply has_label_nonempty in Hl. now destruct (columns df).
Qed.

(** What one turn of the loop stores, whenever it does not raise. *)
Lemma index_row_Return (df : DataFrame) (code : string) (j : json) :
  index_row L df code = Return j ->
  match first_with_code df code with
  | Some r =>
      exists price pct chg vol amt,
        j = JObj [("代码", JStr code); ("最新价", JFloat price);
                  ("涨跌幅", JFloat pct); ("涨跌额", JFloat chg);
                  ("成交量", JFloat vol); ("成交额", JFloat amt)] /\
        float_get L (mkSeries (columns df) r) "最新价" = Return price /\
        float_get L (mkSeries (columns df) r) "涨跌幅" = Return pct /\
        float_get L (mkSeries (columns df) r) "涨跌额" = Return chg /\
        float_get L (mkSeries (columns df) r) "成交量" = Return vol /\
        float_get L (mkSeries (columns df) r) "成交额" = Return amt
  | None => j = no_data_json code
  end.
Proof.
  unfold index_row. intros H. bind_inv H.
  apply getitem_Return in E as [Hl ->].
  rewrite mask_rows_test, (index_data_rows df code Hl) in H.
  unfold first_with_code in *. rewrite find_filter in *.
  destruct (filter _ (rows df)) as [|r rs] eqn:Ef; cbn [hd_error negb] in *.
  - now injection H as <-.
  - unfold iloc0 in H; cbn [rows columns bind] in H.
    do 5 bind_inv H. injection H as <-.
    repeat eexists; eassumption.
Qed.

(** On a table of floats every turn succeeds and echoes the record. *)
Lemma index_row_floats (df : DataFrame) (code : string) :
  has_label "代码" (columns df) = true ->
  float_columns df ["最新价"; "涨跌幅"; "涨跌额"; "成交量"; "成交额"] = true ->
  index_row L df code =
  Return match first_with_code df code with
         | Some r => index_json code r
         | None => no_data_json code
         end.
Proof.
  intros Hl Hf. unfold index_row.
  rewrite (getitem_label _ _ Hl); cbn [bind].
  rewrite mask_rows_test, (index_data_rows df code Hl).
  destruct (first_with_code df code) as [r|] eqn:Er; cbn [negb]; [|reflexivity].
  unfold first_with_code in Er. pose proof (find_some _ _ Er) as [Hin _].
  rewrite find_filter in Er.
  unfold iloc0; cbn [rows columns].
  destruct (filter _ (rows df)) as [|r' rs]; [discriminate|].
  injection Er as ->. cbn [bind].
  assert (G : forall k, In k ["最新价"; "涨跌幅"; "涨跌额"; "成交量"; "成交额"] ->
              float_get L (mkSeries (columns df) r) k = Return (float_at r k)).
  { intros k Hk. pose proof (float_columns_In _ _ _ Hf Hk) as Hc.
    destruct (float_column_at _ _ _ Hc Hin) as [Hk1 Hk2].
    unfold float_get, series_get; cbn [index values].
    now rewrite Hk1, Hk2. }
  rewrite !G by (cbn; tauto). reflexivity.
Qed.

(** What the body of the index tool returns: the four rows, each stored by
    its turn of the loop. *)
Lemma index_try_Return (w : world) (r : response) :
  get_stock_index_data_try L w = Return r ->
  exists df j1 j2 j3 j4,
    stock_zh_a_spot_em w = Return df /\
    r = JsonText (JObj [("上证指数", j1); ("深证成指", j2);
                        ("创业板指", j3); ("科创50", j4)]) /\
    index_row L df "000001" = Return j1 /\
    index_row L df "399001" = Return j2 /\
    index_row L df "399006" = Return j3 /\
    index_row L df "000688" = Return j4.
Proof.
  unfold get_stock_index_data_try. intros H.
  bind_inv H. bind_inv H. bind_inv H. injection H as <-.
  match goal with Hl : index_loop _ _ _ _ = _ |- _ => rename Hl into Hloop end.
  unfold indices in Hloop; cbn [index_loop] in Hloop.
  do 4 bind_inv Hloop. injection Hloop as <-.
  repeat eexists; eassumption.
Qed.

(** C7. On a snapshot with the code column and float columns for the five
    numeric fields, the tool returns a document that holds, under each of
    the four index names, the code with the price, percent change, change,
    volume and turnover of the first row that carries the index code, or
    the row of zeros with the no-data note when no row carries it. *)
Theorem index_data_echoes_snapshot (w : world) (df : DataFrame) :
  request_context w = Return tt ->
  stock_zh_a_spot_em w = Return df ->
  has_label "代码" (columns df) = true ->
  float_columns df ["最新价"; "涨跌幅"; "涨跌额"; "成交量"; "成交额"] = true ->
  exists result,
    get_stock_index_data L w = Return (JsonText (JObj result)) /\
    echoes_snapshot df result.
Proof.
  intros Hctx Hdf Hl Hf.
  unfold get_stock_index_data, get_stock_index_data_try.
  rewrite Hctx, Hdf; cbn [bind]. unfold indices; cbn [index_loop].
  rewrite !(index_row_floats df _ Hl Hf); cbn [bind try_except].
  eexists; split; [reflexivity|].
  intros name code [H|[H|[H|[H|[]]]]]; injection H as <- <-; reflexivity.
Qed.

(** C9. A document the tool builds from a snapshot has exactly the four
    index names as its keys; the row under a name has the code of that
    name, found or not; a row found in the snapshot has no note, and a row
    not found is the no-data row. *)
Theorem index_data_keys_and_codes (w : world) (r : response) :
  get_stock_index_data_try L w = Return r ->
  exists df result,
    stock_zh_a_spot_em w = Return df /\
    r = JsonText (JObj result) /\
    index_document df result.
Proof.
  intros (df & j1 & j2 & j3 & j4 & Hdf & -> & H1 & H2 & H3 & H4)%index_try_Return.
  eexists _, _. split; [exact Hdf|]. split; [reflexivity|].
  split; [reflexivity|].
  intros name code [H|[H|[H|[H|[]]]]]; injection H as <- <-;
    match goal with
    | Hrow : index_row L ?df ?c = Return ?j |- context [JStr ?c] =>
        exists j; apply index_row_Return in Hrow;
        destruct (first_with_code df c) as [rec|];
        [ destruct Hrow as (p1 & p2 & p3 & p4 & p5 & -> & _)
        | subst j ];
        repeat split; try reflexivity; try congruence
    end.
Qed.

End WithLibrary.

Lemma index_data_echoes_snapshot_witness :
  let w := Sample.world_of Sample.snapshot in
  request_context w = Return tt /\
  stock_zh_a_spot_em w = Return Sample.snapshot /\
  exists result,
    get_stock_index_data Sample.lib w = Return (JsonText (JObj result)) /\
    echoes_snapshot Sample.snapshot result.
Proof.
  intros w. split; [reflexivity|]. split; [reflexivity|].
  apply (index_data_echoes_snapshot Sample.lib w Sample.snapshot); reflexivity.
Defined.

Lemma index_data_keys_and_codes_witness :
  let w := Sample.world_of Sample.small_snapshot in
  exists r,
    get_stock_index_data_try Sample.lib w = Return r /\
    exists df result,
      stock_zh_a_spot_em w = Return df /\
      r = JsonText (JObj result) /\
      index_document df result.
Proof.
  intros w. eexists. split; [reflexivity|].
  apply (index_data_keys_and_codes Sample.lib w). reflexivity.
Defined.

End IndexFacts.

(** ** get_stock_info *)

Module StockInfoFacts.
Import Py Pandas Tools Spec PandasFacts.

Lemma eq_str_true (code : string) (c : cell) :
  eq_str code c = true -> c = CStr code.
Proof.
  destruct c as [x|t]; cbn; [discriminate|].
  now intros ->%String.eqb_eq.
Qed.


Section WithLibrary.
Variable L : library.

Lemma float_item_floats (df : DataFrame) (r : record) (k : string) :
  float_column df k = true -> In r (rows df) ->
  float_item L (mkSeries (columns df) r) k = Return (float_at r k).
Proof.
  intros Hc Hin. destruct (float_column_at _ _ _ Hc Hin) as [Hl Hv].
  unfold float_item, series_getitem; cbn [index values].
  now rewrite Hl, Hv.
Qed.



End WithLibrary.



End StockInfoFacts.

(** ** get_market_statistics *)

Module MarketFacts.
Import Py Pandas Tools Spec PandasFacts.

Lemma float_column_cells (df : DataFrame) (col : string) :
  float_column df col = true ->
  Forall (fun c => c = CFloat (float_of c)) (map (fun r => at_ r col) (rows df)).
Proof.
  intros [_ Hf]%andb_prop. rewrite forallb_forall in Hf.
  apply Forall_forall. intros c (r & <- & Hin)%in_map_iff.
  specialize (Hf r Hin). now destruct (at_ r col).
Qed.

Lemma float_of_at (r : record) (col : string) : float_of (at_ r col) = float_at r col.
Proof. reflexivity. Qed.

Lemma count_where_floats (df : DataFrame) (col symbol : string)
  (op : float -> float -> bool) (t : float) :
  float_column df col = true ->
  count_where df col (cmp_num symbol op t) =
  Return (count_rows (fun x => op x t) col df).
Proof.
  intros Hc. pose proof Hc as [Hl _]%andb_prop.
  unfold count_where. rewrite (getitem_label _ _ Hl); cbn [bind].
  rewrite (PyFacts.mapM_pure _ (fun c => op (float_of c) t)).
  - cbn [bind]. now rewrite mask_rows_test.
  - eapply Forall_impl; [|apply (float_column_cells df col Hc)].
    cbn beta. intros c ->. reflexivity.
Qed.

Lemma count_equal_floats (df : DataFrame) (col : string) (t : float) :
  float_column df col = true ->
  count_equal df col t = Return (count_rows (fun x => x =? t)%float col df).
Proof.
  intros Hc. pose proof Hc as [Hl Hf]%andb_prop.
  unfold count_equal. rewrite (getitem_label _ _ Hl); cbn [bind].
  rewrite mask_rows_test. unfold len, count_rows; cbn [rows]. do 3 f_equal.
  apply filter_ext_in. intros r Hin.
  destruct (float_column_at _ _ _ Hc Hin) as [_ ->]. reflexivity.
Qed.

Lemma floats_of_floats (df : DataFrame) (col : string) :
  float_column df col = true ->
  floats_of (map (fun r => at_ r col) (rows df)) =
  Return (map (fun r => float_at r col) (rows df)).
Proof.
  intros Hc. unfold floats_of.
  rewrite (PyFacts.mapM_pure _ float_of).
  - now rewrite map_map.
  - eapply Forall_impl; [|apply (float_column_cells df col Hc)].
    cbn beta. intros c ->. reflexivity.
Qed.

(** Numbers split into those above zero, those below and those equal. *)
Lemma signs_partition {A : Type} (f : A -> float) (l : list A) :
  forallb (fun a => F64.is_number (f a)) l = true ->
  (List.length (filter (fun a => 0 <? f a)%float l)
   + List.length (filter (fun a => f a <? 0)%float l)
   + List.length (filter (fun a => f a =? 0)%float l) = List.length l)%nat.
Proof.
  induction l as [|a l IH]; cbn [forallb filter]; [reflexivity|].
  intros [Hx Hxs]%andb_prop. specialize (IH Hxs).
  pose proof (F64Facts.sign_trichotomy (f a) Hx) as T.
  unfold F64.gt, F64.lt in T.
  destruct (0 <? f a)%float, (f a <? 0)%float, (f a =? 0)%float;
    cbn [Z.b2z] in T; cbn [List.length]; lia.
Qed.

Section WithLibrary.
Variable L : library.

(** The whole document on a float64 table. *)
Lemma market_statistics_floats (w : world) (df : DataFrame) :
  request_context w = Return tt ->
  stock_zh_a_spot_em w = Return df ->
  float_columns df ["涨跌幅"; "成交额"] = true ->
  get_market_statistics L w = Return (JsonText (statistics_json L df)).
Proof.
  intros Hctx Hdf Hf.
  assert (Hp : float_column df "涨跌幅" = true)
    by (apply (float_columns_In _ _ _ Hf); cbn; tauto).
  assert (Ha : float_column df "成交额" = true)
    by (apply (float_columns_In _ _ _ Hf); cbn; tauto).
  pose proof Hp as [Hlp _]%andb_prop. pose proof Ha as [Hla _]%andb_prop.
  unfold get_market_statistics, get_market_statistics_try.
  rewrite Hctx, Hdf; cbn [bind].
  rewrite !(count_where_floats df _ _ _ _ Hp); cbn [bind].
  rewrite (count_equal_floats df _ _ Hp); cbn [bind].
  rewrite (getitem_label _ _ Hlp); cbn [bind].
  rewrite (floats_of_floats df _ Hp); cbn [bind].
  rewrite (getitem_label _ _ Hla); cbn [bind].
  rewrite (floats_of_floats df _ Ha); cbn [bind try_except].
  reflexivity.
Qed.

(** C4. On a snapshot whose percent changes and turnovers are floats the
    tool reports, as limit-up, the number of rows with a percent change of
    at least 9.9; as limit-down, of at most -9.9; as advancing, declining
    and flat, the numbers of rows above zero, below zero and equal to zero;
    and as the total, the number of rows. *)
Theorem market_statistics_counts (w : world) (df : DataFrame) :
  request_context w = Return tt ->
  stock_zh_a_spot_em w = Return df ->
  float_columns df ["涨跌幅"; "成交额"] = true ->
  exists doc,
    get_market_statistics L w = Return (JsonText doc) /\
    path doc ["涨跌停统计"; "涨停家数"] =
      Some (JInt (count_rows (fun x => 9.9 <=? x)%float "涨跌幅" df)) /\
    path doc ["涨跌停统计"; "跌停家数"] =
      Some (JInt (count_rows (fun x => x <=? -9.9)%float "涨跌幅" df)) /\
    path doc ["涨跌家数"; "上涨家数"] =
      Some (JInt (count_rows (fun x => 0 <? x)%float "涨跌幅" df)) /\
    path doc ["涨跌家数"; "下跌家数"] =
      Some (JInt (count_rows (fun x => x <? 0)%float "涨跌幅" df)) /\
    path doc ["涨跌家数"; "平盘家数"] =
      Some (JInt (count_rows (fun x => x =? 0)%float "涨跌幅" df)) /\
    path doc ["股票总数"] = Some (JInt (Z.of_nat (List.length (rows df)))).
Proof.
  intros Hctx Hdf Hf. exists (statistics_json L df).
  split; [now apply market_statistics_floats|].
  repeat split; reflexivity.
Qed.

(** C10. When moreover no percent change is NaN, the advancing, declining
    and flat counts of the document add up to its total. *)
Theorem advancing_declining_flat_total (w : world) (df : DataFrame) :
  request_context w = Return tt ->
  stock_zh_a_spot_em w = Return df ->
  float_columns df ["涨跌幅"; "成交额"] = true ->
  forallb (fun r => F64.is_number (float_at r "涨跌幅")) (rows df) = true ->
  exists doc up down flat total,
    get_market_statistics L w = Return (JsonText doc) /\
    path doc ["涨跌家数"; "上涨家数"] = Some (JInt up) /\
    path doc ["涨跌家数"; "下跌家数"] = Some (JInt down) /\
    path doc ["涨跌家数"; "平盘家数"] = Some (JInt flat) /\
    path doc ["股票总数"] = Some (JInt total) /\
    (up + down + flat = total)%Z.
Proof.
  intros Hctx Hdf Hf Hn. exists (statistics_json L df).
  eexists _, _, _, _. split; [now apply market_statistics_floats|].
  repeat (split; [reflexivity|]).
  unfold count_rows.
  pose proof (signs_partition (fun r => float_at r "涨跌幅") (rows df) Hn). lia.
Qed.

End WithLibrary.

Lemma market_statistics_counts_witness :
  let w := Sample.world_of Sample.snapshot in
  request_context w = Return tt /\
  stock_zh_a_spot_em w = Return Sample.snapshot /\
  float_columns Sample.snapshot ["涨跌幅"; "成交额"] = true /\
  exists doc,
    get_market_statistics Sample.lib w = Return (JsonText doc) /\
    path doc ["涨跌停统计"; "涨停家数"] = Some (JInt 3) /\
    path doc ["涨跌停统计"; "跌停家数"] = Some (JInt 2) /\
    path doc ["涨跌家数"; "上涨家数"] = Some (JInt 11) /\
    path doc ["涨跌家数"; "下跌家数"] = Some (JInt 9) /\
    path doc ["涨跌家数"; "平盘家数"] = Some (JInt 2) /\
    path doc ["股票总数"] = Some (JInt 22).
Proof.
  intros w. do 3 (split; [reflexivity|]).
  exact (market_statistics_counts Sample.lib w Sample.snapshot
           eq_refl eq_refl eq_refl).
Defined.

Lemma advancing_declining_flat_total_witness :
  let w := Sample.world_of Sample.snapshot in
  request_context w = Return tt /\
  stock_zh_a_spot_em w = Return Sample.snapshot /\
  float_columns Sample.snapshot ["涨跌幅"; "成交额"] = true /\
  forallb (fun r => F64.is_number (float_at r "涨跌幅")) (rows Sample.snapshot) = true /\
  exists doc up down flat total,
    get_market_statistics Sample.lib w = Return (JsonText doc) /\
    path doc ["涨跌家数"; "上涨家数"] = Some (JInt up) /\
    path doc ["涨跌家数"; "下跌家数"] = Some (JInt down) /\
    path doc ["涨跌家数"; "平盘家数"] = Some (JInt flat) /\
    path doc ["股票总数"] = Some (JInt total) /\
    (up + down + flat = total)%Z.
Proof.
  intros w. do 4 (split; [reflexivity|]).
  exact (advancing_declining_flat_total Sample.lib w Sample.snapshot
           eq_refl eq_refl eq_refl eq_refl).
Defined.

(** With a NaN among the percent changes the three counts fall short of the
    total: the row is counted in none of them. *)
Example counts_with_a_missing_change :
  get_market_statistics Sample.lib
    (Sample.world_of
       (mkDF Sample.quote_columns
          [Sample.quote "600000" "浦发银行" 7.5 1.5;
           Sample.quote "600004" "白云机场" 10.5 PrimFloat.nan])) =
  Return (JsonText (JObj
    [("涨跌停统计", JObj [("涨停家数", JInt 0); ("跌停家数", JInt 0)]);
     ("涨跌家数", JObj [("上涨家数", JInt 1); ("下跌家数", JInt 0);
                        ("平盘家数", JInt 0)]);
     ("市场表现", JObj [("平均涨跌幅", JFloat 1.5); ("总成交额", JFloat 5)]);
     ("股票总数", JInt 2)])).
Proof. reflexivity. Qed.

End MarketFacts.

(** ** Rounding of the two aggregates *)

Module RoundingFacts.
Import Py Pandas Tools Spec Cases.

(** The quotient-and-remainder computation gives the nearest integer, the
    even one at a tie. *)
Lemma nearest_even_spec (m d : Z) :
  (0 < d)%Z -> nearest_to_even m d (Numpy.nearest_even m d).
Proof.
  intros Hd. unfold nearest_to_even, Numpy.nearest_even.
  pose proof (Z.div_mod m d ltac:(lia)) as Hm.
  pose proof (Z.mod_pos_bound m d Hd) as Hr.
  set (q := (m / d)%Z) in *. set (r := (m mod d)%Z) in *.
  destruct (Z.compare_spec (2 * r) d) as [He|Hl|Hg].
  - destruct (Z.even q) eqn:Eq.
    + split; [nia|]. intros _. exact Eq.
    + split; [nia|]. intros _. rewrite Z.even_add. now rewrite Eq.
  - split; [nia|]. intros Ht. exfalso. nia.
  - split; [nia|]. intros Ht. exfalso. nia.
Qed.

Lemma rint_rounded (y : float) : rounded_to_integer y (Numpy.rint y).
Proof.
  unfold rounded_to_integer, Numpy.rint.
  destruct (Prim2SF y) as [s|s| |s m e]; try reflexivity.
  destruct (e <? 0)%Z eqn:He; [|reflexivity].
  eexists. split; [|reflexivity].
  apply nearest_even_spec. apply Z.pow_pos_nonneg; lia.
Qed.

(** numpy's [round(x, 2)] in the words of the statement. *)
Lemma round2_scaled (x : float) : scaled_rounded x (Numpy.round2 x).
Proof.
  exists (Numpy.rint (x * 100)). split; [apply rint_rounded | reflexivity].
Qed.

(** The double written [2.675] is less than the decimal 2.675. *)
Lemma below_the_tie :
  exists p q, exact 2.675 = Some (p, q) /\ (1000 * p < 2675 * q)%Z.
Proof.
  eexists _, _. split; [reflexivity|]. reflexivity.
Qed.

(** One hundred times its value lies between 267 and 267.5, so under every
    round-half rule it rounds to 2.67; numpy's [round] gives 2.68. *)
Lemma not_half_rounded : ~ half_rounded 2.675 (Numpy.round2 2.675).
Proof.
  intros (p & q & n & He & Hn & Hr).
  vm_compute in He. injection He as <- <-.
  assert (n = 267%Z) as -> by lia.
  apply (f_equal Prim2SF) in Hr. vm_compute in Hr. discriminate.
Qed.


Section WithLibrary.
Variable L : library.

(** C5, as the code has it. On a snapshot whose percent changes and
    turnovers are floats the document holds [round(m, 2)] and
    [round(s / 100000000, 2)], [m] and [s] being the mean and the sum the
    library computes over the two columns, where [round] is numpy's: the
    binary64 product by 100 is rounded to the nearest integer, a tie going
    to the even integer, and the integer is divided by 100 in binary64. *)
Theorem market_statistics_rounding (w : world) (df : DataFrame) :
  request_context w = Return tt ->
  stock_zh_a_spot_em w = Return df ->
  float_columns df ["涨跌幅"; "成交额"] = true ->
  (forall x, round2 L x = Numpy.round2 x) ->
  exists doc avg total,
    get_market_statistics L w = Return (JsonText doc) /\
    path doc ["市场表现"; "平均涨跌幅"] = Some (JFloat avg) /\
    path doc ["市场表现"; "总成交额"] = Some (JFloat total) /\
    scaled_rounded
      (nanmean L (map (fun r => float_at r "涨跌幅") (rows df))) avg /\
    scaled_rounded
      (nansum L (map (fun r => float_at r "成交额") (rows df)) / 100000000) total.
Proof.
  intros Hctx Hdf Hf Hround.
  exists (statistics_json L df). eexists _, _.
  split; [now apply MarketFacts.market_statistics_floats|].
  do 2 (split; [reflexivity|]).
  rewrite !Hround. split; apply round2_scaled.
Qed.

End WithLibrary.

Lemma market_statistics_rounding_witness :
  let w := Sample.world_of Sample.snapshot in
  exists doc avg total,
    get_market_statistics Sample.lib w = Return (JsonText doc) /\
    path doc ["市场表现"; "平均涨跌幅"] = Some (JFloat avg) /\
    path doc ["市场表现"; "总成交额"] = Some (JFloat total) /\
    scaled_rounded
      (Sample.mean (map (fun r => float_at r "涨跌幅") (rows Sample.snapshot))) avg /\
    scaled_rounded
      (Sample.sum (map (fun r => float_at r "成交额") (rows Sample.snapshot))
       / 100000000) total.
Proof.
  intros w.
  exact (market_statistics_rounding Sample.lib w Sample.snapshot
           eq_refl eq_refl eq_refl (fun x => eq_refl)).
Defined.

(** This is not rounding the value to two decimals by a round-half rule.
    For a single quote whose percent change is the double written [2.675]
    the mean is that double, which lies below the decimal 2.675; its value
    rounded to two decimals is 2.67, under every round-half rule, and the
    tool reports 2.68. *)
Lemma rounding_is_not_half_rounding :
  let w := Sample.world_of below_tie_snapshot in
  map (fun r => at_ r "涨跌幅") (rows below_tie_snapshot) = [CFloat 2.675] /\
  Sample.mean [2.675%float] = 2.675%float /\
  (exists p q, exact 2.675 = Some (p, q) /\ (1000 * p < 2675 * q)%Z) /\
  exists doc avg,
    get_market_statistics Sample.lib w = Return (JsonText doc) /\
    path doc ["市场表现"; "平均涨跌幅"] = Some (JFloat avg) /\
    avg = 2.68%float /\
    ~ half_rounded 2.675 avg.
Proof.
  intros w. split; [reflexivity|]. split; [reflexivity|].
  split; [exact below_the_tie|].
  eexists _, _. split; [reflexivity|]. split; [reflexivity|].
  split; [reflexivity|]. exact not_half_rounded.
Qed.

End RoundingFacts.

(** ** Sorted lists *)

Module SortedFacts.

Section Lists.
Context {A : Type}.
Variable R : A -> A -> Prop.

Lemma sorted_app (l1 l2 : list A) :
  StronglySorted R l1 -> StronglySorted R l2 ->
  (forall a b, In a l1 -> In b l2 -> R a b) ->
  StronglySorted R (l1 ++ l2).
Proof.
  induction 1 as [|a l1 H1 IH Ha]; intros H2 Hx; cbn; [exact H2|].
  constructor.
  - apply IH; [exact H2|]. intros; apply Hx; cbn; auto.
  - apply Forall_app; split; [exact Ha|].
    apply Forall_forall; intros b Hb. apply Hx; cbn; auto.
Qed.

Lemma sorted_app_inv (l1 l2 : list A) :
  StronglySorted R (l1 ++ l2) ->
  StronglySorted R l1 /\ StronglySorted R l2 /\
  (forall a b, In a l1 -> In b l2 -> R a b).
Proof.
  induction l1 as [|a l1 IH]; cbn; intros H.
  - repeat split; [constructor | exact H | contradiction].
  - apply StronglySorted_inv in H as [H Ha].
    destruct (IH H) as (S1 & S2 & Hx).
    apply Forall_app in Ha as [Ha1 Ha2].
    repeat split; [constructor; assumption | exact S2|].
    intros x b [<-|Hin] Hb; [|auto].
    rewrite Forall_forall in Ha2; auto.
Qed.

Lemma sorted_firstn (n : nat) (l : list A) :
  StronglySorted R l -> StronglySorted R (firstn n l).
Proof.
  intros H. rewrite <- (firstn_skipn n l) in H.
  now apply sorted_app_inv in H.
Qed.

Lemma sorted_skipn (n : nat) (l : list A) :
  StronglySorted R l -> StronglySorted R (skipn n l).
Proof.
  intros H. rewrite <- (firstn_skipn n l) in H.
  now apply sorted_app_inv in H.
Qed.

Lemma sorted_weaken (R' : A -> A -> Prop) (l : list A) :
  (forall a b, In a l -> In b l -> R a b -> R' a b) ->
  StronglySorted R l -> StronglySorted R' l.
Proof.
  intros HR H. induction H as [|a l H IH Ha]; constructor.
  - apply IH. intros; apply HR; cbn; auto.
  - rewrite Forall_forall in *. intros b Hb. apply HR; cbn; auto.
Qed.

End Lists.

Lemma sorted_rev {A : Type} (R : A -> A -> Prop) (l : list A) :
  StronglySorted R l -> StronglySorted (fun a b => R b a) (rev l).
Proof.
  induction 1 as [|a l H IH Ha]; cbn; [constructor|].
  apply sorted_app; [exact IH | repeat constructor |].
  intros x b Hx [<-|[]]. rewrite Forall_forall in Ha.
  apply Ha. now apply in_rev.
Qed.

Lemma sorted_map {A B : Type} (R : B -> B -> Prop) (f : A -> B) (l : list A) :
  StronglySorted (fun a b => R (f a) (f b)) l -> StronglySorted R (map f l).
Proof.
  induction 1 as [|a l H IH Ha]; cbn; constructor; [exact IH|].
  apply Forall_map. exact Ha.
Qed.

Lemma filter_split {A : Type} (p : A -> bool) (l : list A) :
  Permutation (filter (fun a => negb (p a)) l ++ filter p l) l.
Proof.
  induction l as [|a l IH]; cbn; [constructor|].
  destruct (p a); cbn.
  - symmetry. apply Permutation_cons_app. now symmetry.
  - now constructor.
Qed.

End SortedFacts.

(** ** sort_values on a column of floats *)

Module SortFacts.
Import Py Pandas Spec PandasFacts SortedFacts.

Section Keyed.
Context {A : Type}.

Lemma insert_sorted_numbers (x : cell * A) (l : list (cell * A)) :
  numeric x -> Forall numeric l -> StronglySorted ascending l ->
  exists s, insert_sorted x l = Return s /\
            Permutation s (x :: l) /\ StronglySorted ascending s.
Proof.
  intros [Hx Nx] Hl Hs. induction l as [|y l IH]; cbn [insert_sorted].
  - exists [x]. repeat split; auto. repeat constructor.
  - apply Forall_cons_iff in Hl as [[Hy Ny] Hl].
    apply StronglySorted_inv in Hs as [Hs Hy'].
    rewrite Hy, Hx; cbn [py_lt bind].
    destruct (PrimFloat.ltb (key_of y) (key_of x)) eqn:E.
    + destruct (IH Hl Hs) as (t & -> & Pt & St). cbn [bind].
      exists (y :: t). repeat split.
      * rewrite Pt. apply perm_swap.
      * constructor; [exact St|].
        eapply Permutation_Forall; [symmetry; exact Pt|].
        constructor; [now apply F64Facts.ltb_leb | exact Hy'].
    + exists (x :: y :: l). repeat split; [reflexivity|].
      assert (Hxy : ascending x y) by now apply F64Facts.leb_total.
      constructor; [constructor; assumption|].
      constructor; [exact Hxy|].
      eapply Forall_impl; [|exact Hy'].
      intros z Hz. eapply F64Facts.leb_trans; eassumption.
Qed.

Lemma argsort_numbers (l : list (cell * A)) :
  Forall numeric l ->
  exists s, argsort l = Return s /\ Permutation s l /\ StronglySorted ascending s.
Proof.
  induction 1 as [|x l Hx Hl IH]; cbn [argsort].
  - exists []. repeat split; constructor.
  - destruct IH as (s & -> & Ps & Ss). cbn [bind].
    destruct (insert_sorted_numbers x s Hx) as (t & Ht & Pt & St); [|exact Ss|].
    + eapply Permutation_Forall; [symmetry; exact Ps | exact Hl].
    + exists t. repeat split; [exact Ht | | exact St].
      rewrite Pt. now constructor.
Qed.

End Keyed.

Lemma sorted_all {A : Type} (R : A -> A -> Prop) (l : list A) :
  (forall a b, In b l -> R a b) -> StronglySorted R l.
Proof.
  induction l as [|a l IH]; intros H; constructor.
  - apply IH. intros; apply H; cbn; auto.
  - apply Forall_forall. intros; apply H; cbn; auto.
Qed.

(** Numbers in order, then the missing values: the order of the result. *)
Lemma numbers_then_nans {A : Type} (asc : bool) (s nans : list (cell * A)) :
  StronglySorted (fun a b => if asc then ascending a b else ascending b a) s ->
  Forall (fun kr => PrimFloat.is_nan (key_of kr) = true) nans ->
  StronglySorted (fun a b => by_order asc (key_of a) (key_of b)) (s ++ nans).
Proof.
  intros Hs Hn. rewrite Forall_forall in Hn. apply sorted_app.
  - eapply sorted_weaken; [|exact Hs]. cbn beta. intros a b _ _ H.
    destruct asc; right; exact H.
  - apply sorted_all. intros a b Hb. destruct asc; left; auto.
  - intros a b _ Hb. destruct asc; left; auto.
Qed.

Lemma sort_values_floats (df : DataFrame) (col : string) (asc : bool) :
  float_column df col = true ->
  exists sorted,
    sort_values df col asc = Return (mkDF (columns df) sorted) /\
    Permutation sorted (rows df) /\
    StronglySorted
      (fun r1 r2 => by_order asc (float_at r1 col) (float_at r2 col)) sorted.
Proof.
  intros Hc. pose proof Hc as [Hl _]%andb_prop.
  unfold sort_values. rewrite Hl.
  set (keyed := map (fun r => (at_ r col, r)) (rows df)).
  set (nonnan := filter (fun kr => negb (is_na (fst kr))) keyed).
  set (nans := filter (fun kr => is_na (fst kr)) keyed).
  assert (Tag : forall kr, In kr keyed ->
                  fst kr = CFloat (float_at (snd kr) col) /\
                  key_of kr = float_at (snd kr) col).
  { intros kr (r & <- & Hin)%in_map_iff. cbn [fst snd].
    destruct (float_column_at _ _ _ Hc Hin) as [_ E]. unfold key_of; cbn [fst].
    split; [exact E | now rewrite E]. }
  assert (Pk : Permutation (nonnan ++ nans) keyed) by apply filter_split.
  assert (Nn : Forall numeric nonnan).
  { apply Forall_forall. intros kr [Hin Hna]%filter_In.
    destruct (Tag kr Hin) as [E K]. split; [now rewrite K|].
    rewrite E in Hna. cbn [is_na] in Hna. unfold F64.is_number. now rewrite K. }
  assert (Na : Forall (fun kr => PrimFloat.is_nan (key_of kr) = true) nans).
  { apply Forall_forall. intros kr [Hin Hna]%filter_In.
    destruct (Tag kr Hin) as [E K]. rewrite E in Hna. cbn [is_na] in Hna.
    now rewrite K. }
  assert (Rows : map snd keyed = rows df).
  { unfold keyed. rewrite map_map. cbn [snd]. apply map_id. }
  assert (Fin : forall s,
            Permutation s nonnan ->
            StronglySorted (fun a b => if asc then ascending a b else ascending b a) s ->
            Permutation (map snd (s ++ nans)) (rows df) /\
            StronglySorted
              (fun r1 r2 => by_order asc (float_at r1 col) (float_at r2 col))
              (map snd (s ++ nans))).
  { intros s Ps Ss.
    assert (Pall : Permutation (s ++ nans) keyed).
    { rewrite <- Pk. now apply Permutation_app_tail. }
    split.
    - rewrite <- Rows. now apply Permutation_map.
    - apply sorted_map.
      eapply sorted_weaken; [|exact (numbers_then_nans asc s nans Ss Na)].
      cbn beta. intros a b Ha Hb H.
      destruct (Tag a (Permutation_in _ Pall Ha)) as [_ <-].
      destruct (Tag b (Permutation_in _ Pall Hb)) as [_ <-]. exact H. }
  destruct asc.
  - destruct (argsort_numbers nonnan Nn) as (s & -> & Ps & Ss). cbn [bind].
    destruct (Fin s Ps Ss) as [P S]. eauto.
  - destruct (argsort_numbers (rev nonnan)) as (s & -> & Ps & Ss).
    { now apply Forall_rev. }
    cbn [bind].
    destruct (Fin (rev s)) as [P S].
    + rewrite <- Permutation_rev, Ps. symmetry. apply Permutation_rev.
    + apply (sorted_rev _ _ Ss).
    + eauto.
Qed.

End SortFacts.

(** ** Entries built from rows *)

Module EntryFacts.
Import Py Pandas Tools Spec PandasFacts.

Lemma Forall2_impl {A B : Type} (P Q : A -> B -> Prop) (l : list A) (m : list B) :
  (forall a b, P a b -> Q a b) -> Forall2 P l m -> Forall2 Q l m.
Proof.
  intros HPQ H. induction H; constructor; auto.
Qed.

Lemma Forall2_impl_In {A B : Type} (P Q : A -> B -> Prop) (l : list A)
  (m : list B) :
  (forall a b, In a l -> P a b -> Q a b) -> Forall2 P l m -> Forall2 Q l m.
Proof.
  intros HPQ H. induction H as [|a b l m Hab _ IH]; constructor.
  - apply HPQ; [now left | exact Hab].
  - apply IH. intros; apply HPQ; [now right | assumption].
Qed.

Lemma Forall2_map_eq {A B C : Type} (f : A -> C) (g : B -> C) (l : list A)
  (m : list B) :
  Forall2 (fun a b => g b = f a) l m -> map g m = map f l.
Proof.
  induction 1 as [|a b l m Hab _ IH]; cbn; [reflexivity|].
  now rewrite Hab, IH.
Qed.

Lemma Forall2_In_r {A B : Type} (P : A -> B -> Prop) (l : list A) (m : list B)
  (b : B) :
  Forall2 P l m -> In b m -> exists a, In a l /\ P a b.
Proof.
  induction 1 as [|a b' l m Hab _ IH]; cbn; [contradiction|].
  intros [<-|Hin].
  - exists a. split; [now left | exact Hab].
  - destruct (IH Hin) as (a' & Ha & HP). exists a'. split; [now right | exact HP].
Qed.

Lemma iterrows_Forall2 (f : Series -> outcome json) (P : record -> json -> Prop)
  (labels : list string) (part : list record) (out : list json) :
  (forall r j, f (mkSeries labels r) = Return j -> P r j) ->
  mapM f (iterrows (mkDF labels part)) = Return out ->
  Forall2 P part out.
Proof.
  intros Hf H%PyFacts.mapM_Return. unfold iterrows in H; cbn [columns rows] in H.
  remember (map (mkSeries labels) part) as ss eqn:Es.
  revert part Es. induction H as [|s j ss out Hj _ IH]; intros part Es.
  - destruct part; [constructor | discriminate].
  - destruct part as [|r part]; [discriminate|].
    injection Es as -> ->. constructor; [now apply Hf | now apply IH].
Qed.

(** The sort returns the rows it was given, whatever the keys hold. *)
Lemma insert_sorted_Permutation {A : Type} (x : cell * A) (l s : list (cell * A)) :
  insert_sorted x l = Return s -> Permutation s (x :: l).
Proof.
  revert s; induction l as [|y l IH]; cbn [insert_sorted]; intros s H.
  - now injection H as <-.
  - bind_inv H. destruct v.
    + bind_inv H. injection H as <-.
      rewrite (IH _ E0). apply perm_swap.
    + now injection H as <-.
Qed.

Lemma argsort_Permutation {A : Type} (l s : list (cell * A)) :
  argsort l = Return s -> Permutation s l.
Proof.
  revert s; induction l as [|x l IH]; cbn [argsort]; intros s H.
  - now injection H as <-.
  - bind_inv H. apply insert_sorted_Permutation in H.
    rewrite H. constructor. now apply IH.
Qed.

Lemma sort_values_Return (df sorted : DataFrame) (col : string) (asc : bool) :
  sort_values df col asc = Return sorted ->
  columns sorted = columns df /\ Permutation (rows sorted) (rows df).
Proof.
  unfold sort_values. destruct (has_label col (columns df)); [|discriminate].
  intros H. bind_inv H. injection H as <-. cbn [columns rows].
  split; [reflexivity|].
  set (keyed := map (fun r => (at_ r col, r)) (rows df)) in *.
  assert (Hv : Permutation v (filter (fun kr => negb (is_na (fst kr))) keyed)).
  { destruct asc.
    - now apply argsort_Permutation.
    - bind_inv E. injection E as <-. apply argsort_Permutation in E0.
      rewrite <- Permutation_rev, E0. symmetry. apply Permutation_rev. }
  rewrite Hv, (SortedFacts.filter_split (fun kr => is_na (fst kr)) keyed).
  unfold keyed. rewrite map_map. cbn [snd]. now rewrite map_id.
Qed.

Lemma has_columns_In (df : DataFrame) (cols : list string) (k : string) :
  has_columns df cols = true -> In k cols -> has_label k (columns df) = true.
Proof.
  unfold has_columns. rewrite forallb_forall. auto.
Qed.

Lemma select_columns_Return (df out : DataFrame) (cols : list string) :
  select_columns df cols = Return out ->
  has_columns df cols = true /\ out = mkDF cols (rows df).
Proof.
  unfold select_columns. fold (has_columns df cols).
  destruct (has_columns df cols); [|discriminate]. now intros [= <-].
Qed.

Section WithLibrary.
Variable L : library.

Lemma py_float_reports (c : cell) (x : float) :
  py_float L c = Return x -> reports L c (JFloat x).
Proof.
  destruct c as [y|s]; cbn [py_float reports].
  - now intros [= <-].
  - destruct (float_of_str L s) as [y|]; [|discriminate].
    intros [= <-]. eauto.
Qed.

Lemma py_int_counts (c : cell) (n : Z) :
  py_int L c = Return n -> counts L c (JInt n).
Proof.
  destruct c as [y|s]; cbn [py_int counts].
  - unfold trunc. destruct (Prim2SF y); try discriminate;
      intros [= <-]; eauto.
  - destruct (int_of_str L s) as [m|]; [|discriminate].
    intros [= <-]. eauto.
Qed.

Lemma float_item_reports (labels : list string) (r : record) (k : string)
  (x : float) :
  float_item L (mkSeries labels r) k = Return x ->
  has_label k labels = true /\ reports L (at_ r k) (JFloat x).
Proof.
  unfold float_item, series_getitem; cbn [index values].
  destruct (has_label k labels); [|discriminate]. cbn [bind].
  intros H. split; [reflexivity|]. now apply py_float_reports.
Qed.

Lemma int_item_counts (labels : list string) (r : record) (k : string) (n : Z) :
  int_item L (mkSeries labels r) k = Return n ->
  has_label k labels = true /\ counts L (at_ r k) (JInt n).
Proof.
  unfold int_item, series_getitem; cbn [index values].
  destruct (has_label k labels); [|discriminate]. cbn [bind].
  intros H. split; [reflexivity|]. now apply py_int_counts.
Qed.

Lemma ranking_row_entry (labels : list string) (r : record) (j : json) :
  ranking_row L (mkSeries labels r) = Return j ->
  entry_of L labels index_numeric [] r j.
Proof.
  unfold ranking_row. intros H. do 7 bind_inv H. injection H as <-.
  split; [|intros k []].
  intros k [<-|[<-|[<-|[<-|[<-|[]]]]]];
    match goal with
    | E : float_item L _ ?k = Return ?x |- has_label ?k _ = true /\ _ =>
        apply float_item_reports in E as [Hl Hr]
    end; (split; [exact Hl|]); eexists; (split; [reflexivity|]); assumption.
Qed.

Lemma sector_row_entry (labels : list string) (r : record) (j : json) :
  sector_row L (mkSeries labels r) = Return j ->
  entry_of L labels ["最新价"; "涨跌幅"; "涨跌额"] ["上涨家数"; "下跌家数"] r j.
Proof.
  unfold sector_row. intros H. do 6 bind_inv H. injection H as <-.
  split.
  - intros k [<-|[<-|[<-|[]]]];
      match goal with
      | E : float_item L _ ?k = Return ?x |- has_label ?k _ = true /\ _ =>
          apply float_item_reports in E as [Hl Hr]
      end; (split; [exact Hl|]); eexists; (split; [reflexivity|]); assumption.
  - intros k [<-|[<-|[]]];
      match goal with
      | E : int_item L _ ?k = Return ?x |- has_label ?k _ = true /\ _ =>
          apply int_item_counts in E as [Hl Hr]
      end; (split; [exact Hl|]); eexists; (split; [reflexivity|]); assumption.
Qed.

Lemma info_fields_entry (labels : list string) (r : record) (ks : list string)
  (nums : list (string * json)) :
  NoDup ks ->
  mapM (fun k => x <- float_item L (mkSeries labels r) k ;; Return (k, JFloat x)) ks
    = Return nums ->
  forall k, In k ks ->
    has_label k labels = true /\
    exists v, dict_get nums k = Some v /\ reports L (at_ r k) v.
Proof.
  intros Hnd H%PyFacts.mapM_Return.
  induction H as [|k0 kv ks nums Hk _ IH]; intros k Hin; [contradiction|].
  apply NoDup_cons_iff in Hnd as [Hk0 Hnd].
  bind_inv Hk. injection Hk as <-. cbn [dict_get].
  destruct (String.eqb_spec k k0) as [->|Hne].
  - apply float_item_reports in E as [Hl Hr].
    split; [exact Hl|]. eexists. split; [reflexivity | exact Hr].
  - destruct Hin as [->|Hin]; [contradiction|]. now apply IH.
Qed.

Lemma stock_info_floats_NoDup : NoDup stock_info_floats.
Proof.
  unfold stock_info_floats.
  repeat (constructor; [cbn [In]; intuition discriminate|]). constructor.
Qed.

Lemma entry_of_labels (labels labels' : list string) (floats ints : list string)
  (r : record) (j : json) :
  (forall k, In k floats \/ In k ints -> has_label k labels' = true) ->
  entry_of L labels floats ints r j -> entry_of L labels' floats ints r j.
Proof.
  intros Hl [Hf Hi]. split; intros k Hk.
  - destruct (Hf k Hk) as [_ H]. split; [apply Hl; now left | exact H].
  - destruct (Hi k Hk) as [_ H]. split; [apply Hl; now right | exact H].
Qed.

Lemma rows_entries (f : Series -> outcome json) (labels floats ints : list string)
  (part : list record) (out : list json) :
  (forall r j, f (mkSeries labels r) = Return j ->
               entry_of L labels floats ints r j) ->
  mapM f (iterrows (mkDF labels part)) = Return out ->
  Forall2 (entry_of L labels floats ints) part out.
Proof.
  apply iterrows_Forall2.
Qed.

Lemma reports_missing (c : cell) (v : json) :
  reports L c v -> is_na c = true ->
  exists x, v = JFloat x /\ PrimFloat.is_nan x = true.
Proof.
  destruct c as [x|s]; cbn [reports is_na]; [|discriminate].
  intros -> Hx. eauto.
Qed.

(** An entry reports the percent change of its record when the cell holds
    a float. *)
Lemma entry_pct (labels floats ints : list string) (r : record) (j : json) :
  In "涨跌幅" floats ->
  at_ r "涨跌幅" = CFloat (pct r) ->
  entry_of L labels floats ints r j -> pct_field j = pct r.
Proof.
  intros Hin Hc [Hf _]. destruct (Hf _ Hin) as (_ & v & Hv & Hr).
  rewrite Hc in Hr. cbn [reports] in Hr. subst v.
  unfold pct_field, float_field. now rewrite Hv.
Qed.

Lemma sector_row_name (labels : list string) (r : record) (j : json) :
  sector_row L (mkSeries labels r) = Return j ->
  name_field j = Some (cell_json (sector_name r)).
Proof.
  unfold sector_row. intros H. do 6 bind_inv H. injection H as <-.
  unfold series_getitem in E; cbn [index values] in E.
  destruct (has_label "板块名称" labels); [|discriminate].
  now injection E as <-.
Qed.

End WithLibrary.

End EntryFacts.

(** ** get_stock_ranking *)

Module RankingFacts.
Import Py Pandas Tools Spec PandasFacts SortedFacts SortFacts EntryFacts.

Lemma falls_non_increasing (xs : list float) :
  StronglySorted falls xs -> non_increasing xs.
Proof.
  apply sorted_weaken. intros a b _ _ [H|H].
  - now apply F64Facts.ltb_nan_r.
  - now apply F64Facts.leb_not_ltb.
Qed.

Lemma climbs_non_decreasing (xs : list float) :
  StronglySorted climbs xs -> non_decreasing xs.
Proof.
  apply sorted_weaken. intros a b _ _ [H|H].
  - now apply F64Facts.ltb_nan_l.
  - now apply F64Facts.leb_not_ltb.
Qed.

Lemma In_firstn {A : Type} (n : nat) (l : list A) (a : A) :
  In a (firstn n l) -> In a l.
Proof.
  intros H. rewrite <- (firstn_skipn n l). apply in_or_app. now left.
Qed.

Lemma In_skipn {A : Type} (n : nat) (l : list A) (a : A) :
  In a (skipn n l) -> In a l.
Proof.
  intros H. rewrite <- (firstn_skipn n l). apply in_or_app. now right.
Qed.

Section WithLibrary.
Variable L : library.

(** [float(row[k])] on a record of a float column, whatever labels the row
    was cut down to. *)
Lemma float_item_selected (df : DataFrame) (labels : list string) (r : record)
  (k : string) :
  has_label k labels = true -> float_column df k = true -> In r (rows df) ->
  float_item L (mkSeries labels r) k = Return (float_at r k).
Proof.
  intros Hk Hc Hin. destruct (float_column_at _ _ _ Hc Hin) as [_ Hv].
  unfold float_item, series_getitem; cbn [index values].
  now rewrite Hk, Hv.
Qed.

Lemma ranking_row_floats (df : DataFrame) (r : record) :
  float_columns df ["最新价"; "涨跌幅"; "涨跌额"; "成交量"; "成交额"] = true ->
  In r (rows df) ->
  ranking_row L (mkSeries ranking_columns r) = Return (ranking_json r).
Proof.
  intros Hf Hin. unfold ranking_row.
  unfold series_getitem at 1 2; cbn [index values].
  change (has_label "代码" ranking_columns) with true.
  change (has_label "名称" ranking_columns) with true. cbn [bind].
  rewrite !(float_item_selected df) by
    (try reflexivity; try exact Hin;
     apply (float_columns_In _ _ _ Hf); cbn; tauto).
  reflexivity.
Qed.

(** The rows of one list: the head of a sorted table, row by row. *)
Lemma ranking_rows (df : DataFrame) (sorted : list record) :
  has_columns df ranking_columns = true ->
  float_columns df ["最新价"; "涨跌幅"; "涨跌额"; "成交量"; "成交额"] = true ->
  Permutation sorted (rows df) ->
  (cols <- select_columns (head 20 (mkDF (columns df) sorted)) ranking_columns ;;
   mapM (ranking_row L) (iterrows cols)) =
  Return (map ranking_json (firstn 20 sorted)).
Proof.
  intros Hc Hf Hp.
  unfold select_columns, head; cbn [columns rows].
  fold (has_columns df ranking_columns). rewrite Hc; cbn [bind].
  unfold iterrows; cbn [columns rows].
  rewrite (PyFacts.mapM_pure _ (fun s => ranking_json (values s))).
  - now rewrite map_map.
  - apply Forall_forall. intros s (r & <- & Hin)%in_map_iff. cbn [values].
    apply (ranking_row_floats df); [exact Hf|].
    eapply Permutation_in; [exact Hp|]. now apply In_firstn in Hin.
Qed.

(** On a snapshot with the seven columns of the ranking, five of them
    float columns, the tool returns two lists: the first twenty rows of the
    snapshot sorted by falling percent change and the first twenty sorted
    by rising percent change, a missing change after every number. *)
Lemma ranking_of_floats (w : world) (df : DataFrame) :
  request_context w = Return tt ->
  stock_zh_a_spot_em w = Return df ->
  has_columns df ranking_columns = true ->
  float_columns df ["最新价"; "涨跌幅"; "涨跌额"; "成交量"; "成交额"] = true ->
  exists gainers losers,
    get_stock_ranking L w =
      Return (JsonText (JObj [("涨幅榜", JList gainers); ("跌幅榜", JList losers)])) /\
    ranking_of df falls gainers /\
    ranking_of df climbs losers /\
    non_increasing (map pct_field gainers) /\
    non_decreasing (map pct_field losers) /\
    List.length gainers = Nat.min 20 (List.length (rows df)) /\
    List.length losers = Nat.min 20 (List.length (rows df)).
Proof.
  intros Hctx Hdf Hc Hf.
  assert (Hp : float_column df "涨跌幅" = true)
    by (apply (float_columns_In _ _ _ Hf); cbn; tauto).
  destruct (sort_values_floats df "涨跌幅" false Hp) as (desc & Ed & Pd & Sd).
  destruct (sort_values_floats df "涨跌幅" true Hp) as (asc & Ea & Pa & Sa).
  cbn [by_order] in Sd, Sa.
  exists (map ranking_json (firstn 20 desc)), (map ranking_json (firstn 20 asc)).
  assert (Fields : forall l, map pct_field (map ranking_json l) = map pct l).
  { intros l. rewrite map_map. apply map_ext. reflexivity. }
  split; [|split; [|split; [|split; [|split; [|split]]]]].
  - unfold get_stock_ranking, get_stock_ranking_try.
    rewrite Hctx, Hdf; cbn [bind]. rewrite Ed; cbn [bind]. rewrite Ea; cbn [bind].
    pose proof (ranking_rows df desc Hc Hf Pd) as Rd.
    pose proof (ranking_rows df asc Hc Hf Pa) as Ra.
    apply PyFacts.bind_Return in Rd as (cd & Ecd & Erd).
    apply PyFacts.bind_Return in Ra as (ca & Eca & Era).
    rewrite Ecd; cbn [bind]. rewrite Erd; cbn [bind].
    rewrite Eca; cbn [bind]. rewrite Era; cbn [bind try_except].
    reflexivity.
  - exists desc. repeat split; assumption.
  - exists asc. repeat split; assumption.
  - rewrite Fields. apply falls_non_increasing, sorted_map, sorted_firstn. exact Sd.
  - rewrite Fields. apply climbs_non_decreasing, sorted_map, sorted_firstn. exact Sa.
  - now rewrite length_map, length_firstn, (Permutation_length Pd).
  - now rewrite length_map, length_firstn, (Permutation_length Pa).
Qed.

Lemma ranking_rows_listed (df cols : DataFrame) (sorted : list record)
  (out : list json) :
  float_column df "涨跌幅" = true ->
  Permutation sorted (rows df) ->
  select_columns (head 20 (mkDF (columns df) sorted)) ranking_columns
    = Return cols ->
  mapM (ranking_row L) (iterrows cols) = Return out ->
  Forall2 (ranking_entry L df) (firstn 20 sorted) out.
Proof.
  intros Hp Ps E H.
  apply select_columns_Return in E as [Hc ->].
  unfold head in *; cbn [columns rows] in *.
  fold (has_columns df ranking_columns) in Hc.
  apply (rows_entries L _ _ _ _ _ _ (ranking_row_entry L ranking_columns)) in H.
  eapply Forall2_impl_In; [|exact H].
  intros r j Hin He. cbn beta in He.
  assert (He' : entry_of L (columns df) index_numeric [] r j).
  { revert He. apply entry_of_labels. intros k [Hk|[]].
    apply (has_columns_In df ranking_columns k Hc).
    unfold index_numeric in Hk. cbn in *. intuition. }
  split; [exact He'|].
  refine (entry_pct L _ _ _ _ _ _ _ He').
  - unfold index_numeric. cbn. tauto.
  - apply In_firstn in Hin.
    exact (proj2 (float_column_at df _ r Hp (Permutation_in _ Ps Hin))).
Qed.

Lemma listed_fields (df : DataFrame) (part : list record) (out : list json) :
  Forall2 (ranking_entry L df) part out -> map pct_field out = map pct part.
Proof.
  intros H. apply Forall2_map_eq.
  eapply Forall2_impl; [|exact H]. now intros r j [_ E].
Qed.

(** C3, as the code has it. On a snapshot whose percent changes are
    floats, every document the tool builds holds two lists built, entry by
    entry, from the first twenty rows of the snapshot sorted by falling and
    by rising percent change, a missing change after every number: no
    gainer has a greater percent change than a gainer listed before it, no
    loser a smaller one than a loser before it, and each list has twenty
    entries, or as many as the snapshot has rows when those are fewer.  The
    tool does build a document when the snapshot has the seven columns of
    the ranking with floats in the five numeric ones, and every entry then
    holds the cells of its row. *)
Theorem ranking_sorted_top_twenty (w : world) (df : DataFrame) :
  request_context w = Return tt ->
  stock_zh_a_spot_em w = Return df ->
  float_column df "涨跌幅" = true ->
  (forall doc,
     attempt L w Ranking = Return (JsonText doc) ->
     exists gainers losers,
       doc = JObj [("涨幅榜", JList gainers); ("跌幅榜", JList losers)] /\
       listed L df falls gainers /\
       listed L df climbs losers /\
       non_increasing (map pct_field gainers) /\
       non_decreasing (map pct_field losers) /\
       List.length gainers = Nat.min 20 (List.length (rows df)) /\
       List.length losers = Nat.min 20 (List.length (rows df))) /\
  (has_columns df ranking_columns = true ->
   float_columns df ["最新价"; "涨跌幅"; "涨跌额"; "成交量"; "成交额"] = true ->
   exists gainers losers,
     get_stock_ranking L w =
       Return (JsonText (JObj [("涨幅榜", JList gainers); ("跌幅榜", JList losers)])) /\
     ranking_of df falls gainers /\
     ranking_of df climbs losers /\
     non_increasing (map pct_field gainers) /\
     non_decreasing (map pct_field losers) /\
     List.length gainers = Nat.min 20 (List.length (rows df)) /\
     List.length losers = Nat.min 20 (List.length (rows df))).
Proof.
  intros Hctx Hdf Hp. split.
  - intros doc H. cbn [attempt] in H. unfold get_stock_ranking_try in H.
    rewrite Hctx, Hdf in H; cbn [bind] in H.
    destruct (sort_values_floats df "涨跌幅" false Hp) as (desc & Ed & Pd & Sd).
    destruct (sort_values_floats df "涨跌幅" true Hp) as (asc & Ea & Pa & Sa).
    cbn [by_order] in Sd, Sa.
    rewrite Ed in H; cbn [bind] in H. rewrite Ea in H; cbn [bind] in H.
    do 4 bind_inv H. injection H as <-.
    pose proof (ranking_rows_listed df _ desc _ Hp Pd E E0) as Hg.
    pose proof (ranking_rows_listed df _ asc _ Hp Pa E1 E2) as Hl.
    eexists _, _. split; [reflexivity|].
    split; [exists desc; repeat split; assumption|].
    split; [exists asc; repeat split; assumption|].
    rewrite (listed_fields _ _ _ Hg), (listed_fields _ _ _ Hl).
    rewrite <- (Forall2_length Hg), <- (Forall2_length Hl).
    rewrite !length_firstn, (Permutation_length Pd), (Permutation_length Pa).
    repeat split.
    + apply falls_non_increasing, sorted_map, sorted_firstn. exact Sd.
    + apply climbs_non_decreasing, sorted_map, sorted_firstn. exact Sa.
  - intros Hc Hf. now apply ranking_of_floats.
Qed.
End WithLibrary.

Lemma ranking_sorted_top_twenty_witness :
  let w := Sample.world_of Sample.snapshot in
  request_context w = Return tt /\
  stock_zh_a_spot_em w = Return Sample.snapshot /\
  float_column Sample.snapshot "涨跌幅" = true /\
  has_columns Sample.snapshot ranking_columns = true /\
  List.length (rows Sample.snapshot) = 22%nat /\
  (forall doc,
     attempt Sample.lib w Ranking = Return (JsonText doc) ->
     exists gainers losers,
       doc = JObj [("涨幅榜", JList gainers); ("跌幅榜", JList losers)] /\
       listed Sample.lib Sample.snapshot falls gainers /\
       listed Sample.lib Sample.snapshot climbs losers /\
       non_increasing (map pct_field gainers) /\
       non_decreasing (map pct_field losers) /\
       List.length gainers = 20%nat /\
       List.length losers = 20%nat) /\
  exists gainers losers,
    get_stock_ranking Sample.lib w =
      Return (JsonText (JObj [("涨幅榜", JList gainers); ("跌幅榜", JList losers)])) /\
    ranking_of Sample.snapshot falls gainers /\
    ranking_of Sample.snapshot climbs losers /\
    non_increasing (map pct_field gainers) /\
    non_decreasing (map pct_field losers) /\
    List.length gainers = 20%nat /\
    List.length losers = 20%nat.
Proof.
  intros w. do 5 (split; [reflexivity|]).
  destruct (ranking_sorted_top_twenty Sample.lib w Sample.snapshot
              eq_refl eq_refl eq_refl) as [Hany Hfloats].
  split; [exact Hany | exact (Hfloats eq_refl eq_refl)].
Defined.

(** Three rows give three gainers and three losers. *)
Example ranking_of_three_rows :
  get_stock_ranking Sample.lib (Sample.world_of Sample.small_snapshot) =
  Return (JsonText (JObj
    [("涨幅榜", JList (map ranking_json
        [Sample.quote "600004" "白云机场" 10.5 2.5;
         Sample.quote "000001" "上证指数" 3085.5 0.5;
         Sample.quote "600000" "浦发银行" 7.5 (-1.25)]));
     ("跌幅榜", JList (map ranking_json
        [Sample.quote "600000" "浦发银行" 7.5 (-1.25);
         Sample.quote "000001" "上证指数" 3085.5 0.5;
         Sample.quote "600004" "白云机场" 10.5 2.5]))])).
Proof. reflexivity. Qed.

(** The table is sorted as the provider delivers it, before [float] is
    applied to a cell.  Percent changes that arrive as text are sorted as
    text: with 9, 10 and twenty times 2 the tool succeeds, lists 10 as the
    first loser, before the rows at 2, and leaves it out of the gainers. *)
Lemma text_changes_rank_as_text :
  let w := Sample.world_of Cases.text_changes_snapshot in
  List.length (rows Cases.text_changes_snapshot) = 22 /\
  Forall (fun r => exists s x, at_ r "涨跌幅" = CStr s /\ Sample.decimal s = Some x)
         (rows Cases.text_changes_snapshot) /\
  exists gainers losers,
    get_stock_ranking Sample.lib w =
      Return (JsonText (JObj [("涨幅榜", JList gainers); ("跌幅榜", JList losers)])) /\
    List.length gainers = 20 /\ List.length losers = 20 /\
    firstn 3 (map pct_field losers) = [10; 2; 2]%float /\
    ~ non_decreasing (map pct_field losers) /\
    ~ In 10%float (map pct_field gainers).
Proof.
  intros w. split; [reflexivity|]. split.
  { repeat (constructor; [eexists _, _; split; reflexivity|]). constructor. }
  eexists _, _. split; [reflexivity|].
  do 3 (split; [reflexivity|]). split.
  - intros H. vm_compute in H.
    apply StronglySorted_inv in H as [_ H]. apply Forall_inv in H.
    discriminate.
  - intros H. vm_compute in H.
    repeat (destruct H as [H|H];
            [apply (f_equal Prim2SF) in H; vm_compute in H; discriminate|]).
    exact H.
Qed.
End RankingFacts.

(** ** get_sector_performance *)

Module SectorFacts.
Import Py Pandas Tools Spec PandasFacts SortedFacts SortFacts EntryFacts
  RankingFacts.

Lemma count_column_at (df : DataFrame) (k : string) (r : record) :
  count_column df k = true -> In r (rows df) ->
  at_ r k = CFloat (float_at r k) /\ trunc (float_at r k) = Some (count_at r k).
Proof.
  unfold count_column. intros [_ Hf]%andb_prop Hin.
  rewrite forallb_forall in Hf. specialize (Hf r Hin).
  unfold count_at, float_at. destruct (at_ r k) as [x|]; [|discriminate].
  split; [reflexivity|]. now destruct (trunc x).
Qed.

Lemma py_int_trunc (L : library) (x : float) (n : Z) :
  trunc x = Some n -> py_int L (CFloat x) = Return n.
Proof.
  unfold trunc, py_int.
  destruct (Prim2SF x) as [s|s| |s m e]; try discriminate; now intros [= <-].
Qed.

Lemma NoDup_app_apart {A : Type} (l1 l2 : list A) (a : A) :
  NoDup (l1 ++ l2) -> In a l1 -> ~ In a l2.
Proof.
  induction l1 as [|b l1 IH]; cbn; [contradiction|].
  intros H. apply NoDup_cons_iff in H as [Hb H]. intros [<-|Hin] H2.
  - apply Hb, in_or_app. now right.
  - now apply (IH H Hin).
Qed.

(** A table of twenty rows or more is its first ten rows, a middle and its
    last ten. *)
Lemma head_middle_tail {A : Type} (l : list A) :
  20 <= List.length l ->
  l = (firstn 10 l ++ firstn (List.length l - 20) (skipn 10 l)
       ++ skipn (List.length l - 10) l)%list.
Proof.
  intros H.
  replace (List.length l - 10) with ((List.length l - 20) + 10) by lia.
  rewrite <- skipn_skipn. now rewrite !firstn_skipn.
Qed.

Section WithLibrary.
Variable L : library.

Lemma sector_row_floats (df : DataFrame) (r : record) :
  float_columns df ["最新价"; "涨跌幅"; "涨跌额"] = true ->
  count_column df "上涨家数" = true ->
  count_column df "下跌家数" = true ->
  In r (rows df) ->
  sector_row L (mkSeries sector_columns r) = Return (sector_json r).
Proof.
  intros Hf Hu Hd Hin. unfold sector_row.
  unfold series_getitem at 1; cbn [index values].
  change (has_label "板块名称" sector_columns) with true. cbn [bind].
  rewrite !(float_item_selected L df) by
    (try reflexivity; try exact Hin;
     apply (float_columns_In _ _ _ Hf); cbn; tauto).
  cbn [bind].
  destruct (count_column_at _ _ _ Hu Hin) as [Eu Tu].
  destruct (count_column_at _ _ _ Hd Hin) as [Ed Td].
  unfold int_item, series_getitem; cbn [index values].
  change (has_label "上涨家数" sector_columns) with true.
  change (has_label "下跌家数" sector_columns) with true. cbn [bind].
  rewrite Eu, Ed, (py_int_trunc L _ _ Tu), (py_int_trunc L _ _ Td).
  reflexivity.
Qed.

Lemma sector_rows (df : DataFrame) (part : list record) :
  float_columns df ["最新价"; "涨跌幅"; "涨跌额"] = true ->
  count_column df "上涨家数" = true ->
  count_column df "下跌家数" = true ->
  (forall r, In r part -> In r (rows df)) ->
  mapM (sector_row L) (iterrows (mkDF sector_columns part)) =
  Return (map sector_json part).
Proof.
  intros Hf Hu Hd Hin. unfold iterrows; cbn [columns rows].
  rewrite (PyFacts.mapM_pure _ (fun s => sector_json (values s))).
  - now rewrite map_map.
  - apply Forall_forall. intros s (r & <- & Hr)%in_map_iff. cbn [values].
    apply (sector_row_floats df); auto.
Qed.

(** The whole document on a table of floats. *)
Lemma sector_performance_floats (w : world) (df : DataFrame) :
  request_context w = Return tt ->
  stock_board_industry_name_em w = Return df ->
  has_columns df sector_columns = true ->
  float_columns df ["最新价"; "涨跌幅"; "涨跌额"] = true ->
  count_column df "上涨家数" = true ->
  count_column df "下跌家数" = true ->
  exists best worst,
    get_sector_performance L w =
      Return (JsonText (JObj [("表现最好的板块", JList best);
                              ("表现最差的板块", JList worst)])) /\
    best_and_worst df best worst.
Proof.
  intros Hctx Hdf Hc Hf Hu Hd.
  set (df1 := mkDF sector_columns (rows df)).
  assert (Hp : float_column df1 "涨跌幅" = true).
  { assert (H : float_column df "涨跌幅" = true)
      by (apply (float_columns_In _ _ _ Hf); cbn; tauto).
    unfold float_column in *. cbn [columns rows df1].
    apply andb_prop in H as [_ H]. now rewrite H. }
  destruct (sort_values_floats df1 "涨跌幅" false Hp) as (sorted & Es & Ps & Ss).
  cbn [by_order rows columns df1] in Es, Ps, Ss.
  exists (map sector_json (firstn 10 sorted)),
         (map sector_json (skipn (List.length sorted - 10) sorted)).
  split.
  - unfold get_sector_performance, get_sector_performance_try.
    rewrite Hctx, Hdf; cbn [bind]. unfold select_columns.
    fold (has_columns df sector_columns). rewrite Hc; cbn [bind].
    fold df1. rewrite Es; cbn [bind]. unfold head, tail; cbn [columns rows].
    rewrite (sector_rows df (firstn 10 sorted) Hf Hu Hd); cbn [bind].
    + rewrite (sector_rows df (skipn _ sorted) Hf Hu Hd); [reflexivity|].
      intros r Hr%In_skipn. eapply Permutation_in; eassumption.
    + intros r Hr%In_firstn. eapply Permutation_in; eassumption.
  - exists sorted. repeat split; trivial.
    intros Hn. eexists. apply head_middle_tail.
    now rewrite (Permutation_length Ps).
Qed.

Lemma cell_json_inj (a b : cell) : cell_json a = cell_json b -> a = b.
Proof.
  destruct a, b; cbn; congruence.
Qed.

(** On a sector table with the eight columns the tool selects, floats
    for price, percent change and change and finite counts, the tool
    returns the first ten and the last ten rows of the table sorted by
    falling percent change, each entry holding the cells of its row. *)
Lemma best_and_worst_of_floats (w : world) (df : DataFrame) :
  request_context w = Return tt ->
  stock_board_industry_name_em w = Return df ->
  has_columns df sector_columns = true ->
  float_columns df ["最新价"; "涨跌幅"; "涨跌额"] = true ->
  count_column df "上涨家数" = true ->
  count_column df "下跌家数" = true ->
  exists best worst,
    get_sector_performance L w =
      Return (JsonText (JObj [("表现最好的板块", JList best);
                              ("表现最差的板块", JList worst)])) /\
    best_and_worst df best worst /\
    non_increasing (map pct_field best) /\
    non_increasing (map pct_field worst) /\
    List.length best = Nat.min 10 (List.length (rows df)) /\
    List.length worst = Nat.min 10 (List.length (rows df)) /\
    (20 <= List.length (rows df) ->
     NoDup (map sector_name (rows df)) ->
     forall b c, In b best -> In c worst -> name_field b <> name_field c).
Proof.
  intros Hctx Hdf Hc Hf Hu Hd.
  destruct (sector_performance_floats w df Hctx Hdf Hc Hf Hu Hd)
    as (best & worst & Hrun & Hbw).
  exists best, worst. split; [exact Hrun|]. split; [exact Hbw|].
  destruct Hbw as (sorted & Ps & Ss & -> & -> & Hdec).
  assert (Fields : forall l, map pct_field (map sector_json l) = map pct l).
  { intros l. rewrite map_map. apply map_ext. reflexivity. }
  pose proof (Permutation_length Ps) as Hlen.
  split; [|split; [|split; [|split]]].
  - rewrite Fields. apply falls_non_increasing, sorted_map, sorted_firstn. exact Ss.
  - rewrite Fields. apply falls_non_increasing, sorted_map, sorted_skipn. exact Ss.
  - rewrite length_map, length_firstn. lia.
  - rewrite length_map, length_skipn. lia.
  - intros Hn Hnd b c (rb & <- & Hb)%in_map_iff (rc & <- & Hcw)%in_map_iff Heq.
    destruct (Hdec Hn) as (middle & Hsplit).
    assert (Hname : sector_name rb = sector_name rc).
    { apply cell_json_inj.
      change (Some (cell_json (sector_name rb)) = Some (cell_json (sector_name rc)))
        in Heq.
      now injection Heq. }
    assert (Hs : NoDup (map sector_name sorted)).
    { eapply Permutation_NoDup; [|exact Hnd].
      apply Permutation_map. now symmetry. }
    set (top := firstn 10 sorted) in *.
    set (bottom := skipn (List.length sorted - 10) sorted) in *.
    rewrite Hsplit, !map_app in Hs.
    apply (NoDup_app_apart _ _ (sector_name rb) Hs).
    + now apply in_map.
    + apply in_or_app. right. rewrite Hname. now apply in_map.
Qed.

Lemma sector_rows_listed (df : DataFrame) (sorted part : list record)
  (out : list json) :
  float_column df "涨跌幅" = true ->
  has_columns df sector_columns = true ->
  Permutation sorted (rows df) ->
  incl part sorted ->
  mapM (sector_row L) (iterrows (mkDF sector_columns part)) = Return out ->
  Forall2 (sector_entry L df) part out.
Proof.
  intros Hp Hc Ps Hin H.
  apply (iterrows_Forall2 _
           (fun r j => entry_of L sector_columns ["最新价"; "涨跌幅"; "涨跌额"]
                         ["上涨家数"; "下跌家数"] r j /\
                       name_field j = Some (cell_json (sector_name r)))) in H.
  2:{ intros r j Hj. split;
        [now apply sector_row_entry | exact (sector_row_name L sector_columns r j Hj)]. }
  eapply Forall2_impl_In; [|exact H].
  intros r j Hr [He Hn]. cbn beta.
  assert (He' : entry_of L (columns df) ["最新价"; "涨跌幅"; "涨跌额"]
                  ["上涨家数"; "下跌家数"] r j).
  { revert He. apply entry_of_labels. intros k Hk.
    apply (has_columns_In df sector_columns k Hc). cbn in *. intuition. }
  split; [exact He'|]. split; [|exact Hn].
  refine (entry_pct L _ _ _ _ _ _ _ He').
  - cbn. tauto.
  - exact (proj2 (float_column_at df _ r Hp (Permutation_in _ Ps (Hin r Hr)))).
Qed.

Lemma sector_fields (df : DataFrame) (part : list record) (out : list json) :
  Forall2 (sector_entry L df) part out -> map pct_field out = map pct part.
Proof.
  intros H. apply Forall2_map_eq.
  eapply Forall2_impl; [|exact H]. now intros r j (_ & E & _).
Qed.

(** C6, as the code has it. On a sector table whose percent changes are
    floats, every document the tool builds holds two lists built, entry by
    entry, from the first ten and the last ten rows of the table sorted by
    falling percent change (a missing change after every number).  In both
    lists no sector has a greater percent change than a sector before it.
    With twenty sectors or more the sorted table is the first list, a
    middle and the second list, so the lists share no row, and no sector
    name when the names of the table are distinct.  The tool does build a
    document when the table has the eight columns it selects, with floats
    for price, percent change and change and finite counts, and every
    entry then holds the cells of its row. *)
Theorem sector_best_and_worst (w : world) (df : DataFrame) :
  request_context w = Return tt ->
  stock_board_industry_name_em w = Return df ->
  float_column df "涨跌幅" = true ->
  (forall doc,
     attempt L w SectorPerformance = Return (JsonText doc) ->
     exists best worst,
       doc = JObj [("表现最好的板块", JList best); ("表现最差的板块", JList worst)] /\
       listed_sectors L df best worst /\
       non_increasing (map pct_field best) /\
       non_increasing (map pct_field worst) /\
       List.length best = Nat.min 10 (List.length (rows df)) /\
       List.length worst = Nat.min 10 (List.length (rows df)) /\
       (20 <= List.length (rows df) ->
        NoDup (map sector_name (rows df)) ->
        forall b c, In b best -> In c worst -> name_field b <> name_field c)) /\
  (has_columns df sector_columns = true ->
   float_columns df ["最新价"; "涨跌幅"; "涨跌额"] = true ->
   count_column df "上涨家数" = true ->
   count_column df "下跌家数" = true ->
   exists best worst,
     get_sector_performance L w =
       Return (JsonText (JObj [("表现最好的板块", JList best);
                               ("表现最差的板块", JList worst)])) /\
     best_and_worst df best worst /\
     non_increasing (map pct_field best) /\
     non_increasing (map pct_field worst) /\
     List.length best = Nat.min 10 (List.length (rows df)) /\
     List.length worst = Nat.min 10 (List.length (rows df)) /\
     (20 <= List.length (rows df) ->
      NoDup (map sector_name (rows df)) ->
      forall b c, In b best -> In c worst -> name_field b <> name_field c)).
Proof.
  intros Hctx Hdf Hp. split.
  - intros doc H. cbn [attempt] in H. unfold get_sector_performance_try in H.
    rewrite Hctx, Hdf in H; cbn [bind] in H. bind_inv H.
    apply select_columns_Return in E as [Hc ->].
    set (df1 := mkDF sector_columns (rows df)) in *.
    assert (Hp1 : float_column df1 "涨跌幅" = true).
    { unfold float_column in *. cbn [columns rows df1].
      apply andb_prop in Hp as [_ Hp]. now rewrite Hp. }
    destruct (sort_values_floats df1 "涨跌幅" false Hp1) as (sorted & Es & Ps & Ss).
    cbn [by_order rows columns df1] in Es, Ps, Ss.
    rewrite Es in H; cbn [bind] in H. unfold head, tail in H; cbn [columns rows] in H.
    do 2 bind_inv H. injection H as <-.
    pose proof (sector_rows_listed df sorted _ _ Hp Hc Ps
                  (fun r Hr => In_firstn _ _ _ Hr) E) as Hb.
    pose proof (sector_rows_listed df sorted _ _ Hp Hc Ps
                  (fun r Hr => In_skipn _ _ _ Hr) E0) as Hw.
    pose proof (Permutation_length Ps) as Hlen.
    assert (Hmid : 20 <= List.length (rows df) ->
                   exists middle,
                     sorted = (firstn 10 sorted ++ middle
                               ++ skipn (List.length sorted - 10) sorted)%list).
    { intros Hn. eexists. apply head_middle_tail. now rewrite Hlen. }
    eexists _, _. split; [reflexivity|].
    split; [exists sorted; repeat split; assumption|].
    rewrite (sector_fields _ _ _ Hb), (sector_fields _ _ _ Hw).
    rewrite <- (Forall2_length Hb), <- (Forall2_length Hw).
    rewrite length_firstn, length_skipn.
    split; [|split; [|split; [|split]]].
    + apply falls_non_increasing, sorted_map, sorted_firstn. exact Ss.
    + apply falls_non_increasing, sorted_map, sorted_skipn. exact Ss.
    + lia.
    + lia.
    + intros Hn Hnd b c Hbin Hcin Heq.
      destruct (Forall2_In_r _ _ _ _ Hb Hbin) as (rb & Hrb & _ & _ & Nb).
      destruct (Forall2_In_r _ _ _ _ Hw Hcin) as (rc & Hrc & _ & _ & Nc).
      rewrite Nb, Nc in Heq.
      assert (Hname : sector_name rb = sector_name rc)
        by (apply cell_json_inj; now injection Heq).
      destruct (Hmid Hn) as (middle & Hsplit).
      assert (Hs : NoDup (map sector_name sorted)).
      { eapply Permutation_NoDup; [|exact Hnd].
        apply Permutation_map. now symmetry. }
      set (top := firstn 10 sorted) in *.
      set (bottom := skipn (List.length sorted - 10) sorted) in *.
      rewrite Hsplit, !map_app in Hs.
      apply (NoDup_app_apart _ _ (sector_name rb) Hs).
      * now apply in_map.
      * apply in_or_app. right. rewrite Hname. now apply in_map.
  - intros Hc Hf Hu Hd. now apply best_and_worst_of_floats.
Qed.

End WithLibrary.

Lemma sample_sector_names_distinct :
  NoDup (map sector_name (rows Sample.sectors)).
Proof.
  cbv [Sample.sectors rows map sector_name Sample.sector at_ lookup String.eqb
       Ascii.eqb Bool.eqb].
  repeat (constructor; [cbn [In]; intuition discriminate|]). constructor.
Qed.

Lemma sector_best_and_worst_witness :
  let w := Sample.world_of Sample.snapshot in
  request_context w = Return tt /\
  stock_board_industry_name_em w = Return Sample.sectors /\
  float_column Sample.sectors "涨跌幅" = true /\
  has_columns Sample.sectors sector_columns = true /\
  List.length (rows Sample.sectors) = 21%nat /\
  (forall doc,
     attempt Sample.lib w SectorPerformance = Return (JsonText doc) ->
     exists best worst,
       doc = JObj [("表现最好的板块", JList best); ("表现最差的板块", JList worst)] /\
       listed_sectors Sample.lib Sample.sectors best worst /\
       non_increasing (map pct_field best) /\
       non_increasing (map pct_field worst) /\
       List.length best = 10%nat /\
       List.length worst = 10%nat /\
       forall b c, In b best -> In c worst -> name_field b <> name_field c) /\
  exists best worst,
    get_sector_performance Sample.lib w =
      Return (JsonText (JObj [("表现最好的板块", JList best);
                              ("表现最差的板块", JList worst)])) /\
    best_and_worst Sample.sectors best worst /\
    non_increasing (map pct_field best) /\
    non_increasing (map pct_field worst) /\
    List.length best = 10%nat /\
    List.length worst = 10%nat /\
    forall b c, In b best -> In c worst -> name_field b <> name_field c.
Proof.
  intros w. do 5 (split; [reflexivity|]).
  destruct (sector_best_and_worst Sample.lib w Sample.sectors
              eq_refl eq_refl eq_refl) as [Hany Hfloats].
  split.
  - intros doc Hdoc.
    destruct (Hany doc Hdoc)
      as (best & worst & Hd & Hl & Hb & Hw & Lb & Lw & Hnames).
    exists best, worst. do 6 (split; [assumption|]).
    apply Hnames; [cbn; lia | exact sample_sector_names_distinct].
  - destruct (Hfloats eq_refl eq_refl eq_refl eq_refl)
      as (best & worst & Hrun & Hbw & Hb & Hw & Lb & Lw & Hnames).
    exists best, worst. do 6 (split; [assumption|]).
    apply Hnames; [cbn; lia | exact sample_sector_names_distinct].
Defined.

(** Twelve sectors: the lists overlap in eight rows. *)
Example sector_lists_overlap :
  let w := mkWorld (Return tt) (Return Sample.snapshot)
                   (Return (mkDF Sample.sector_table_columns
                              (firstn 12 (rows Sample.sectors)))) in
  exists best worst,
    get_sector_performance Sample.lib w =
      Return (JsonText (JObj [("表现最好的板块", JList best);
                              ("表现最差的板块", JList worst)])) /\
    List.length best = 10%nat /\ List.length worst = 10%nat /\
    skipn 2 best = firstn 8 worst.
Proof.
  eexists _, _. split; [reflexivity|]. repeat split.
Qed.

(** The sector table is sorted as the provider delivers it.  Percent
    changes that arrive as text are sorted as text: with 9, 10 and nineteen
    times 2 the tool succeeds, the sector at 10 is the last of the worst
    list, after the sectors at 2, and is not among the best. *)
Lemma text_changes_order_sectors_as_text :
  let w := Cases.sector_world Cases.text_changes_sectors in
  List.length (rows Cases.text_changes_sectors) = 21 /\
  Forall (fun r => exists s x, at_ r "涨跌幅" = CStr s /\ Sample.decimal s = Some x)
         (rows Cases.text_changes_sectors) /\
  exists best worst,
    get_sector_performance Sample.lib w =
      Return (JsonText (JObj [("表现最好的板块", JList best);
                              ("表现最差的板块", JList worst)])) /\
    List.length best = 10 /\ List.length worst = 10 /\
    map pct_field worst = [2; 2; 2; 2; 2; 2; 2; 2; 2; 10]%float /\
    ~ non_increasing (map pct_field worst) /\
    ~ In 10%float (map pct_field best).
Proof.
  intros w. split; [reflexivity|]. split.
  { repeat (constructor; [eexists _, _; split; reflexivity|]). constructor. }
  eexists _, _. split; [reflexivity|].
  do 3 (split; [reflexivity|]). split.
  - intros H. vm_compute in H.
    apply StronglySorted_inv in H as [_ H].
    do 8 apply Forall_inv_tail in H. apply Forall_inv in H.
    discriminate.
  - intros H. vm_compute in H.
    repeat (destruct H as [H|H];
            [apply (f_equal Prim2SF) in H; vm_compute in H; discriminate|]).
    exact H.
Qed.
End SectorFacts.

(** ** Numeric fields of the documents *)

Module NumericFacts.
Import Py Pandas Tools Spec PandasFacts EntryFacts.

Lemma numbers_only_list (l : list json) :
  numbers_only (JList l) = forallb numbers_only l.
Proof.
  induction l as [|v l IH]; [reflexivity|].
  cbn [forallb]. rewrite <- IH. reflexivity.
Qed.

Lemma mapM_numbers {A : Type} (f : A -> outcome json) (l : list A) (out : list json) :
  (forall a j, f a = Return j -> numbers_only j = true) ->
  mapM f l = Return out -> numbers_only (JList out) = true.
Proof.
  intros Hf H%PyFacts.mapM_Return. rewrite numbers_only_list.
  induction H as [|a j l out Hj _ IH]; [reflexivity|].
  cbn [forallb]. now rewrite (Hf a j Hj), IH.
Qed.

Section WithLibrary.
Variable L : library.

Lemma float_get_coerce (labels : list string) (r : record) (k : string) (x : float) :
  float_get L (mkSeries labels r) k = Return x -> coerce L labels r k = Some x.
Proof.
  unfold float_get, series_get, coerce; cbn [index values].
  destruct (has_label k labels); [|now intros [= <-]].
  destruct (at_ r k) as [y|s]; cbn [py_float]; [now intros [= <-]|].
  destruct (float_of_str L s); [now intros [= <-] | discriminate].
Qed.

Lemma index_row_numbers (df : DataFrame) (code : string) (j : json) :
  index_row L df code = Return j -> numbers_only j = true.
Proof.
  intros H%IndexFacts.index_row_Return.
  destruct (first_with_code df code).
  - destruct H as (p1 & p2 & p3 & p4 & p5 & -> & _). reflexivity.
  - subst j. reflexivity.
Qed.

Lemma ranking_row_numbers (s : Series) (j : json) :
  ranking_row L s = Return j -> numbers_only j = true.
Proof.
  unfold ranking_row. intros H. do 7 bind_inv H. injection H as <-.
  repeat match goal with c : cell |- _ => destruct c end; reflexivity.
Qed.

Lemma sector_row_numbers (s : Series) (j : json) :
  sector_row L s = Return j -> numbers_only j = true.
Proof.
  unfold sector_row. intros H. do 6 bind_inv H. injection H as <-.
  repeat match goal with c : cell |- _ => destruct c end; reflexivity.
Qed.

Lemma info_fields_numbers (row : Series) (ks : list string)
  (nums : list (string * json)) :
  mapM (fun k => x <- float_item L row k ;; Return (k, JFloat x)) ks = Return nums ->
  numbers_only (JObj nums) = true.
Proof.
  intros H%PyFacts.mapM_Return.
  induction H as [|k kv ks nums Hk _ IH]; [reflexivity|].
  bind_inv Hk. injection Hk as <-.
  change (numbers_only (JObj nums) = true). exact IH.
Qed.

Lemma numbers_only_cons (k : string) (v : json) (o : list (string * json)) :
  numbers_only (JObj ((k, v) :: o)) =
  match v with
  | JStr _ => is_text_key k
  | _ => numbers_only v
  end && numbers_only (JObj o).
Proof. reflexivity. Qed.

Lemma index_row_object (df : DataFrame) (code : string) (j : json) :
  index_row L df code = Return j -> exists o, j = JObj o.
Proof.
  intros H%IndexFacts.index_row_Return.
  destruct (first_with_code df code).
  - destruct H as (p1 & p2 & p3 & p4 & p5 & -> & _). eauto.
  - subst j. unfold no_data_json. eauto.
Qed.

Lemma index_row_coerced (df : DataFrame) (code : string) (r : record) (j : json) :
  index_row L df code = Return j -> first_with_code df code = Some r ->
  forall k, In k index_numeric ->
    exists x, field j k = Some (JFloat x) /\ coerce L (columns df) r k = Some x.
Proof.
  intros H%IndexFacts.index_row_Return Hr. rewrite Hr in H.
  destruct H as (p1 & p2 & p3 & p4 & p5 & -> & G1 & G2 & G3 & G4 & G5).
  intros k [<-|[<-|[<-|[<-|[<-|[]]]]]]; eexists; (split; [reflexivity|]);
    now apply float_get_coerce.
Qed.

(** In a document built from the provider's tables every numeric field,
    at any depth, holds a float or an integer; and what the index tool
    reports for a found row. *)
Lemma documents_hold_numbers (w : world) (op : operation) (doc : json) :
  attempt L w op = Return (JsonText doc) ->
  numbers_only doc = true /\
  (op = IndexData ->
   exists df, stock_zh_a_spot_em w = Return df /\ index_coerced L df doc).
Proof.
  destruct op as [| | | |code]; cbn [attempt]; intros H.
  - apply IndexFacts.index_try_Return in H
      as (df & j1 & j2 & j3 & j4 & Hdf & [= ->] & H1 & H2 & H3 & H4).
    split.
    + destruct (index_row_object _ _ _ H1) as (o1 & ->).
      destruct (index_row_object _ _ _ H2) as (o2 & ->).
      destruct (index_row_object _ _ _ H3) as (o3 & ->).
      destruct (index_row_object _ _ _ H4) as (o4 & ->).
      rewrite !numbers_only_cons.
      rewrite (index_row_numbers _ _ _ H1), (index_row_numbers _ _ _ H2),
        (index_row_numbers _ _ _ H3), (index_row_numbers _ _ _ H4).
      reflexivity.
    + intros _. exists df. split; [exact Hdf|].
      intros name code r [E|[E|[E|[E|[]]]]] Hr; injection E as <- <-;
        eexists; (split; [reflexivity|]);
        eapply index_row_coerced; eassumption.
  - split; [|discriminate].
    unfold get_stock_ranking_try in H. do 8 bind_inv H. injection H as <-.
    rewrite !numbers_only_cons.
    match goal with
    | Hr : mapM (ranking_row L) _ = Return ?rise,
      Hf : mapM (ranking_row L) _ = Return ?fall |- context [JList ?rise] =>
        rewrite (mapM_numbers _ _ _ (ranking_row_numbers) Hr),
          (mapM_numbers _ _ _ (ranking_row_numbers) Hf)
    end.
    reflexivity.
  - split; [|discriminate].
    unfold get_market_statistics_try in H. do 11 bind_inv H.
    injection H as <-. reflexivity.
  - split; [|discriminate].
    unfold get_sector_performance_try in H. do 6 bind_inv H. injection H as <-.
    rewrite !numbers_only_cons.
    match goal with
    | Hb : mapM (sector_row L) _ = Return ?best,
      Hw : mapM (sector_row L) _ = Return ?worst |- context [JList ?best] =>
        rewrite (mapM_numbers _ _ _ (sector_row_numbers) Hb),
          (mapM_numbers _ _ _ (sector_row_numbers) Hw)
    end.
    reflexivity.
  - split; [|discriminate].
    unfold get_stock_info_try in H. do 3 bind_inv H.
    match type of H with context [empty ?d] => destruct (empty d) end;
      [discriminate|].
    do 4 bind_inv H. injection H as <-.
    rewrite !numbers_only_cons.
    match goal with
    | Hn : mapM _ stock_info_floats = Return ?nums |- _ =>
        rewrite (info_fields_numbers _ _ _ Hn)
    end.
    repeat match goal with c : cell |- _ => destruct c end; reflexivity.
Qed.

(** C8, as the code has it. In a document that a tool builds from the
    provider's tables every numeric field, at any depth, holds a float or
    an integer.  In the four tools that copy cells each numeric field of an
    entry is [float] of the cell of that column in a row of the table
    ([int] of it for the two counts of a sector): the float of the cell
    itself when it holds one, NaN included, and the number that its text
    reads as when it holds text; the table has the column, so that no
    default applies.  The index tool alone has a default: it reports zero
    for a field of a found row when the snapshot has no such column.  The
    statistics tool holds six integer counts and two floats. *)
Theorem numeric_fields_coerced (w : world) (op : operation) (doc : json) :
  attempt L w op = Return (JsonText doc) ->
  numbers_only doc = true /\
  numeric_fields L w op doc /\
  (forall c v, reports L c v -> is_na c = true ->
     exists x, v = JFloat x /\ PrimFloat.is_nan x = true).
Proof.
  intros H.
  split; [exact (proj1 (documents_hold_numbers w op doc H))|].
  split; [|exact (reports_missing L)].
  destruct op as [| | | |code]; cbn [attempt numeric_fields] in *.
  - exact (proj2 (documents_hold_numbers w IndexData doc H) eq_refl).
  - unfold get_stock_ranking_try in H. do 8 bind_inv H. injection H as <-.
    rename v0 into df.
    apply sort_values_Return in E1 as [Cd Pd].
    apply sort_values_Return in E2 as [Ca Pa].
    apply select_columns_Return in E3 as [Hd ->].
    apply select_columns_Return in E5 as [Ha ->].
    unfold has_columns, head in Hd, Ha; cbn [columns rows] in *.
    rewrite Cd in Hd. rewrite Ca in Ha. fold (has_columns df ranking_columns) in Hd, Ha.
    exists df. eexists _, _. split; [assumption|]. split; [reflexivity|].
    assert (Hl : forall k, In k index_numeric \/ In k [] ->
                           has_label k (columns df) = true).
    { intros k [Hk|[]]. apply (has_columns_In df ranking_columns k Hd).
      cbn in *. intuition. }
    split.
    + exists (firstn 20 (rows v1)). split.
      * intros r Hr. apply RankingFacts.In_firstn in Hr.
        exact (Permutation_in _ Pd Hr).
      * eapply Forall2_impl; [|eapply rows_entries; [|eassumption]].
        -- intros r j. apply entry_of_labels. exact Hl.
        -- intros r j. apply ranking_row_entry.
    + exists (firstn 20 (rows v2)). split.
      * intros r Hr. apply RankingFacts.In_firstn in Hr.
        exact (Permutation_in _ Pa Hr).
      * eapply Forall2_impl; [|eapply rows_entries; [|eassumption]].
        -- intros r j. apply entry_of_labels. exact Hl.
        -- intros r j. apply ranking_row_entry.
  - unfold get_market_statistics_try in H. do 11 bind_inv H.
    injection H as <-. eexists _, _, _, _, _, _, _, _. reflexivity.
  - unfold get_sector_performance_try in H. do 6 bind_inv H. injection H as <-.
    rename v0 into df.
    apply select_columns_Return in E1 as [Hc ->].
    apply sort_values_Return in E2 as [Cs Ps]. cbn [columns rows] in Cs, Ps.
    unfold head, tail in *. rewrite Cs in *.
    exists df. eexists _, _. split; [assumption|]. split; [reflexivity|].
    assert (Hl : forall k, In k ["最新价"; "涨跌幅"; "涨跌额"] \/
                           In k ["上涨家数"; "下跌家数"] ->
                           has_label k (columns df) = true).
    { intros k Hk. apply (has_columns_In df sector_columns k Hc).
      cbn in *. intuition. }
    split.
    + exists (firstn 10 (rows v2)). split.
      * intros r Hr. apply RankingFacts.In_firstn in Hr.
        exact (Permutation_in _ Ps Hr).
      * eapply Forall2_impl; [|eapply rows_entries; [|eassumption]].
        -- intros r j. apply entry_of_labels. exact Hl.
        -- intros r j. apply sector_row_entry.
    + exists (skipn (List.length (rows v2) - 10) (rows v2)). split.
      * intros r Hr. apply RankingFacts.In_skipn in Hr.
        exact (Permutation_in _ Ps Hr).
      * eapply Forall2_impl; [|eapply rows_entries; [|eassumption]].
        -- intros r j. apply entry_of_labels. exact Hl.
        -- intros r j. apply sector_row_entry.
  - unfold get_stock_info_try in H. do 3 bind_inv H. rename v0 into df.
    apply getitem_Return in E1 as [Hl ->]. rewrite mask_rows_test in H.
    destruct (empty _) eqn:Ee; [discriminate|].
    unfold iloc0 in H; cbn [rows columns] in H.
    pose proof (IndexFacts.index_data_rows df code Hl) as Hfirst.
    destruct (filter _ (rows df)) as [|rec rs] eqn:Ef; [discriminate|].
    cbn [bind] in H. do 3 bind_inv H. injection H as <-.
    exists df, rec. split; [assumption|].
    split.
    { unfold first_with_code. rewrite find_filter, Ef. reflexivity. }
    split; [|intros k []].
    intros k Hk.
    destruct (info_fields_entry L _ _ _ _ stock_info_floats_NoDup E3 k Hk)
      as (Hk' & x & Hget & Hr).
    split; [exact Hk'|]. exists x. split; [|exact Hr].
    cbn [field dict_get].
    assert (Hne : String.eqb k "代码" = false /\ String.eqb k "名称" = false).
    { unfold stock_info_floats in Hk. cbn [In] in Hk.
      repeat (destruct Hk as [<-|Hk]; [split; reflexivity|]). contradiction. }
    destruct Hne as [-> ->]. exact Hget.
Qed.

End WithLibrary.

Lemma numeric_fields_coerced_witness :
  let w := Sample.world_of Sample.textual_snapshot in
  exists doc,
    attempt Sample.lib w IndexData = Return (JsonText doc) /\
    numbers_only doc = true /\
    numeric_fields Sample.lib w IndexData doc.
Proof.
  intros w. eexists. split; [reflexivity|].
  refine (let H := numeric_fields_coerced Sample.lib w IndexData _ eq_refl in _).
  destruct H as (Hn & Hc & _). split; [exact Hn | exact Hc].
Defined.

(** Text is parsed and an absent column reads as zero. *)
Example index_data_from_text :
  get_stock_index_data Sample.lib (Sample.world_of Sample.textual_snapshot) =
  Return (JsonText (JObj
    [("上证指数",
      JObj [("代码", JStr "000001"); ("最新价", JFloat 3085.15);
            ("涨跌幅", JFloat 0); ("涨跌额", JFloat 0); ("成交量", JFloat 0);
            ("成交额", JFloat 0)]);
     ("深证成指", no_data_json "399001");
     ("创业板指", no_data_json "399006");
     ("科创50", no_data_json "000688")])).
Proof. reflexivity. Qed.

(** A missing value is not replaced by zero: where the last price of a
    quote is NaN, the index tool and the single-stock tool both succeed and
    report NaN for it. *)
Lemma missing_value_is_not_zero :
  let w := Sample.world_of Sample.suspended_snapshot in
  exists r doc info x y,
    first_with_code Sample.suspended_snapshot "000001" = Some r /\
    at_ r "最新价" = CFloat PrimFloat.nan /\
    attempt Sample.lib w IndexData = Return (JsonText doc) /\
    path doc ["上证指数"; "最新价"] = Some (JFloat x) /\
    PrimFloat.is_nan x = true /\ PrimFloat.eqb x 0 = false /\
    attempt Sample.lib w (StockInfo "600000") = Return (JsonText info) /\
    path info ["最新价"] = Some (JFloat y) /\
    PrimFloat.is_nan y = true /\ PrimFloat.eqb y 0 = false.
Proof.
  intros w. eexists _, _, _, _, _.
  repeat (split; [reflexivity|]). reflexivity.
Qed.

End NumericFacts.

(** ** Response shapes and lookups by code *)

Module ShapeFacts.
Import Py Pandas Tools Spec Cases PandasFacts.

Lemma dict_get_absent (o : list (string * json)) (k : string) :
  ~ In k (map fst o) -> dict_get o k = None.
Proof.
  induction o as [|[k' v] o IH]; cbn; [reflexivity|]. intros H.
  destruct (String.eqb_spec k k') as [->|_]; [tauto|]. apply IH. tauto.
Qed.

Lemma error_is_no_section (op : operation) : ~ In "error" (sections op).
Proof.
  destruct op; cbn; intuition discriminate.
Qed.

Section WithLibrary.
Variable L : library.

Lemma index_row_closed (df : DataFrame) (code : string) :
  index_row L df code =
  index_row_of L (columns df) (first_with_code df code) code.
Proof.
  unfold index_row, index_row_of, getitem.
  destruct (has_label "代码" (columns df)) eqn:Hl; [|reflexivity].
  cbn [bind]. rewrite mask_rows_test, (IndexFacts.index_data_rows df code Hl).
  unfold first_with_code. rewrite find_filter. unfold iloc0; cbn [rows columns].
  destruct (filter _ (rows df)); reflexivity.
Qed.

Lemma info_fields_keys (row : Series) (ks : list string)
  (nums : list (string * json)) :
  mapM (fun k => x <- float_item L row k ;; Return (k, JFloat x)) ks = Return nums ->
  map fst nums = ks.
Proof.
  intros H%PyFacts.mapM_Return.
  induction H as [|k kv ks nums Hk _ IH]; [reflexivity|].
  bind_inv Hk. injection Hk as <-. cbn. now rewrite IH.
Qed.

(** What the body of the single-stock tool returns. *)
Lemma stock_info_try_Return (w : world) (stock_code : string) (r : response) :
  get_stock_info_try L w stock_code = Return r ->
  r = PlainText (not_found_message stock_code) \/
  exists name nums,
    r = JsonText (JObj (("代码", JStr stock_code) :: ("名称", name) :: nums)) /\
    map fst nums = stock_info_floats.
Proof.
  unfold get_stock_info_try. intros H. do 3 bind_inv H.
  apply getitem_Return in E1 as [Hl ->]. rewrite mask_rows_test in H.
  destruct (empty _) eqn:Ee; [left; now injection H as <-|right].
  unfold iloc0 in H; cbn [rows columns] in H.
  destruct (filter _ (rows v0)) as [|rec rs] eqn:Ef; [discriminate|].
  cbn [bind] in H. unfold series_getitem at 1 2 in H; cbn [index values] in H.
  rewrite Hl in H; cbn [bind] in H.
  destruct (has_label "名称" (columns v0)); [|discriminate]. cbn [bind] in H.
  bind_inv H. injection H as <-.
  assert (Hin : In rec (filter (fun r => eq_str stock_code (at_ r "代码")) (rows v0)))
    by (rewrite Ef; now left).
  apply filter_In in Hin as [_ Heq].
  rewrite (StockInfoFacts.eq_str_true _ _ Heq).
  eexists _, _. split; [reflexivity|]. eapply info_fields_keys; eassumption.
Qed.

(** The keys of a document built from the provider's tables. *)
Lemma success_keys (w : world) (op : operation) (doc : json) :
  attempt L w op = Return (JsonText doc) ->
  exists o, doc = JObj o /\ map fst o = sections op.
Proof.
  destruct op as [| | | |code]; cbn [attempt]; intros H.
  - apply IndexFacts.index_try_Return in H
      as (df & j1 & j2 & j3 & j4 & _ & [= ->] & _). eauto.
  - unfold get_stock_ranking_try in H. do 8 bind_inv H. injection H as <-. eauto.
  - unfold get_market_statistics_try in H. do 11 bind_inv H.
    injection H as <-. eauto.
  - unfold get_sector_performance_try in H. do 6 bind_inv H.
    injection H as <-. eauto.
  - apply stock_info_try_Return in H as [H|(name & nums & H & Hk)];
      [discriminate|].
    injection H as ->. eexists; split; [reflexivity|]. cbn. now rewrite Hk.
Qed.

Lemma plain_text_is_not_found (w : world) (op : operation) (s : string) :
  attempt L w op = Return (PlainText s) ->
  exists code, op = StockInfo code /\ s = not_found_message code.
Proof.
  destruct op as [| | | |code]; cbn [attempt]; intros H.
  - apply IndexFacts.index_try_Return in H
      as (df & j1 & j2 & j3 & j4 & _ & H & _). discriminate.
  - unfold get_stock_ranking_try in H. do 8 bind_inv H. discriminate.
  - unfold get_market_statistics_try in H. do 11 bind_inv H. discriminate.
  - unfold get_sector_performance_try in H. do 6 bind_inv H. discriminate.
  - apply stock_info_try_Return in H as [H|(name & nums & H & _)];
      [|discriminate].
    injection H as ->. eauto.
Qed.

Lemma run_attempt (w : world) (op : operation) :
  run L w op =
  match attempt L w op with
  | Return r => Return r
  | Raise e =>
      match op with
      | IndexData => get_stock_index_data_except e
      | Ranking => get_stock_ranking_except e
      | MarketStatistics => get_market_statistics_except e
      | SectorPerformance => get_sector_performance_except e
      | StockInfo code => get_stock_info_except code e
      end
  end.
Proof.
  destruct op; reflexivity.
Qed.

(** X1. Every response has one of three shapes, and the keys tell them apart: a
    document built from the provider's tables has the keys of its
    operation and no ["error"]; a fallback has those keys, the extra ones
    and ["error"] holding the text of the exception; the single-stock tool
    alone may answer with the plain not-found message. *)
Theorem response_shapes (w : world) (op : operation) :
  exists r,
    run L w op = Return r /\
    ((exists o, r = JsonText (JObj o) /\ attempt L w op = Return r /\
                map fst o = sections op /\ dict_get o "error" = None) \/
     (exists o e, r = JsonText (JObj o) /\ attempt L w op = Raise e /\
                  map fst o = (sections op ++ extras op)%list /\
                  dict_get o "error" = Some (JStr (exn_str e))) \/
     (exists code, op = StockInfo code /\ attempt L w op = Return r /\
                   r = PlainText (not_found_message code))).
Proof.
  rewrite run_attempt. destruct (attempt L w op) as [[doc|s]|e] eqn:Ha.
  - exists (JsonText doc). split; [reflexivity|]. left.
    destruct (success_keys w op doc Ha) as (o & -> & Hk).
    exists o. repeat split; trivial.
    apply dict_get_absent. rewrite Hk. apply error_is_no_section.
  - exists (PlainText s). split; [reflexivity|]. right; right.
    destruct (plain_text_is_not_found w op s Ha) as (code & -> & ->). eauto.
  - destruct op; eexists; (split; [reflexivity|]); right; left;
      eexists _, e; repeat split; reflexivity.
Qed.

Lemma fallback_of_raise (w : world) (op : operation) (e : exn) :
  attempt L w op = Raise e -> falls_back_with L w op (exn_str e).
Proof.
  intros H. unfold falls_back_with. rewrite run_attempt, H.
  destruct op; eexists; repeat split.
Qed.

(** X2. Whatever the single-stock tool answers names the code it was asked
    for: the not-found message ends in it, and a document, built from the
    snapshot or fallback, has it under ["代码"]. *)
Theorem stock_info_names_the_code (w : world) (stock_code : string) :
  get_stock_info L w stock_code =
    Return (PlainText ("未找到股票代码: " ++ stock_code)) \/
  exists o,
    get_stock_info L w stock_code = Return (JsonText (JObj o)) /\
    dict_get o "代码" = Some (JStr stock_code).
Proof.
  unfold get_stock_info.
  destruct (get_stock_info_try L w stock_code) as [r|e] eqn:Ha; cbn [try_except].
  - apply stock_info_try_Return in Ha as [->|(name & nums & -> & _)];
      [now left | right; eauto].
  - right. eexists. split; reflexivity.
Qed.

(** X3. Whether the document is built from the snapshot or is the fallback,
    it has a row under each of the four index names, with the code of that
    name and a number in each of the five numeric fields. *)
Theorem index_rows_always_there (w : world) :
  exists o,
    get_stock_index_data L w = Return (JsonText (JObj o)) /\
    forall name code, In (name, code) indices ->
      exists row,
        dict_get o name = Some (JObj row) /\
        dict_get row "代码" = Some (JStr code) /\
        forall k, In k index_numeric ->
          exists v, dict_get row k = Some v /\ json_number v = true.
Proof.
  unfold get_stock_index_data.
  destruct (get_stock_index_data_try L w) as [r|e] eqn:Ha; cbn [try_except].
  - apply IndexFacts.index_try_Return in Ha
      as (df & j1 & j2 & j3 & j4 & _ & -> & H1 & H2 & H3 & H4).
    eexists. split; [reflexivity|].
    intros name code [E|[E|[E|[E|[]]]]]; injection E as <- <-;
      match goal with
      | Hrow : index_row L df ?c = Return ?j |- context [JStr ?c] =>
          apply IndexFacts.index_row_Return in Hrow;
          destruct (first_with_code df c);
          [ destruct Hrow as (p1 & p2 & p3 & p4 & p5 & -> & _)
          | subst j; unfold no_data_json ];
          eexists; (split; [reflexivity|]); (split; [reflexivity|]);
          intros k [<-|[<-|[<-|[<-|[<-|[]]]]]]; eexists; split; reflexivity
      end.
  - eexists. split; [reflexivity|].
    intros name code [E|[E|[E|[E|[]]]]]; injection E as <- <-;
      eexists; (split; [reflexivity|]); (split; [reflexivity|]);
      intros k [<-|[<-|[<-|[<-|[<-|[]]]]]]; eexists; split; reflexivity.
Qed.

(** X4. The index tool reads the column labels and, for each of the four
    codes, the first row that carries it, and nothing else of the snapshot:
    two snapshots that agree on these give the same response. *)
Theorem index_data_reads_first_rows (w w' : world) (df df' : DataFrame) :
  request_context w = request_context w' ->
  stock_zh_a_spot_em w = Return df ->
  stock_zh_a_spot_em w' = Return df' ->
  columns df = columns df' ->
  (forall name code, In (name, code) indices ->
     first_with_code df code = first_with_code df' code) ->
  get_stock_index_data L w = get_stock_index_data L w'.
Proof.
  intros Hctx Hdf Hdf' Hc Hf.
  unfold get_stock_index_data, get_stock_index_data_try.
  rewrite Hctx, Hdf, Hdf'. destruct (request_context w'); [|reflexivity].
  cbn [bind]. unfold indices; cbn [index_loop].
  rewrite !index_row_closed, Hc.
  rewrite !(Hf _ _) by (unfold indices; cbn; eauto 6).
  reflexivity.
Qed.

Lemma stock_info_absent (w : world) (df : DataFrame) (stock_code : string) :
  request_context w = Return tt ->
  stock_zh_a_spot_em w = Return df ->
  has_label "代码" (columns df) = true ->
  first_with_code df stock_code = None ->
  get_stock_info L w stock_code = Return (PlainText (not_found_message stock_code)).
Proof.
  intros Hctx Hdf Hl Hn. unfold get_stock_info, get_stock_info_try.
  rewrite Hctx, Hdf; cbn [bind]. rewrite (getitem_label _ _ Hl); cbn [bind].
  rewrite mask_rows_test, (IndexFacts.index_data_rows df stock_code Hl), Hn.
  reflexivity.
Qed.

(** X5. Codes are compared as strings.  When the code column holds numbers, no
    code is found: the single-stock tool answers not-found for every code
    and the index tool gives four no-data rows, neither falls back. *)
Theorem numeric_codes_match_nothing (w : world) (df : DataFrame) :
  request_context w = Return tt ->
  stock_zh_a_spot_em w = Return df ->
  has_label "代码" (columns df) = true ->
  forallb (fun r => is_float_cell (at_ r "代码")) (rows df) = true ->
  (forall stock_code,
     get_stock_info L w stock_code =
       Return (PlainText (not_found_message stock_code))) /\
  get_stock_index_data L w = Return (JsonText all_no_data).
Proof.
  intros Hctx Hdf Hl Hf.
  assert (Hn : forall code, first_with_code df code = None).
  { intros code. unfold first_with_code.
    destruct (find _ (rows df)) as [r|] eqn:E; [|reflexivity].
    apply find_some in E as [Hin Heq]. rewrite forallb_forall in Hf.
    specialize (Hf r Hin). destruct (at_ r "代码"); discriminate. }
  split.
  - intros code. now apply stock_info_absent with df.
  - unfold get_stock_index_data, get_stock_index_data_try.
    rewrite Hctx, Hdf; cbn [bind]. unfold indices; cbn [index_loop].
    rewrite !index_row_closed, !Hn. unfold index_row_of. rewrite Hl.
    reflexivity.
Qed.

(** X6. A snapshot without the code column makes the index tool and the
    single-stock tool fall back with the text of the KeyError, the latter
    also for codes it could not have found; a snapshot without the
    percent-change column does the same to the ranking and the statistics
    tools. *)
Theorem missing_key_column (w : world) (df : DataFrame) :
  request_context w = Return tt ->
  stock_zh_a_spot_em w = Return df ->
  (has_label "代码" (columns df) = false ->
   falls_back_with L w IndexData "'代码'" /\
   forall stock_code, falls_back_with L w (StockInfo stock_code) "'代码'") /\
  (has_label "涨跌幅" (columns df) = false ->
   falls_back_with L w Ranking "'涨跌幅'" /\
   falls_back_with L w MarketStatistics "'涨跌幅'").
Proof.
  intros Hctx Hdf. split; intros Hl.
  - split; [|intros code];
      apply (fallback_of_raise _ _ (key_error "代码")); cbn [attempt].
    + unfold get_stock_index_data_try. rewrite Hctx, Hdf; cbn [bind].
      unfold indices; cbn [index_loop]. rewrite index_row_closed.
      unfold index_row_of. now rewrite Hl.
    + unfold get_stock_info_try. rewrite Hctx, Hdf; cbn [bind].
      unfold getitem. now rewrite Hl.
  - split; apply (fallback_of_raise _ _ (key_error "涨跌幅")); cbn [attempt].
    + unfold get_stock_ranking_try. rewrite Hctx, Hdf; cbn [bind].
      unfold sort_values. now rewrite Hl.
    + unfold get_market_statistics_try. rewrite Hctx, Hdf; cbn [bind].
      unfold count_where, getitem. now rewrite Hl.
Qed.

Lemma mapM_stops {A B : Type} (f : A -> outcome B) (pre post : list A) (a : A)
  (e : exn) :
  (forall x, In x pre -> exists b, f x = Return b) -> f a = Raise e ->
  mapM f (pre ++ a :: post) = Raise e.
Proof.
  intros Hpre Ha. induction pre as [|x pre IH]; cbn.
  - now rewrite Ha.
  - destruct (Hpre x) as (b & ->); [now left|]. cbn [bind].
    rewrite IH; [reflexivity|]. intros; apply Hpre; now right.
Qed.

(** X7. For a code of the snapshot the single-stock tool gives no partial
    document: the first of the fourteen numeric fields, in the order of the
    dictionary, whose column the snapshot lacks makes it fall back with the
    text of the KeyError for that field. *)
Theorem stock_info_first_missing_field (w : world) (df : DataFrame)
  (stock_code : string) (r : record) (pre post : list string) (k : string) :
  request_context w = Return tt ->
  stock_zh_a_spot_em w = Return df ->
  has_label "代码" (columns df) = true ->
  has_label "名称" (columns df) = true ->
  first_with_code df stock_code = Some r ->
  stock_info_floats = (pre ++ k :: post)%list ->
  float_columns df pre = true ->
  has_label k (columns df) = false ->
  falls_back_with L w (StockInfo stock_code) ("'" ++ k ++ "'").
Proof.
  intros Hctx Hdf Hl Hn Hr Hsplit Hf Hk.
  apply (fallback_of_raise _ _ (key_error k)); cbn [attempt].
  unfold get_stock_info_try. rewrite Hctx, Hdf; cbn [bind].
  rewrite (getitem_label _ _ Hl); cbn [bind].
  rewrite mask_rows_test, (IndexFacts.index_data_rows df stock_code Hl), Hr.
  unfold first_with_code in Hr. pose proof (find_some _ _ Hr) as [Hin _].
  rewrite find_filter in Hr. unfold iloc0; cbn [rows columns].
  destruct (filter _ (rows df)) as [|r' rs]; [discriminate|].
  injection Hr as ->. cbn [bind].
  unfold series_getitem at 1 2; cbn [index values]. rewrite Hl, Hn; cbn [bind].
  rewrite Hsplit, (mapM_stops _ pre post k (key_error k)); [reflexivity| |].
  - intros x Hx. eexists.
    rewrite (StockInfoFacts.float_item_floats L df r x
               (float_columns_In _ _ _ Hf Hx) Hin).
    reflexivity.
  - unfold float_item, series_getitem; cbn [index values]. now rewrite Hk.
Qed.

End WithLibrary.

Lemma index_data_reads_first_rows_witness :
  let w := Sample.world_of Sample.snapshot in
  let w' := Sample.world_of reordered_snapshot in
  rows Sample.snapshot <> rows reordered_snapshot /\
  get_stock_index_data Sample.lib w = get_stock_index_data Sample.lib w'.
Proof.
  intros w w'. split; [discriminate|].
  apply (index_data_reads_first_rows Sample.lib w w'
           Sample.snapshot reordered_snapshot); try reflexivity.
  intros name code [E|[E|[E|[E|[]]]]]; injection E as <- <-; reflexivity.
Defined.

Lemma numeric_codes_match_nothing_witness :
  let w := Sample.world_of numeric_code_snapshot in
  get_stock_info Sample.lib w "600000" =
    Return (PlainText (not_found_message "600000")) /\
  get_stock_index_data Sample.lib w = Return (JsonText all_no_data).
Proof.
  intros w.
  destruct (numeric_codes_match_nothing Sample.lib w numeric_code_snapshot
              eq_refl eq_refl eq_refl eq_refl) as [Hinfo Hidx].
  split; [apply Hinfo | exact Hidx].
Defined.

Lemma missing_key_column_witness :
  let w := Sample.world_of Sample.sectors in
  has_label "代码" (columns Sample.sectors) = false /\
  falls_back_with Sample.lib w IndexData "'代码'" /\
  falls_back_with Sample.lib w (StockInfo "600000") "'代码'" /\
  let w2 := Sample.world_of Sample.textual_snapshot in
  has_label "涨跌幅" (columns Sample.textual_snapshot) = false /\
  falls_back_with Sample.lib w2 Ranking "'涨跌幅'" /\
  falls_back_with Sample.lib w2 MarketStatistics "'涨跌幅'".
Proof.
  intros w. split; [reflexivity|].
  destruct (missing_key_column Sample.lib w Sample.sectors eq_refl eq_refl)
    as [H1 _].
  destruct (H1 eq_refl) as [Hi Hs].
  split; [exact Hi|]. split; [apply Hs|].
  intros w2. split; [reflexivity|].
  destruct (missing_key_column Sample.lib w2 Sample.textual_snapshot
              eq_refl eq_refl) as [_ H2].
  exact (H2 eq_refl).
Defined.

Lemma stock_info_first_missing_field_witness :
  let w := Sample.world_of renamed_snapshot in
  has_label "市盈率" (columns renamed_snapshot) = false /\
  has_label "市净率" (columns renamed_snapshot) = true /\
  falls_back_with Sample.lib w (StockInfo "600000") "'市盈率'".
Proof.
  intros w. split; [reflexivity|]. split; [reflexivity|].
  eapply (stock_info_first_missing_field Sample.lib w renamed_snapshot "600000" _
            ["最新价"; "涨跌幅"; "涨跌额"; "今开"; "最高"; "最低"; "昨收"; "成交量";
             "成交额"; "换手率"]
            ["市净率"; "总市值"; "流通市值"] "市盈率"); reflexivity.
Defined.

End ShapeFacts.

(** ** More on the ranking *)

Module RankingEdgeFacts.
Import Py Pandas Tools Spec Cases PandasFacts SortedFacts SortFacts RankingFacts.

Lemma falls_nan (a b : float) :
  falls a b -> PrimFloat.is_nan a = true -> PrimFloat.is_nan b = true.
Proof.
  intros [H|H] Ha; [exact H|].
  apply F64Facts.leb_numbers in H as [_ H]. unfold F64.is_number in H.
  now rewrite Ha in H.
Qed.

Lemma climbs_nan (a b : float) :
  climbs a b -> PrimFloat.is_nan a = true -> PrimFloat.is_nan b = true.
Proof.
  intros [H|H] Ha; [exact H|].
  apply F64Facts.leb_numbers in H as [H _]. unfold F64.is_number in H.
  now rewrite Ha in H.
Qed.

Lemma count_of_permutation {A : Type} (p : A -> bool) (l l' : list A) :
  Permutation l l' -> List.length (filter p l) = List.length (filter p l').
Proof.
  induction 1 as [|a l l' _ IH|a b l|l l' l'' _ IH1 _ IH2]; cbn.
  - reflexivity.
  - destruct (p a); cbn; now rewrite IH.
  - destruct (p a), (p b); reflexivity.
  - now rewrite IH1.
Qed.

Lemma filter_none {A : Type} (p : A -> bool) (l : list A) :
  (forall a, In a l -> p a = false) -> filter p l = [].
Proof.
  induction l as [|a l IH]; cbn; intros H; [reflexivity|].
  rewrite (H a) by now left. apply IH. intros; apply H; now right.
Qed.

(** In a table where missing keys come last, a missing key among the first
    [n] rows leaves fewer than [n] keys that are numbers. *)
Lemma missing_in_head {A : Type} (key : A -> float) (R : float -> float -> Prop)
  (s : list A) (n : nat) (r : A) :
  (forall a b, R a b -> PrimFloat.is_nan a = true -> PrimFloat.is_nan b = true) ->
  StronglySorted (fun r1 r2 => R (key r1) (key r2)) s ->
  In r (firstn n s) -> PrimFloat.is_nan (key r) = true ->
  List.length (filter (fun a => F64.is_number (key a)) s) < n.
Proof.
  intros HR Hs Hin Hnan.
  apply in_split in Hin as (l1 & l2 & Hsplit).
  assert (Hlen : List.length l1 < n).
  { pose proof (f_equal (@List.length A) Hsplit) as E.
    rewrite length_firstn, length_app in E. cbn in E. lia. }
  rewrite <- (firstn_skipn n s), Hsplit, <- app_assoc in Hs |- *.
  cbn [app] in Hs |- *.
  apply sorted_app_inv in Hs as (_ & Hs & _).
  apply StronglySorted_inv in Hs as [_ Hafter].
  rewrite filter_app, length_app. cbn [filter].
  unfold F64.is_number at 2. rewrite Hnan. cbn [negb].
  replace (filter _ (l2 ++ skipn n s)) with (@nil A).
  - cbn. pose proof (filter_length_le (fun a => F64.is_number (key a)) l1). lia.
  - symmetry. apply filter_none.
    intros b Hb. rewrite Forall_forall in Hafter.
    unfold F64.is_number. now rewrite (HR _ _ (Hafter b Hb) Hnan).
Qed.

Section WithLibrary.
Variable L : library.

(** The response of the ranking tool on a table of floats, with the two
    sorted tables it is cut from. *)
Lemma ranking_document (w : world) (df : DataFrame) :
  request_context w = Return tt ->
  stock_zh_a_spot_em w = Return df ->
  has_columns df ranking_columns = true ->
  float_columns df ["最新价"; "涨跌幅"; "涨跌额"; "成交量"; "成交额"] = true ->
  exists desc asc,
    Permutation desc (rows df) /\ Permutation asc (rows df) /\
    StronglySorted (fun r1 r2 => falls (pct r1) (pct r2)) desc /\
    StronglySorted (fun r1 r2 => climbs (pct r1) (pct r2)) asc /\
    get_stock_ranking L w =
      Return (JsonText (JObj
        [("涨幅榜", JList (map ranking_json (firstn 20 desc)));
         ("跌幅榜", JList (map ranking_json (firstn 20 asc)))])).
Proof.
  intros Hctx Hdf Hc Hf.
  assert (Hp : float_column df "涨跌幅" = true)
    by (apply (float_columns_In _ _ _ Hf); cbn; tauto).
  destruct (sort_values_floats df "涨跌幅" false Hp) as (desc & Ed & Pd & Sd).
  destruct (sort_values_floats df "涨跌幅" true Hp) as (asc & Ea & Pa & Sa).
  cbn [by_order] in Sd, Sa.
  exists desc, asc. repeat (split; [assumption|]).
  unfold get_stock_ranking, get_stock_ranking_try.
  rewrite Hctx, Hdf; cbn [bind]. rewrite Ed; cbn [bind]. rewrite Ea; cbn [bind].
  pose proof (ranking_rows L df desc Hc Hf Pd) as Rd.
  pose proof (ranking_rows L df asc Hc Hf Pa) as Ra.
  apply PyFacts.bind_Return in Rd as (cd & Ecd & Erd).
  apply PyFacts.bind_Return in Ra as (ca & Eca & Era).
  rewrite Ecd; cbn [bind]. rewrite Erd; cbn [bind].
  rewrite Eca; cbn [bind]. rewrite Era; cbn [bind try_except].
  reflexivity.
Qed.

(** X8. The gainers are the rows with the greatest percent changes and the
    losers those with the smallest: the snapshot is, up to order, the
    listed rows and the rows left out, no row left out has a greater
    percent change than a gainer, and none a smaller one than a loser.
    With twenty rows or fewer no row is left out of either list. *)
Theorem gainers_and_losers_are_extremes (w : world) (df : DataFrame) :
  request_context w = Return tt ->
  stock_zh_a_spot_em w = Return df ->
  has_columns df ranking_columns = true ->
  float_columns df ["最新价"; "涨跌幅"; "涨跌额"; "成交量"; "成交额"] = true ->
  exists top rest bottom others,
    get_stock_ranking L w =
      Return (JsonText (JObj [("涨幅榜", JList (map ranking_json top));
                              ("跌幅榜", JList (map ranking_json bottom))])) /\
    Permutation (top ++ rest) (rows df) /\
    Permutation (bottom ++ others) (rows df) /\
    (forall a b, In a top -> In b rest -> PrimFloat.ltb (pct a) (pct b) = false) /\
    (forall a b, In a bottom -> In b others ->
                 PrimFloat.ltb (pct b) (pct a) = false) /\
    (List.length (rows df) <= 20 -> rest = [] /\ others = []).
Proof.
  intros Hctx Hdf Hc Hf.
  destruct (ranking_document w df Hctx Hdf Hc Hf)
    as (desc & asc & Pd & Pa & Sd & Sa & Hrun).
  exists (firstn 20 desc), (skipn 20 desc), (firstn 20 asc), (skipn 20 asc).
  split; [exact Hrun|]. rewrite !firstn_skipn.
  split; [exact Pd|]. split; [exact Pa|].
  rewrite <- (firstn_skipn 20 desc) in Sd.
  rewrite <- (firstn_skipn 20 asc) in Sa.
  apply sorted_app_inv in Sd as (_ & _ & Xd).
  apply sorted_app_inv in Sa as (_ & _ & Xa).
  split; [|split].
  - intros a b Ha Hb. destruct (Xd a b Ha Hb) as [H|H].
    + now apply F64Facts.ltb_nan_r.
    + now apply F64Facts.leb_not_ltb.
  - intros a b Ha Hb. destruct (Xa a b Ha Hb) as [H|H].
    + now apply F64Facts.ltb_nan_l.
    + now apply F64Facts.leb_not_ltb.
  - intros Hn. split; apply skipn_all2.
    + now rewrite (Permutation_length Pd).
    + now rewrite (Permutation_length Pa).
Qed.

(** X9. Rows without a percent change are listed only for want of others: when
    twenty rows or more have a number as percent change, every gainer and
    every loser has one. *)
Theorem listed_changes_are_numbers (w : world) (df : DataFrame) :
  request_context w = Return tt ->
  stock_zh_a_spot_em w = Return df ->
  has_columns df ranking_columns = true ->
  float_columns df ["最新价"; "涨跌幅"; "涨跌额"; "成交量"; "成交额"] = true ->
  20 <= List.length (filter (fun r => F64.is_number (pct r)) (rows df)) ->
  exists gainers losers,
    get_stock_ranking L w =
      Return (JsonText (JObj [("涨幅榜", JList gainers); ("跌幅榜", JList losers)])) /\
    List.length gainers = 20 /\ List.length losers = 20 /\
    Forall (fun j => F64.is_number (pct_field j) = true) gainers /\
    Forall (fun j => F64.is_number (pct_field j) = true) losers.
Proof.
  intros Hctx Hdf Hc Hf Hn.
  destruct (ranking_document w df Hctx Hdf Hc Hf)
    as (desc & asc & Pd & Pa & Sd & Sa & Hrun).
  eexists _, _. split; [exact Hrun|].
  pose proof (filter_length_le (fun r => F64.is_number (pct r)) (rows df)) as Hle.
  rewrite !length_map, !length_firstn,
    (Permutation_length Pd), (Permutation_length Pa).
  split; [lia|]. split; [lia|].
  split; apply Forall_forall; intros j (r & <- & Hin)%in_map_iff;
    change (pct_field (ranking_json r)) with (pct r);
    unfold F64.is_number; destruct (PrimFloat.is_nan (pct r)) eqn:E; trivial;
    exfalso.
  - pose proof (missing_in_head pct falls desc 20 r falls_nan Sd Hin E) as H.
    rewrite (count_of_permutation _ _ _ Pd) in H. lia.
  - pose proof (missing_in_head pct climbs asc 20 r climbs_nan Sa Hin E) as H.
    rewrite (count_of_permutation _ _ _ Pa) in H. lia.
Qed.

(** On a snapshot without rows the ranking tool gives two empty lists, not
    the fallback. *)
Lemma ranking_without_rows (w : world) (df : DataFrame) :
  request_context w = Return tt ->
  stock_zh_a_spot_em w = Return df ->
  rows df = [] ->
  has_columns df ranking_columns = true ->
  get_stock_ranking L w =
    Return (JsonText (JObj [("涨幅榜", JList []); ("跌幅榜", JList [])])).
Proof.
  intros Hctx Hdf Hr Hc.
  assert (Hl : has_label "涨跌幅" (columns df) = true).
  { unfold has_columns in Hc. rewrite forallb_forall in Hc.
    apply Hc. cbn; tauto. }
  unfold get_stock_ranking, get_stock_ranking_try.
  rewrite Hctx, Hdf; cbn [bind]. unfold sort_values. rewrite Hl, Hr.
  cbn [map filter rev argsort bind app]. unfold select_columns, head.
  cbn [columns rows firstn]. fold (has_columns df ranking_columns).
  rewrite Hc. reflexivity.
Qed.

End WithLibrary.

Lemma gainers_and_losers_are_extremes_witness :
  let w := Sample.world_of snapshot_with_suspended in
  List.length (rows snapshot_with_suspended) = 24 /\
  exists top rest bottom others,
    get_stock_ranking Sample.lib w =
      Return (JsonText (JObj [("涨幅榜", JList (map ranking_json top));
                              ("跌幅榜", JList (map ranking_json bottom))])) /\
    Permutation (top ++ rest) (rows snapshot_with_suspended) /\
    Permutation (bottom ++ others) (rows snapshot_with_suspended) /\
    (forall a b, In a top -> In b rest -> PrimFloat.ltb (pct a) (pct b) = false) /\
    (forall a b, In a bottom -> In b others ->
                 PrimFloat.ltb (pct b) (pct a) = false) /\
    (24 <= 20 -> rest = [] /\ others = []).
Proof.
  intros w. split; [reflexivity|].
  exact (gainers_and_losers_are_extremes Sample.lib w snapshot_with_suspended
           eq_refl eq_refl eq_refl eq_refl).
Defined.

Lemma listed_changes_are_numbers_witness :
  let w := Sample.world_of snapshot_with_suspended in
  List.length (filter (fun r => F64.is_number (pct r))
                 (rows snapshot_with_suspended)) = 22 /\
  exists gainers losers,
    get_stock_ranking Sample.lib w =
      Return (JsonText (JObj [("涨幅榜", JList gainers); ("跌幅榜", JList losers)])) /\
    List.length gainers = 20 /\ List.length losers = 20 /\
    Forall (fun j => F64.is_number (pct_field j) = true) gainers /\
    Forall (fun j => F64.is_number (pct_field j) = true) losers.
Proof.
  intros w. split; [reflexivity|].
  apply (listed_changes_are_numbers Sample.lib w snapshot_with_suspended);
    try reflexivity.
  cbn. lia.
Defined.

End RankingEdgeFacts.

(** ** More on the statistics *)

Module MarketEdgeFacts.
Import Py Pandas Tools Spec Cases PandasFacts MarketFacts.

Lemma eqb_nan (x y : float) :
  PrimFloat.is_nan x = true -> PrimFloat.eqb x y = false.
Proof.
  intros H%F64Facts.is_nan_key. destruct (PrimFloat.eqb x y) eqn:E; trivial.
  apply F64Facts.eqb_key in E as (a & Ha & _). congruence.
Qed.

(** A percent change of 9.9 or more is above zero, and one of -9.9 or less
    is below zero. *)
Lemma limit_up_is_up (x : float) :
  (9.9 <=? x)%float = true -> (0 <? x)%float = true.
Proof.
  intros (a & b & Ha & Hb & H)%F64Facts.leb_key.
  apply F64Facts.ltb_key. exists (0, 0, 0)%Z, b.
  split; [reflexivity|]. split; [exact Hb|].
  vm_compute in Ha. injection Ha as <-.
  destruct b as [[b1 b2] b3]. unfold F64.key_le, F64.key_lt in *. lia.
Qed.

Lemma limit_down_is_down (x : float) :
  (x <=? -9.9)%float = true -> (x <? 0)%float = true.
Proof.
  intros (a & b & Ha & Hb & H)%F64Facts.leb_key.
  apply F64Facts.ltb_key. exists a, (0, 0, 0)%Z.
  split; [exact Ha|]. split; [reflexivity|].
  vm_compute in Hb. injection Hb as <-.
  destruct a as [[a1 a2] a3]. unfold F64.key_le, F64.key_lt in *. lia.
Qed.

Lemma filter_length_mono {A : Type} (p q : A -> bool) (l : list A) :
  (forall a, p a = true -> q a = true) ->
  List.length (filter p l) <= List.length (filter q l).
Proof.
  intros H. induction l as [|a l IH]; cbn; [lia|].
  destruct (p a) eqn:E.
  - rewrite (H a E). cbn. lia.
  - destruct (q a); cbn; lia.
Qed.

(** Every row is above zero, below zero, equal to zero or missing. *)
Lemma signs_and_missing {A : Type} (f : A -> float) (l : list A) :
  (List.length (filter (fun a => 0 <? f a)%float l)
   + List.length (filter (fun a => f a <? 0)%float l)
   + List.length (filter (fun a => f a =? 0)%float l)
   + List.length (filter (fun a => PrimFloat.is_nan (f a)) l)
   = List.length l)%nat.
Proof.
  induction l as [|a l IH]; cbn [filter]; [reflexivity|].
  destruct (PrimFloat.is_nan (f a)) eqn:E.
  - rewrite (F64Facts.ltb_nan_r 0 (f a) E), (F64Facts.ltb_nan_l (f a) 0 E),
      (eqb_nan (f a) 0 E). cbn [List.length]. lia.
  - assert (Hx : F64.is_number (f a) = true) by (unfold F64.is_number; now rewrite E).
    pose proof (F64Facts.sign_trichotomy (f a) Hx) as T.
    unfold F64.gt, F64.lt in T.
    destruct (0 <? f a)%float, (f a <? 0)%float, (f a =? 0)%float;
      cbn [Z.b2z] in T; cbn [List.length]; lia.
Qed.

Lemma mapM_raises {A B : Type} (f : A -> outcome B) (l : list A) (e : exn) :
  (forall a, In a l -> (exists b, f a = Return b) \/ f a = Raise e) ->
  Exists (fun a => f a = Raise e) l ->
  mapM f l = Raise e.
Proof.
  intros Hall Hex. induction Hex as [a l Ha|a l _ IH]; cbn [mapM].
  - now rewrite Ha.
  - destruct (Hall a) as [(b & ->)| ->]; [now left| |reflexivity].
    cbn [bind]. rewrite IH; [reflexivity|]. intros; apply Hall; now right.
Qed.

Section WithLibrary.
Variable L : library.

(** X10. The counts of the statistics relate as their names say: every limit-up
    row is an advancing row and every limit-down row a declining one; the
    advancing, declining and flat rows and the rows without a percent
    change make up the total. *)
Theorem statistics_counts_relate (w : world) (df : DataFrame) :
  request_context w = Return tt ->
  stock_zh_a_spot_em w = Return df ->
  float_columns df ["涨跌幅"; "成交额"] = true ->
  exists doc limit_up limit_down up down flat total,
    get_market_statistics L w = Return (JsonText doc) /\
    path doc ["涨跌停统计"; "涨停家数"] = Some (JInt limit_up) /\
    path doc ["涨跌停统计"; "跌停家数"] = Some (JInt limit_down) /\
    path doc ["涨跌家数"; "上涨家数"] = Some (JInt up) /\
    path doc ["涨跌家数"; "下跌家数"] = Some (JInt down) /\
    path doc ["涨跌家数"; "平盘家数"] = Some (JInt flat) /\
    path doc ["股票总数"] = Some (JInt total) /\
    (0 <= limit_up <= up)%Z /\ (0 <= limit_down <= down)%Z /\
    (0 <= flat)%Z /\
    (up + down + flat + count_rows PrimFloat.is_nan "涨跌幅" df = total)%Z.
Proof.
  intros Hctx Hdf Hf. exists (statistics_json L df).
  eexists _, _, _, _, _, _. split; [now apply market_statistics_floats|].
  do 6 (split; [reflexivity|]). unfold count_rows.
  pose proof (signs_and_missing (fun r => float_at r "涨跌幅") (rows df)) as P.
  pose proof (filter_length_mono
                (fun r => 9.9 <=? float_at r "涨跌幅")%float
                (fun r => 0 <? float_at r "涨跌幅")%float (rows df)
                (fun r => limit_up_is_up _)) as U.
  pose proof (filter_length_mono
                (fun r => float_at r "涨跌幅" <=? -9.9)%float
                (fun r => float_at r "涨跌幅" <? 0)%float (rows df)
                (fun r => limit_down_is_down _)) as D.
  lia.
Qed.

(** X11. The statistics tool does not read text as numbers: one percent change
    held as a string makes it fall back, whatever [float] would make of the
    string. *)
Theorem statistics_do_not_parse_text (w : world) (df : DataFrame) (r : record)
  (s : string) :
  request_context w = Return tt ->
  stock_zh_a_spot_em w = Return df ->
  has_label "涨跌幅" (columns df) = true ->
  In r (rows df) ->
  at_ r "涨跌幅" = CStr s ->
  exists e,
    attempt L w MarketStatistics = Raise e /\
    exn_type e = "TypeError" /\
    falls_back_with L w MarketStatistics (exn_str e).
Proof.
  intros Hctx Hdf Hl Hin Hs.
  set (e := type_error
              "'>=' not supported between instances of 'str' and 'float'").
  assert (Ha : attempt L w MarketStatistics = Raise e).
  { cbn [attempt]. unfold get_market_statistics_try.
    rewrite Hctx, Hdf; cbn [bind]. unfold count_where at 1.
    rewrite (getitem_label _ _ Hl); cbn [bind].
    rewrite (mapM_raises _ _ e); [reflexivity| |].
    - intros c _. destruct c; cbn [cmp_num]; eauto.
    - apply Exists_exists. exists (at_ r "涨跌幅").
      split; [exact (in_map (fun r => at_ r "涨跌幅") _ _ Hin) | now rewrite Hs]. }
  exists e. split; [exact Ha|]. split; [reflexivity|].
  now apply ShapeFacts.fallback_of_raise.
Qed.

(** On a snapshot without rows the statistics tool counts zero
    everywhere. *)
Lemma statistics_without_rows (w : world) (df : DataFrame) :
  request_context w = Return tt ->
  stock_zh_a_spot_em w = Return df ->
  rows df = [] ->
  has_label "涨跌幅" (columns df) = true ->
  has_label "成交额" (columns df) = true ->
  get_market_statistics L w = Return (JsonText (no_rows_statistics L)).
Proof.
  intros Hctx Hdf Hr Hp Ha.
  rewrite (market_statistics_floats L w df Hctx Hdf).
  - unfold statistics_json, count_rows. now rewrite Hr.
  - unfold float_columns, float_column; cbn [forallb]. now rewrite Hp, Ha, Hr.
Qed.

End WithLibrary.

Lemma statistics_counts_relate_witness :
  let w := Sample.world_of snapshot_with_suspended in
  count_rows PrimFloat.is_nan "涨跌幅" snapshot_with_suspended = 2%Z /\
  exists doc limit_up limit_down up down flat total,
    get_market_statistics Sample.lib w = Return (JsonText doc) /\
    path doc ["涨跌停统计"; "涨停家数"] = Some (JInt limit_up) /\
    path doc ["涨跌停统计"; "跌停家数"] = Some (JInt limit_down) /\
    path doc ["涨跌家数"; "上涨家数"] = Some (JInt up) /\
    path doc ["涨跌家数"; "下跌家数"] = Some (JInt down) /\
    path doc ["涨跌家数"; "平盘家数"] = Some (JInt flat) /\
    path doc ["股票总数"] = Some (JInt total) /\
    (0 <= limit_up <= up)%Z /\ (0 <= limit_down <= down)%Z /\
    (0 <= flat)%Z /\
    (up + down + flat + 2 = total)%Z.
Proof.
  intros w. split; [reflexivity|].
  exact (statistics_counts_relate Sample.lib w snapshot_with_suspended
           eq_refl eq_refl eq_refl).
Defined.

Lemma statistics_do_not_parse_text_witness :
  let w := Sample.world_of textual_change_snapshot in
  Sample.decimal "1.5" = Some 1.5%float /\
  exists e,
    attempt Sample.lib w MarketStatistics = Raise e /\
    exn_type e = "TypeError" /\
    falls_back_with Sample.lib w MarketStatistics (exn_str e).
Proof.
  intros w. split; [reflexivity|].
  eapply (statistics_do_not_parse_text Sample.lib w textual_change_snapshot
            _ "1.5" eq_refl eq_refl eq_refl).
  - right; left; reflexivity.
  - reflexivity.
Defined.

End MarketEdgeFacts.

(** ** More on the sectors, and tables without rows *)

Module SectorEdgeFacts.
Import Py Pandas Tools Spec Cases PandasFacts SortedFacts SortFacts RankingFacts
  SectorFacts.

Section WithLibrary.
Variable L : library.

(** X13. How the two lists of the sector tool overlap.  With ten sectors or
    fewer both lists are the whole sorted table; from ten to twenty sectors
    the last [20 - n] entries of the first list are the first entries of
    the second; with twenty or more no sector of the second list has a
    greater percent change than a sector of the first. *)
Theorem best_and_worst_overlap (w : world) (df : DataFrame) :
  request_context w = Return tt ->
  stock_board_industry_name_em w = Return df ->
  has_columns df sector_columns = true ->
  float_columns df ["最新价"; "涨跌幅"; "涨跌额"] = true ->
  count_column df "上涨家数" = true ->
  count_column df "下跌家数" = true ->
  exists best worst,
    get_sector_performance L w =
      Return (JsonText (JObj [("表现最好的板块", JList best);
                              ("表现最差的板块", JList worst)])) /\
    (List.length (rows df) <= 10 ->
     best = worst /\ List.length best = List.length (rows df)) /\
    (10 <= List.length (rows df) <= 20 ->
     skipn (List.length (rows df) - 10) best =
     firstn (20 - List.length (rows df)) worst) /\
    (20 <= List.length (rows df) ->
     forall b c, In b best -> In c worst ->
       PrimFloat.ltb (pct_field b) (pct_field c) = false).
Proof.
  intros Hctx Hdf Hc Hf Hu Hd.
  destruct (sector_performance_floats L w df Hctx Hdf Hc Hf Hu Hd)
    as (best & worst & Hrun & sorted & Ps & Ss & -> & -> & Hdec).
  eexists _, _. split; [exact Hrun|].
  pose proof (Permutation_length Ps) as Hlen. rewrite <- Hlen.
  split; [|split].
  - intros Hn.
    replace (List.length sorted - 10) with 0 by lia.
    rewrite firstn_all2 by lia. cbn [skipn]. now rewrite length_map.
  - intros Hn. rewrite skipn_map, firstn_map. f_equal.
    rewrite firstn_skipn_comm. f_equal. f_equal. lia.
  - intros Hn b c (rb & <- & Hb)%in_map_iff (rc & <- & Hcw)%in_map_iff.
    change (PrimFloat.ltb (pct rb) (pct rc) = false).
    rewrite Hlen in Hn. destruct (Hdec Hn) as (middle & Hsplit).
    set (top := firstn 10 sorted) in *.
    set (bottom := skipn (List.length sorted - 10) sorted) in *.
    rewrite Hsplit in Ss.
    apply sorted_app_inv in Ss as (_ & _ & X).
    destruct (X rb rc Hb (in_or_app _ _ _ (or_intror Hcw))) as [H|H].
    + now apply F64Facts.ltb_nan_r.
    + now apply F64Facts.leb_not_ltb.
Qed.

Lemma sector_row_keys (s : Series) (j : json) :
  sector_row L s = Return j -> obj_keys j = sector_keys.
Proof.
  unfold sector_row. intros H. do 6 bind_inv H. now injection H as <-.
Qed.

Lemma mapM_all {A B : Type} (f : A -> outcome B) (P : B -> Prop) (l : list A)
  (out : list B) :
  (forall a b, f a = Return b -> P b) -> mapM f l = Return out -> Forall P out.
Proof.
  intros Hf H%PyFacts.mapM_Return.
  induction H as [|a b l out Hb _ IH]; constructor; eauto.
Qed.

(** X14. The sector tool asks for eight columns and writes six.  A table that
    lacks one of the eight, the volume or the turnover included, makes it
    fall back; an entry it builds has neither of those two. *)
Theorem sector_selects_unused_columns (w : world) :
  (forall df,
     request_context w = Return tt ->
     stock_board_industry_name_em w = Return df ->
     has_columns df sector_columns = false ->
     exists e,
       attempt L w SectorPerformance = Raise e /\
       exn_type e = "KeyError" /\
       falls_back_with L w SectorPerformance (exn_str e)) /\
  (forall doc,
     attempt L w SectorPerformance = Return (JsonText doc) ->
     exists best worst,
       doc = JObj [("表现最好的板块", JList best); ("表现最差的板块", JList worst)] /\
       Forall (fun j => obj_keys j = ["板块名称"; "最新价"; "涨跌幅"; "涨跌额";
                                      "上涨家数"; "下跌家数"]) (best ++ worst)).
Proof.
  split.
  - intros df Hctx Hdf Hc.
    assert (Ha : attempt L w SectorPerformance =
                 Raise (mkExn "KeyError" "not in index")).
    { cbn [attempt]. unfold get_sector_performance_try.
      rewrite Hctx, Hdf; cbn [bind]. unfold select_columns.
      fold (has_columns df sector_columns). now rewrite Hc. }
    eexists. split; [exact Ha|]. split; [reflexivity|].
    now apply ShapeFacts.fallback_of_raise.
  - cbn [attempt]. intros doc H.
    unfold get_sector_performance_try in H. do 6 bind_inv H. injection H as <-.
    eexists _, _. split; [reflexivity|].
    apply Forall_app. split; eapply mapM_all; eauto using sector_row_keys.
Qed.

(** On a sector table without rows both lists are empty. *)
Lemma sectors_without_rows (w : world) (df : DataFrame) :
  request_context w = Return tt ->
  stock_board_industry_name_em w = Return df ->
  rows df = [] ->
  has_columns df sector_columns = true ->
  get_sector_performance L w =
    Return (JsonText (JObj [("表现最好的板块", JList []);
                            ("表现最差的板块", JList [])])).
Proof.
  intros Hctx Hdf Hr Hc.
  unfold get_sector_performance, get_sector_performance_try.
  rewrite Hctx, Hdf; cbn [bind]. unfold select_columns.
  fold (has_columns df sector_columns). rewrite Hc, Hr. reflexivity.
Qed.

(** X12. Tables without rows are no failure.  The ranking and the sector tool
    give empty lists and the statistics tool counts zero everywhere; none
    of them falls back. *)
Theorem tables_without_rows (w : world) (df sectors : DataFrame) :
  request_context w = Return tt ->
  stock_zh_a_spot_em w = Return df ->
  stock_board_industry_name_em w = Return sectors ->
  rows df = [] ->
  rows sectors = [] ->
  has_columns df ranking_columns = true ->
  has_columns sectors sector_columns = true ->
  get_stock_ranking L w =
    Return (JsonText (JObj [("涨幅榜", JList []); ("跌幅榜", JList [])])) /\
  get_sector_performance L w =
    Return (JsonText (JObj [("表现最好的板块", JList []);
                            ("表现最差的板块", JList [])])) /\
  exists doc,
    get_market_statistics L w = Return (JsonText doc) /\
    path doc ["涨跌停统计"; "涨停家数"] = Some (JInt 0) /\
    path doc ["涨跌停统计"; "跌停家数"] = Some (JInt 0) /\
    path doc ["涨跌家数"; "上涨家数"] = Some (JInt 0) /\
    path doc ["涨跌家数"; "下跌家数"] = Some (JInt 0) /\
    path doc ["涨跌家数"; "平盘家数"] = Some (JInt 0) /\
    path doc ["股票总数"] = Some (JInt 0).
Proof.
  intros Hctx Hdf Hs Hr Hrs Hc Hsc.
  split; [now apply RankingEdgeFacts.ranking_without_rows with df|].
  split; [now apply sectors_without_rows with sectors|].
  exists (no_rows_statistics L).
  split; [|repeat split; reflexivity].
  unfold has_columns in Hc. rewrite forallb_forall in Hc.
  apply MarketEdgeFacts.statistics_without_rows with df; trivial;
    apply Hc; cbn; tauto.
Qed.

End WithLibrary.

Lemma best_and_worst_overlap_witness :
  let w := sector_world twelve_sectors in
  List.length (rows twelve_sectors) = 12 /\
  exists best worst,
    get_sector_performance Sample.lib w =
      Return (JsonText (JObj [("表现最好的板块", JList best);
                              ("表现最差的板块", JList worst)])) /\
    skipn 2 best = firstn 8 worst.
Proof.
  intros w. split; [reflexivity|].
  destruct (best_and_worst_overlap Sample.lib w twelve_sectors
              eq_refl eq_refl eq_refl eq_refl eq_refl eq_refl)
    as (best & worst & Hrun & _ & Hmid & _).
  exists best, worst. split; [exact Hrun|]. apply Hmid. cbn. lia.
Defined.

Lemma sector_selects_unused_columns_witness :
  let w := sector_world sectors_without_volume in
  has_label "成交量" (columns sectors_without_volume) = false /\
  exists e,
    attempt Sample.lib w SectorPerformance = Raise e /\
    exn_type e = "KeyError" /\
    falls_back_with Sample.lib w SectorPerformance (exn_str e).
Proof.
  intros w. split; [reflexivity|].
  destruct (sector_selects_unused_columns Sample.lib w) as [H _].
  exact (H sectors_without_volume eq_refl eq_refl eq_refl).
Defined.

Lemma tables_without_rows_witness :
  let w := mkWorld (Return tt) (Return (mkDF Sample.quote_columns []))
                   (Return (mkDF Sample.sector_table_columns [])) in
  get_stock_ranking Sample.lib w =
    Return (JsonText (JObj [("涨幅榜", JList []); ("跌幅榜", JList [])])) /\
  get_sector_performance Sample.lib w =
    Return (JsonText (JObj [("表现最好的板块", JList []);
                            ("表现最差的板块", JList [])])) /\
  exists doc,
    get_market_statistics Sample.lib w = Return (JsonText doc) /\
    path doc ["涨跌停统计"; "涨停家数"] = Some (JInt 0) /\
    path doc ["涨跌停统计"; "跌停家数"] = Some (JInt 0) /\
    path doc ["涨跌家数"; "上涨家数"] = Some (JInt 0) /\
    path doc ["涨跌家数"; "下跌家数"] = Some (JInt 0) /\
    path doc ["涨跌家数"; "平盘家数"] = Some (JInt 0) /\
    path doc ["股票总数"] = Some (JInt 0).
Proof.
  intros w.
  exact (tables_without_rows Sample.lib w _ _
           eq_refl eq_refl eq_refl eq_refl eq_refl eq_refl eq_refl).
Defined.

End SectorEdgeFacts.

(** ** Failures *)

Module FailureFacts.
Import Py Pandas Tools Spec Cases PandasFacts ShapeFacts.

Section WithLibrary.
Variable L : library.

(** X15. The text a caller reads under ["error"] is that of the first failure:
    of the request context when it cannot be had, for every tool; else of
    the snapshot call, for the four tools that make it, and of the sector
    call for the sector tool. *)
Theorem failure_text_is_reported (w : world) (e : exn) :
  (request_context w = Raise e ->
   forall op, falls_back_with L w op (exn_str e)) /\
  (request_context w = Return tt -> stock_zh_a_spot_em w = Raise e ->
   forall op, op <> SectorPerformance -> falls_back_with L w op (exn_str e)) /\
  (request_context w = Return tt -> stock_board_industry_name_em w = Raise e ->
   falls_back_with L w SectorPerformance (exn_str e)).
Proof.
  split; [|split].
  - intros Hctx op. apply fallback_of_raise.
    destruct op; cbn [attempt];
      unfold get_stock_index_data_try, get_stock_ranking_try,
        get_market_statistics_try, get_sector_performance_try,
        get_stock_info_try; now rewrite Hctx.
  - intros Hctx Hdf op Hop. apply fallback_of_raise.
    destruct op; cbn [attempt]; try congruence;
      unfold get_stock_index_data_try, get_stock_ranking_try,
        get_market_statistics_try, get_stock_info_try; now rewrite Hctx, Hdf.
  - intros Hctx Hdf. apply fallback_of_raise. cbn [attempt].
    unfold get_sector_performance_try. now rewrite Hctx, Hdf.
Qed.

Lemma float_get_raises (idx : Series) (k : string) (e : exn) :
  float_get L idx k = Raise e -> exn_type e = "ValueError".
Proof.
  unfold float_get. destruct (series_get idx k) as [[x|s]|]; cbn [py_float];
    try discriminate.
  destruct (float_of_str L s); [discriminate|]. now intros [= <-].
Qed.

Lemma float_get_text (labels : list string) (r : record) (k s : string) :
  has_label k labels = true -> at_ r k = CStr s -> float_of_str L s = None ->
  exists e, float_get L (mkSeries labels r) k = Raise e.
Proof.
  intros Hl Hs Hp. unfold float_get, series_get; cbn [index values].
  rewrite Hl, Hs. cbn [py_float]. rewrite Hp. eauto.
Qed.

(** With the code column, a turn of the loop raises nothing but the
    ValueError of [float]. *)
Lemma index_row_raises (df : DataFrame) (code : string) (e : exn) :
  has_label "代码" (columns df) = true ->
  index_row L df code = Raise e -> exn_type e = "ValueError".
Proof.
  intros Hl. rewrite index_row_closed. unfold index_row_of. rewrite Hl.
  destruct (first_with_code df code) as [r|]; [|discriminate].
  cbn zeta.
  repeat match goal with
  | |- bind (float_get L ?i ?k) _ = Raise _ -> _ =>
      let E := fresh "E" in
      destruct (float_get L i k) eqn:E; cbn [bind];
      [|intros [= <-]; eapply float_get_raises; exact E]
  end.
  discriminate.
Qed.

Lemma index_row_text (df : DataFrame) (code : string) (r : record) (k s : string) :
  has_label "代码" (columns df) = true ->
  first_with_code df code = Some r ->
  In k index_numeric -> has_label k (columns df) = true ->
  at_ r k = CStr s -> float_of_str L s = None ->
  exists e, index_row L df code = Raise e.
Proof.
  intros Hl Hr Hk Hlk Hs Hp. rewrite index_row_closed. unfold index_row_of.
  rewrite Hl, Hr. cbn zeta.
  destruct (float_get_text (columns df) r k s Hlk Hs Hp) as (e & He).
  destruct Hk as [<-|[<-|[<-|[<-|[<-|[]]]]]];
    repeat match goal with
    | |- exists _, bind (float_get L ?i ?k') _ = Raise _ =>
        first
          [ rewrite He; cbn [bind]; eexists; reflexivity
          | destruct (float_get L i k'); cbn [bind];
            [|eexists; reflexivity] ]
    end.
Qed.

(** X16. The index tool gives no partial document.  One cell of one found index
    row that [float] cannot read makes the whole response the fallback,
    the rows of the other indices included, and ["error"] holds the text of
    a ValueError. *)
Theorem one_unreadable_cell_spoils_index_data (w : world) (df : DataFrame)
  (name code : string) (r : record) (k s : string) :
  request_context w = Return tt ->
  stock_zh_a_spot_em w = Return df ->
  has_label "代码" (columns df) = true ->
  In (name, code) indices ->
  first_with_code df code = Some r ->
  In k index_numeric -> has_label k (columns df) = true ->
  at_ r k = CStr s -> float_of_str L s = None ->
  exists e,
    attempt L w IndexData = Raise e /\
    exn_type e = "ValueError" /\
    falls_back_with L w IndexData (exn_str e).
Proof.
  intros Hctx Hdf Hl Hin Hr Hk Hlk Hs Hp.
  destruct (index_row_text df code r k s Hl Hr Hk Hlk Hs Hp) as (e0 & He0).
  assert (H : exists e, attempt L w IndexData = Raise e /\ exn_type e = "ValueError").
  { cbn [attempt]. unfold get_stock_index_data_try.
    rewrite Hctx, Hdf; cbn [bind]. unfold indices in *; cbn [index_loop].
    pose proof (index_row_raises df) as R.
    destruct Hin as [E|[E|[E|[E|[]]]]]; injection E as <- <-;
      repeat match goal with
      | |- context [index_row L df ?c] =>
          let E := fresh "E" in
          destruct (index_row L df c) eqn:E; cbn [bind];
          [|eexists; split; [reflexivity | exact (R _ _ Hl E)]]
      end; congruence. }
  destruct H as (e & Ha & Ht). exists e. repeat split; trivial.
  now apply fallback_of_raise.
Qed.

End WithLibrary.

Lemma failure_text_is_reported_witness :
  falls_back_with Sample.lib Sample.offline (StockInfo "600000")
    "Connection timed out" /\
  falls_back_with Sample.lib Sample.offline SectorPerformance
    "Connection timed out".
Proof.
  destruct (failure_text_is_reported Sample.lib Sample.offline Sample.timeout)
    as (_ & Hs & Hi).
  split; [apply Hs; [reflexivity | reflexivity | discriminate]|].
  apply Hi; reflexivity.
Defined.

Lemma one_unreadable_cell_spoils_index_data_witness :
  let w := Sample.world_of dashed_snapshot in
  Sample.decimal "-" = None /\
  exists e,
    attempt Sample.lib w IndexData = Raise e /\
    exn_type e = "ValueError" /\
    falls_back_with Sample.lib w IndexData (exn_str e).
Proof.
  intros w. split; [reflexivity|].
  eapply (one_unreadable_cell_spoils_index_data Sample.lib w dashed_snapshot
            "深证成指" "399001" _ "最新价" "-"); try reflexivity.
  - right; left; reflexivity.
  - left; reflexivity.
Defined.

End FailureFacts.

(** ** The schema of the documents *)

Module SchemaFacts.
Import Py Pandas Tools Spec Cases PandasFacts EntryFacts.

(** How [conforms] reads an object and a list, one element at a time. *)
Lemma conforms_field (k : string) (v : json) (s : shape)
  (o : list (string * json)) (fs : list (string * shape)) :
  annotation k = false ->
  conforms (JObj ((k, v) :: o)) (SObject ((k, s) :: fs)) =
  conforms v s && conforms (JObj o) (SObject fs).
Proof.
  intros H. cbn [conforms]. now rewrite H, String.eqb_refl.
Qed.

Lemma conforms_rows (l : list json) (fs : list (string * shape)) :
  Forall (fun j => conforms j (SObject fs) = true) l ->
  conforms (JList l) (SRows fs) = true.
Proof.
  induction 1 as [|j l Hj _ IH]; [reflexivity|].
  cbn [conforms] in *. now rewrite Hj, IH.
Qed.

Lemma text_column_at (df : DataFrame) (k : string) (r : record) :
  text_column df k = true -> In r (rows df) -> exists s, at_ r k = CStr s.
Proof.
  unfold text_column. rewrite forallb_forall. intros H Hin.
  specialize (H r Hin). destruct (at_ r k) as [x|s]; [discriminate | eauto].
Qed.

Lemma Forall2_Forall_r {A B : Type} (P : A -> B -> Prop) (Q : B -> Prop)
  (l : list A) (m : list B) :
  (forall a b, In a l -> P a b -> Q b) -> Forall2 P l m -> Forall Q m.
Proof.
  intros HPQ H. induction H as [|a b l m Hab _ IH]; constructor.
  - apply (HPQ a); [now left | exact Hab].
  - apply IH. intros a' b' Ha'. apply HPQ. now right.
Qed.

Section WithLibrary.
Variable L : library.

Lemma series_getitem_Return (labels : list string) (r : record) (k : string)
  (c : cell) :
  series_getitem (mkSeries labels r) k = Return c -> c = at_ r k.
Proof.
  unfold series_getitem; cbn [index values].
  destruct (has_label k labels); [|discriminate]. now intros [= <-].
Qed.

Lemma ranking_row_conforms (labels : list string) (r : record) (j : json) :
  ranking_row L (mkSeries labels r) = Return j ->
  is_text_cell (at_ r "代码") = true -> is_text_cell (at_ r "名称") = true ->
  conforms j (SObject (("代码", SText) :: ("名称", SText) :: numbers index_numeric))
  = true.
Proof.
  unfold ranking_row. intros H Hc Hn. do 7 bind_inv H. injection H as <-.
  apply series_getitem_Return in E as ->. apply series_getitem_Return in E0 as ->.
  destruct (at_ r "代码"); [discriminate|].
  destruct (at_ r "名称"); [discriminate|]. reflexivity.
Qed.

Lemma sector_row_conforms (labels : list string) (r : record) (j : json) :
  sector_row L (mkSeries labels r) = Return j ->
  is_text_cell (at_ r "板块名称") = true ->
  conforms j (SObject (("板块名称", SText)
                       :: numbers ["最新价"; "涨跌幅"; "涨跌额"; "上涨家数"; "下跌家数"]))
  = true.
Proof.
  unfold sector_row. intros H Hn. do 6 bind_inv H. injection H as <-.
  apply series_getitem_Return in E as ->.
  destruct (at_ r "板块名称"); [discriminate|]. reflexivity.
Qed.

Lemma info_fields_conform (row : Series) (ks : list string)
  (nums : list (string * json)) :
  Forall (fun k => annotation k = false) ks ->
  mapM (fun k => x <- float_item L row k ;; Return (k, JFloat x)) ks = Return nums ->
  conforms (JObj nums) (SObject (numbers ks)) = true.
Proof.
  intros Ha H%PyFacts.mapM_Return. revert Ha.
  induction H as [|k kv ks nums Hk _ IH]; intros Ha; [reflexivity|].
  apply Forall_cons_iff in Ha as [Hk0 Ha].
  bind_inv Hk. injection Hk as <-.
  unfold numbers; cbn [map]. fold (numbers ks).
  rewrite (conforms_field _ _ _ _ _ Hk0). now rewrite (IH Ha).
Qed.

Lemma index_row_conforms (df : DataFrame) (code : string) (j : json) :
  index_row L df code = Return j ->
  conforms j (SObject (("代码", SText) :: numbers index_numeric)) = true.
Proof.
  intros H%IndexFacts.index_row_Return.
  destruct (first_with_code df code).
  - destruct H as (p1 & p2 & p3 & p4 & p5 & -> & _). reflexivity.
  - subst j. reflexivity.
Qed.

(** X17. A document that a tool builds from the provider's tables conforms
    to the schema of its operation, the one its fallback document conforms
    to, when the codes and names the tool copies are text; for the index
    tool and the statistics tool, whatever the tables hold. *)
Theorem documents_conform_to_the_schema (w : world) (op : operation) (doc : json) :
  attempt L w op = Return (JsonText doc) ->
  names_are_text w op ->
  conforms doc (SObject (schema_of op)) = true.
Proof.
  destruct op as [| | | |code]; cbn [attempt names_are_text schema_of]; intros H Ht.
  - apply IndexFacts.index_try_Return in H
      as (df & j1 & j2 & j3 & j4 & _ & [= ->] & H1 & H2 & H3 & H4).
    unfold indices; cbn [map fst].
    rewrite !conforms_field by reflexivity.
    rewrite (index_row_conforms _ _ _ H1), (index_row_conforms _ _ _ H2),
      (index_row_conforms _ _ _ H3), (index_row_conforms _ _ _ H4).
    reflexivity.
  - unfold get_stock_ranking_try in H. do 8 bind_inv H. injection H as <-.
    destruct (Ht _ E0) as [Tc Tn].
    apply sort_values_Return in E1 as [_ Pd].
    apply sort_values_Return in E2 as [_ Pa].
    apply select_columns_Return in E3 as [_ ->].
    apply select_columns_Return in E5 as [_ ->].
    unfold head in *; cbn [columns rows] in *.
    rewrite !conforms_field by reflexivity.
    assert (Hrow : forall sorted out,
               Permutation sorted (rows v0) ->
               mapM (ranking_row L)
                    (iterrows (mkDF ranking_columns (firstn 20 sorted))) = Return out ->
               conforms (JList out)
                 (SRows (("代码", SText) :: ("名称", SText) :: numbers index_numeric))
               = true).
    { intros sorted out Ps Hout. apply conforms_rows.
      apply (iterrows_Forall2 _ (fun r j => ranking_row L (mkSeries ranking_columns r)
                                             = Return j)) in Hout; [|auto].
      eapply Forall2_Forall_r; [|exact Hout].
      intros r j Hin Hj. cbn beta in Hj.
      apply RankingFacts.In_firstn in Hin.
      pose proof (Permutation_in _ Ps Hin) as Hr.
      destruct (text_column_at _ _ _ Tc Hr) as (s1 & Hs1).
      destruct (text_column_at _ _ _ Tn Hr) as (s2 & Hs2).
      apply (ranking_row_conforms _ _ _ Hj); [now rewrite Hs1 | now rewrite Hs2]. }
    rewrite (Hrow _ _ Pd E4), (Hrow _ _ Pa E6). reflexivity.
  - unfold get_market_statistics_try in H. do 11 bind_inv H.
    injection H as <-. reflexivity.
  - unfold get_sector_performance_try in H. do 6 bind_inv H. injection H as <-.
    pose proof (Ht _ E0) as Tn.
    apply select_columns_Return in E1 as [_ ->].
    apply sort_values_Return in E2 as [Cs Ps]. cbn [columns rows] in Cs, Ps.
    unfold head, tail in *. rewrite Cs in *.
    rewrite !conforms_field by reflexivity.
    assert (Hrow : forall part out,
               incl part (rows v2) ->
               mapM (sector_row L) (iterrows (mkDF sector_columns part)) = Return out ->
               conforms (JList out)
                 (SRows (("板块名称", SText)
                         :: numbers ["最新价"; "涨跌幅"; "涨跌额"; "上涨家数"; "下跌家数"]))
               = true).
    { intros part out Hin Hout. apply conforms_rows.
      apply (iterrows_Forall2 _ (fun r j => sector_row L (mkSeries sector_columns r)
                                             = Return j)) in Hout; [|auto].
      eapply Forall2_Forall_r; [|exact Hout].
      intros r j Hr Hj. cbn beta in Hj.
      pose proof (Permutation_in _ Ps (Hin r Hr)) as Hr'.
      destruct (text_column_at _ _ _ Tn Hr') as (s1 & Hs1).
      apply (sector_row_conforms _ _ _ Hj). now rewrite Hs1. }
    rewrite (Hrow _ _ (fun r Hr => RankingFacts.In_firstn _ _ _ Hr) E3).
    rewrite (Hrow _ _ (fun r Hr => RankingFacts.In_skipn _ _ _ Hr) E4).
    reflexivity.
  - unfold get_stock_info_try in H. do 3 bind_inv H.
    pose proof (Ht _ E0) as Tn.
    apply getitem_Return in E1 as [Hl ->]. rewrite mask_rows_test in H.
    destruct (empty _) eqn:Ee; [discriminate|].
    unfold iloc0 in H; cbn [rows columns] in H.
    destruct (filter _ (rows v0)) as [|rec rs] eqn:Ef; [discriminate|].
    cbn [bind] in H. do 3 bind_inv H. injection H as <-.
    apply series_getitem_Return in E1 as ->. apply series_getitem_Return in E2 as ->.
    assert (Hin : In rec (filter (fun r => eq_str code (at_ r "代码")) (rows v0)))
      by (rewrite Ef; now left).
    apply filter_In in Hin as [Hin Heq].
    destruct (text_column_at _ _ _ Tn Hin) as (s2 & Hs2).
    rewrite !conforms_field by reflexivity.
    assert (Ha : Forall (fun k => annotation k = false) stock_info_floats)
      by (unfold stock_info_floats; repeat constructor).
    rewrite (info_fields_conform _ _ _ Ha E3).
    rewrite Hs2. destruct (at_ rec "代码"); [discriminate|]. reflexivity.
Qed.

End WithLibrary.

Lemma documents_conform_to_the_schema_witness :
  let w := Sample.world_of Sample.snapshot in
  exists doc,
    attempt Sample.lib w Ranking = Return (JsonText doc) /\
    conforms doc (SObject (schema_of Ranking)) = true.
Proof.
  intros w. eexists. split; [reflexivity|].
  apply (documents_conform_to_the_schema Sample.lib w Ranking).
  - reflexivity.
  - intros df [= <-]. split; reflexivity.
Defined.

End SchemaFacts.
